(** * NyRAG: deployment orchestration and text chunking

    A shallow embedding of [nyrag/deploy.py] and of [chunks],
    [get_tls_config_from_deploy] and the keyword arguments of
    [make_vespa_client] from [nyrag/utils.py], with the properties of the
    deploy orchestrator, the failure classifier, the confirmation gate, the
    version-adaptive invoker, the chunker and the client configuration.

    Python [str] values are modelled by [string]; a character is a code
    point below 256 (the Latin-1 range of Unicode), on which [str.lower],
    [str.strip] and [str.split] are written out below.

    Effects are explicit: a call runs in a [World] and appends to its
    trace every action it takes on the outside (collaborator calls, log
    lines, prompts, reads, file writes). The collaborators that are not in
    this repository (pyvespa, the console, the file system) are
    parameters, each free to fail. Exceptions are instances of
    [Exception], the ones [except Exception] catches; [while] loops carry
    fuel, and the theorems show how much is enough. A
    [TemporaryDirectory] lives as long as the variable [tmp] holds it, as
    under CPython's reference counting: when [tmp] is bound anew or the
    call returns, the directory is removed. *)

From Stdlib Require Import List String Ascii ZArith Lia Bool Arith DecimalString.
Import ListNotations.

Local Open Scope string_scope.

(** ** Python string primitives *)

Module PyStr.

Definition code (c : ascii) : nat := nat_of_ascii c.

(** [str.lower] on one code point: A-Z, and the Latin-1 capitals
    U+00C0..U+00DE without the multiplication sign U+00D7. *)
Definition lower_char (c : ascii) : ascii :=
  let n := code c in
  if (((65 <=? n) && (n <=? 90))
      || ((192 <=? n) && (n <=? 222) && negb (n =? 215)))%nat
  then ascii_of_nat (n + 32)
  else c.

Fixpoint lower (s : string) : string :=
  match s with
  | EmptyString => EmptyString
  | String c t => String (lower_char c) (lower t)
  end.

(** [str.isspace] on one code point: TAB..CR, FS..US, SPACE, NEL, NBSP. *)
Definition is_space (c : ascii) : bool :=
  let n := code c in
  (((9 <=? n) && (n <=? 13)) || ((28 <=? n) && (n <=? 32))
   || (n =? 133) || (n =? 160))%nat.

(** [needle in hay] *)
Fixpoint contains (needle hay : string) : bool :=
  prefix needle hay ||
  match hay with
  | EmptyString => false
  | String _ t => contains needle t
  end.

Fixpoint lstrip (s : string) : string :=
  match s with
  | EmptyString => EmptyString
  | String c t => if is_space c then lstrip t else s
  end.

Fixpoint rstrip (s : string) : string :=
  match s with
  | EmptyString => EmptyString
  | String c t =>
      match rstrip t with
      | EmptyString => if is_space c then EmptyString else String c EmptyString
      | r => String c r
      end
  end.

(** [s.strip()] *)
Definition strip (s : string) : string := rstrip (lstrip s).

(** [s.split()]: maximal runs of non-space characters, in order.
    [cur] is the word being read, reversed. *)
Definition rev_string (r : list ascii) : string :=
  fold_left (fun acc c => String c acc) r EmptyString.

Definition flush (cur : list ascii) (ws : list string) : list string :=
  match cur with
  | [] => ws
  | _ => rev_string cur :: ws
  end.

Fixpoint split_aux (s : string) (cur : list ascii) : list string :=
  match s with
  | EmptyString => flush cur []
  | String c t =>
      if is_space c then flush cur (split_aux t [])
      else split_aux t (c :: cur)
  end.

Definition split (s : string) : list string := split_aux s [].

(** [sep.join(ws)] *)
Fixpoint join (sep : string) (ws : list string) : string :=
  match ws with
  | [] => EmptyString
  | [w] => w
  | w :: rest => w ++ sep ++ join sep rest
  end.

(** [bool(s)] for a string: non-empty. *)
Definition truthy (s : string) : bool :=
  match s with EmptyString => false | _ => true end.

End PyStr.

(** ** deploy.py: constants, override document, failure classifier *)

Definition nl : string := String "010"%char EmptyString.

Definition _CLUSTER_REMOVAL_ALLOWLIST_TOKEN : string := "content-cluster-removal".
Definition _MISSING_PACKAGE_ERROR : string :=
  "Either application_package or application_root must be set".

Definition _looks_like_cluster_removal_error (message : string) : bool :=
  if negb (PyStr.truthy message) then false
  else
    let lowered := PyStr.lower message in
    if PyStr.contains _CLUSTER_REMOVAL_ALLOWLIST_TOKEN lowered then true
    else PyStr.contains "content cluster" lowered && PyStr.contains "removed" lowered.

(** ** datetime.date, as far as the orchestrator uses it *)

Module PyDate.

Local Open Scope Z_scope.

Record date := mkDate { year : Z; month : Z; day : Z }.

Definition is_leap (y : Z) : bool :=
  ((y mod 4 =? 0) && negb (y mod 100 =? 0)) || (y mod 400 =? 0).

Definition days_in_month (y m : Z) : Z :=
  if m =? 2 then (if is_leap y then 29 else 28)
  else if (m =? 4) || (m =? 6) || (m =? 9) || (m =? 11) then 30
  else 31.

Definition next_day (d : date) : date :=
  if day d <? days_in_month (year d) (month d)
  then mkDate (year d) (month d) (day d + 1)
  else if month d <? 12 then mkDate (year d) (month d + 1) 1
  else mkDate (year d + 1) 1 1.

(** [d + timedelta(days=n)] for a non-negative [n]. *)
Definition add_days (d : date) (n : nat) : date := Nat.iter n next_day d.

Definition digit (n : Z) : ascii := ascii_of_nat (48 + Z.to_nat (n mod 10)).

Definition pad2 (n : Z) : string :=
  String (digit (n / 10)) (String (digit n) EmptyString).

Definition pad4 (n : Z) : string :=
  String (digit (n / 1000)) (String (digit (n / 100)) (pad2 n)).

(** [d.isoformat()], that is ["%04d-%02d-%02d"]. *)
Definition isoformat (d : date) : string :=
  pad4 (year d) ++ "-" ++ pad2 (month d) ++ "-" ++ pad2 (day d).

(** A date of the proleptic Gregorian calendar in the range of
    [datetime.date]. *)
Definition valid (d : date) : Prop :=
  1 <= year d <= 9999 /\ 1 <= month d <= 12 /\
  1 <= day d <= days_in_month (year d) (month d).

End PyDate.
Import PyDate.

Definition _validation_overrides_xml (until : date) : string :=
  "<validation-overrides>" ++ nl ++
  "  <allow until='" ++ isoformat until ++ "'>" ++ _CLUSTER_REMOVAL_ALLOWLIST_TOKEN
    ++ "</allow>" ++ nl ++
  "</validation-overrides>" ++ nl.

(** ** Exceptions and results *)

(** Instances of [Exception]; a class stands for itself and its subclasses,
    as [isinstance] sees them. *)
Inductive ExnClass :=
| TypeError | ValueError | RuntimeError | EOFError | OSError
| OtherError (name : string).

Record exn := mkExn { exn_class : ExnClass; exn_msg : string }.

Inductive Res (A : Type) : Type :=
| Ok (a : A)
| Raise (e : exn).
Arguments Ok {A} a.
Arguments Raise {A} e.

(** ** The objects the orchestrator handles *)

(** [vespa.package.ApplicationPackage], opaque but for its name. *)
Record ApplicationPackage := mkPackage { pkg_name : string }.

(** A deployment-client class: its [__name__] and the parameter names of
    [inspect.signature]. *)
Record ClientClass := mkClass { cls_name : string; cls_params : list string }.

(** A deployment-client object, by identity. *)
Definition Client := nat.

(** The deployed application handle, as [_set_vespa_endpoint_env_from_app]
    reads it: [url] when it is a [str], [port] as an f-string renders it,
    [cert] after [_as_path_str]. *)
Record VespaApp := mkApp {
  app_url : option string;
  app_port : string;
  app_cert : option string
}.

Inductive Value :=
| VStr (s : string)
| VPkg (p : ApplicationPackage).

(** The three call shapes of [deployer.deploy]. *)
Inductive DeployArgs :=
| ByPackage (application_package : ApplicationPackage)
| ByRoot (application_root : string)
| NoArgs.

(** [nyrag.config.DeployConfig], by the accessors [deploy_app_package]
    calls. *)
Record DeployConfig := mkConfig {
  is_local_mode : bool;
  get_configserver_url : string;
  get_cloud_tenant : option string;
  get_cloud_application : option string;
  get_cloud_instance : string;
  get_cloud_api_key_path : option string;
  get_cloud_api_key : option string
}.

Inductive Level := Debug | Info | Warning | Success.

(** What the orchestrator does to the outside, in order. [EvLoopBody] is
    not an action: it marks each pass through the body of the retry loop,
    where the application root is resolved. [EvCleanup] is not a call of
    the orchestrator either: it is the finalizer of a [TemporaryDirectory]
    object that has lost its last reference, which removes the directory
    and all that is in it. *)
Inductive Event :=
| EvLoopBody
| EvTemporaryDirectory
| EvCleanup (dir : string)
| EvToFiles (dir : string)
| EvResolveDockerClass
| EvConstruct (cls : string) (kwargs : list (string * Value))
| EvDeploy (c : Client) (args : DeployArgs)
| EvSetattr (c : Client) (attr : string) (v : Value)
| EvMkdir (dir : string)
| EvWriteText (dir name content : string)
| EvLog (lvl : Level) (msg : string)
| EvIsatty
| EvPrint (msg : string)
| EvInput (prompt : string).

(** The collaborators outside this repository's sources: the pyvespa
    clients, the class resolver of [nyrag.vespa_docker], the console of
    [nyrag.logger], the file system, and the constants of [nyrag.defaults]
    and [nyrag.config]. Each operation may fail and may change the outside
    state [Ext]. [client_hasattr] is [hasattr(deployer, attr)], which runs
    the attribute's getter and lets through whatever it raises but an
    [AttributeError]; [console_print] is [console.print], which renders
    its text as markup and refuses a malformed one; [cleanup] is the
    finalizer of a [TemporaryDirectory], whose failures are not raised
    into the program. *)
Record Externals := mkExternals {
  Ext : Type;
  resolve_vespa_docker_class : Ext -> Res ClientClass * Ext;
  VespaCloud : ClientClass;
  construct : ClientClass -> list (string * Value) -> Ext -> Res Client * Ext;
  client_deploy : Client -> DeployArgs -> Ext -> Res VespaApp * Ext;
  client_hasattr : Client -> string -> Ext -> Res bool * Ext;
  client_setattr : Client -> string -> Value -> Ext -> Res unit * Ext;
  console_print : string -> Ext -> Res unit * Ext;
  TemporaryDirectory : Ext -> Res string * Ext;
  cleanup : string -> Ext -> Ext;
  to_files : ApplicationPackage -> string -> Ext -> Res unit * Ext;
  mkdir : string -> Ext -> Res unit * Ext;
  write_text : string -> string -> string -> Ext -> Res unit * Ext;
  DEFAULT_VESPA_DOCKER_IMAGE : string;
  default_DeployConfig : DeployConfig
}.

(** The state a call runs in: the outside; the standard input, by what
    [sys.stdin.isatty()] does (it raises when [sys.stdin] is [None] or
    closed) and by the lines still to be read; the clock; the directory of
    the [TemporaryDirectory] object that the local variable [tmp] of the
    call holds, if any; and the trace of events so far (oldest first). *)
Record World (X : Externals) := mkWorld {
  w_ext : Ext X;
  w_isatty : Res bool;
  w_stdin : list string;
  w_today : date;
  w_tmp : option string;
  w_trace : list Event
}.
Arguments mkWorld {X}.
Arguments w_ext {X}.
Arguments w_isatty {X}.
Arguments w_stdin {X}.
Arguments w_today {X}.
Arguments w_tmp {X}.
Arguments w_trace {X}.

(** ** A state-and-exception monad over [World] *)

Definition M (X : Externals) (A : Type) : Type := World X -> Res A * World X.

Section Monad.
Context {X : Externals}.

Definition ret {A} (a : A) : M X A := fun w => (Ok a, w).

Definition bind {A B} (m : M X A) (k : A -> M X B) : M X B :=
  fun w => match m w with
           | (Ok a, w') => k a w'
           | (Raise e, w') => (Raise e, w')
           end.

Definition raise {A} (e : exn) : M X A := fun w => (Raise e, w).

(** [try: m except Exception as e: h e] *)
Definition try_except {A} (m : M X A) (h : exn -> M X A) : M X A :=
  fun w => match m w with
           | (Ok a, w') => (Ok a, w')
           | (Raise e, w') => h e w'
           end.

Definition emit (ev : Event) : M X unit :=
  fun w => (Ok tt, mkWorld (w_ext w) (w_isatty w) (w_stdin w) (w_today w)
                           (w_tmp w) (w_trace w ++ [ev])%list).

(** A call to a collaborator, recorded before it runs. *)
Definition call {A} (ev : Event) (f : Ext X -> Res A * Ext X) : M X A :=
  fun w => let (r, x) := f (w_ext w) in
           (r, mkWorld x (w_isatty w) (w_stdin w) (w_today w)
                       (w_tmp w) (w_trace w ++ [ev])%list).

Definition log (lvl : Level) (msg : string) : M X unit := emit (EvLog lvl msg).

(** [console.print(msg)] *)
Definition print (msg : string) : M X unit :=
  call (EvPrint msg) (console_print X msg).

(** [sys.stdin.isatty()] *)
Definition isatty : M X bool :=
  fun w => (w_isatty w,
            mkWorld (w_ext w) (w_isatty w) (w_stdin w) (w_today w)
                    (w_tmp w) (w_trace w ++ [EvIsatty])%list).

(** [console.input(prompt)]: one line, or [EOFError] at end of input. *)
Definition input (prompt : string) : M X string :=
  fun w =>
    let tr := (w_trace w ++ [EvInput prompt])%list in
    match w_stdin w with
    | [] => (Raise (mkExn EOFError "EOF when reading a line"),
             mkWorld (w_ext w) (w_isatty w) [] (w_today w) (w_tmp w) tr)
    | line :: rest =>
        (Ok line, mkWorld (w_ext w) (w_isatty w) rest (w_today w) (w_tmp w) tr)
    end.

(** [date.today()] *)
Definition today : M X date := fun w => (Ok (w_today w), w).

(** [hasattr(c, attr)] *)
Definition hasattr (c : Client) (attr : string) : M X bool :=
  fun w => let (r, x) := client_hasattr X c attr (w_ext w) in
           (r, mkWorld x (w_isatty w) (w_stdin w) (w_today w)
                       (w_tmp w) (w_trace w)).

(** The world once [tmp] has let go of its [TemporaryDirectory]: the
    object has no other reference, so it is finalized there and then and
    its directory removed. *)
Definition released (w : World X) : World X :=
  match w_tmp w with
  | Some dir =>
      mkWorld (cleanup X dir (w_ext w)) (w_isatty w) (w_stdin w) (w_today w)
              None (w_trace w ++ [EvCleanup dir])%list
  | None => w
  end.

(** [tmp = <the TemporaryDirectory of dir>]: the new object is there
    already; binding it lets go of the one [tmp] held before. *)
Definition bind_tmp (dir : string) : M X unit :=
  fun w => let w' := released w in
           (Ok tt, mkWorld (w_ext w') (w_isatty w') (w_stdin w') (w_today w')
                           (Some dir) (w_trace w')).

End Monad.

Declare Scope py_scope.
Delimit Scope py_scope with py.
Notation "x <- m ;; k" := (bind m (fun x => k))
  (at level 100, m at next level, right associativity) : py_scope.
Notation "m ;;; k" := (bind m (fun _ => k))
  (at level 100, right associativity) : py_scope.

(** ** deploy.py: the functions *)

(** The configuration in force: [DeployConfig()] when none is passed. *)
Definition config_or_default (X : Externals) (deploy_config : option DeployConfig)
  : DeployConfig :=
  match deploy_config with
  | Some c => c
  | None => default_DeployConfig X
  end.

Section Deploy.
Context {X : Externals}.
Local Open Scope py_scope.

(** [for x in xs: body x] *)
Fixpoint for_each {A} (body : A -> M X unit) (xs : list A) : M X unit :=
  match xs with
  | [] => ret tt
  | x :: rest => body x ;;; for_each body rest
  end.

Definition _confirm_cluster_removal (message : string) (until : date) : M X bool :=
  tty <- isatty ;;
  if negb tty then
    log Warning
      "Vespa deploy requires 'content-cluster-removal' override, but stdin is not interactive." ;;;
    ret false
  else
    print (nl ++ "Vespa refused this deploy because it would remove an existing content cluster."
           ++ nl ++ "- Override: " ++ _CLUSTER_REMOVAL_ALLOWLIST_TOKEN
           ++ " (until " ++ isoformat until ++ ")" ++ nl
           ++ "This will cause loss of all data in that cluster.") ;;;
    (if PyStr.truthy (PyStr.strip message)
     then print (nl ++ "Vespa message:" ++ nl ++ PyStr.strip message ++ nl)
     else ret tt) ;;;
    answer <- input "Purge existing cluster data and redeploy? [y/N]: " ;;
    ret (existsb (String.eqb (PyStr.lower (PyStr.strip answer))) ["y"; "yes"]).

Definition _write_validation_overrides (app_dir : string) (until : date) : M X unit :=
  call (EvMkdir app_dir) (mkdir X app_dir) ;;;
  let content := _validation_overrides_xml until in
  call (EvWriteText app_dir "validation-overrides.xml" content)
       (write_text X app_dir "validation-overrides.xml" content).

Definition _should_fallback (exc : exn) : bool :=
  let msg := exn_msg exc in
  match exn_class exc with
  | TypeError => true
  | _ => PyStr.contains _MISSING_PACKAGE_ERROR msg
  end.

(** [deployer.deploy(...)] in one of its shapes. *)
Definition deploy_call (deployer : Client) (args : DeployArgs) : M X VespaApp :=
  call (EvDeploy deployer args) (client_deploy X deployer args).

(** [try: return deployer.deploy(...)] with the handler that swallows a
    shape mismatch: [Some] is the returned handle, [None] falls through. *)
Definition try_shape (deployer : Client) (args : DeployArgs) : M X (option VespaApp) :=
  try_except (app <- deploy_call deployer args ;; ret (Some app))
             (fun e => if negb (_should_fallback e) then raise e else ret None).

Definition set_if_present (deployer : Client) (av : string * Value) : M X unit :=
  let (attr, value) := av in
  has <- hasattr deployer attr ;;
  if has then
    try_except (call (EvSetattr deployer attr value)
                     (client_setattr X deployer attr value))
               (fun _ => ret tt)
  else ret tt.

Definition _deploy_with_pyvespa (deployer : Client)
    (application_package : ApplicationPackage) (application_root : string)
  : M X VespaApp :=
  r1 <- try_shape deployer (ByPackage application_package) ;;
  match r1 with
  | Some app => ret app
  | None =>
      r2 <- try_shape deployer (ByRoot application_root) ;;
      match r2 with
      | Some app => ret app
      | None =>
          for_each (set_if_present deployer)
            [ ("application_package", VPkg application_package);
              ("app_package", VPkg application_package);
              ("package", VPkg application_package);
              ("application_root", VStr application_root) ] ;;;
          deploy_call deployer NoArgs
      end
  end.

Definition _set_vespa_endpoint_env_from_app (vespa_app : VespaApp) : M X unit :=
  (match app_url vespa_app with
   | Some url => log Debug ("Vespa endpoint: " ++ url ++ ":" ++ app_port vespa_app)
   | None => ret tt
   end) ;;;
  match app_cert vespa_app with
  | Some cert =>
      if PyStr.truthy cert then log Debug ("mTLS cert: " ++ cert) else ret tt
  | None => ret tt
  end.

(** [key in init_sig.parameters] *)
Definition has_param (cls : ClientClass) (key : string) : bool :=
  existsb (String.eqb key) (cls_params cls).

(** [if key in init_sig.parameters: init_kwargs[key] = value] *)
Definition kwarg_if (cls : ClientClass) (key : string) (v : Value)
  : list (string * Value) :=
  if has_param cls key then [(key, v)] else [].

(** Truth value of an [Optional[str]]. *)
Definition opt_truthy (o : option string) : bool :=
  match o with Some s => PyStr.truthy s | None => false end.

Definition docker_init_kwargs (cls : ClientClass) (cfg : DeployConfig)
    (app_package : ApplicationPackage) (effective_app_dir : string)
  : list (string * Value) :=
  ((if has_param cls "image" then [("image", VStr (DEFAULT_VESPA_DOCKER_IMAGE X))]
    else if has_param cls "docker_image"
         then [("docker_image", VStr (DEFAULT_VESPA_DOCKER_IMAGE X))]
         else [])
   ++ kwarg_if cls "cfgsrv_url" (VStr (get_configserver_url cfg))
   ++ kwarg_if cls "application_package" (VPkg app_package)
   ++ kwarg_if cls "application_root" (VStr effective_app_dir))%list.

Definition cloud_init_kwargs (cls : ClientClass) (cfg : DeployConfig)
    (tenant application : string)
    (app_package : ApplicationPackage) (effective_app_dir : string)
  : list (string * Value) :=
  (kwarg_if cls "tenant" (VStr tenant)
   ++ kwarg_if cls "application" (VStr application)
   ++ kwarg_if cls "instance" (VStr (get_cloud_instance cfg))
   ++ kwarg_if cls "application_package" (VPkg app_package)
   ++ kwarg_if cls "application_root" (VStr effective_app_dir)
   ++ match get_cloud_api_key_path cfg with
      | Some p => if PyStr.truthy p then kwarg_if cls "api_key_path" (VStr p) else []
      | None => []
      end
   ++ match get_cloud_api_key cfg with
      | Some k => if PyStr.truthy k then kwarg_if cls "api_key" (VStr k) else []
      | None => []
      end)%list.

(** The application root of one attempt: the caller's directory, or a
    fresh temporary directory, bound to [tmp], with the package written
    into it (lines 172 to 176, and again lines 281 to 285). *)
Definition materialize (app_dir : option string) (app_package : ApplicationPackage)
  : M X string :=
  match app_dir with
  | Some d => ret d
  | None =>
      d <- call EvTemporaryDirectory (TemporaryDirectory X) ;;
      bind_tmp d ;;;
      call (EvToFiles d) (to_files X app_package d) ;;;
      ret d
  end.

(** The local branch up to the construction of the client: the class is
    resolved, its constructor is given the arguments it declares. *)
Definition docker_deployer (deploy_config : DeployConfig)
    (app_package : ApplicationPackage) (effective_app_dir : string) : M X Client :=
  VespaDocker <- call EvResolveDockerClass (resolve_vespa_docker_class X) ;;
  (if String.eqb (cls_name VespaDocker) "ComposeVespaDocker" then
     log Info "Deploying with ComposeVespaDocker" ;;;
     log Info ("Deploying via compose config server at "
               ++ get_configserver_url deploy_config)
   else
     log Info ("Deploying with VespaDocker (image="
               ++ DEFAULT_VESPA_DOCKER_IMAGE X ++ ")")) ;;;
  let init_kwargs :=
    docker_init_kwargs VespaDocker deploy_config app_package effective_app_dir in
  call (EvConstruct (cls_name VespaDocker) init_kwargs)
       (construct X VespaDocker init_kwargs).

(** The cloud branch up to the construction of the client: the tenant is
    required first. *)
Definition cloud_deployer (deploy_config : DeployConfig)
    (app_package : ApplicationPackage) (effective_app_dir : string) : M X Client :=
  let tenant := get_cloud_tenant deploy_config in
  match tenant with
  | None => raise (mkExn RuntimeError "Missing env var: VESPA_CLOUD_TENANT")
  | Some tenant =>
      if negb (PyStr.truthy tenant) then
        raise (mkExn RuntimeError "Missing env var: VESPA_CLOUD_TENANT")
      else
        let application :=
          match get_cloud_application deploy_config with
          | Some a => if PyStr.truthy a then a else pkg_name app_package
          | None => pkg_name app_package
          end in
        (if negb (opt_truthy (get_cloud_application deploy_config)) then
           log Info ("VESPA_CLOUD_APPLICATION not set; using generated app name '"
                     ++ application ++ "'")
         else ret tt) ;;;
        log Info ("Deploying to Vespa Cloud: " ++ tenant ++ "/" ++ application
                  ++ "/" ++ get_cloud_instance deploy_config) ;;;
        let init_kwargs :=
          cloud_init_kwargs (VespaCloud X) deploy_config tenant application
                            app_package effective_app_dir in
        call (EvConstruct (cls_name (VespaCloud X)) init_kwargs)
             (construct X (VespaCloud X) init_kwargs)
  end.

(** The body of [try:] in the retry loop, from line 172 on; its first
    line, [tmp = None], is with [retry_loop]. *)
Definition attempt (mode : string) (app_dir : option string)
    (app_package : ApplicationPackage) (deploy_config : DeployConfig)
  : M X bool :=
  effective_app_dir <- materialize app_dir app_package ;;
  if String.eqb mode "docker" then
    docker <- docker_deployer deploy_config app_package effective_app_dir ;;
    vespa_app <- _deploy_with_pyvespa docker app_package effective_app_dir ;;
    _set_vespa_endpoint_env_from_app vespa_app ;;;
    log Success "VespaDocker deploy succeeded" ;;;
    ret true
  else if String.eqb mode "cloud" then
    cloud <- cloud_deployer deploy_config app_package effective_app_dir ;;
    vespa_app <- _deploy_with_pyvespa cloud app_package effective_app_dir ;;
    _set_vespa_endpoint_env_from_app vespa_app ;;;
    log Success "Vespa Cloud deploy succeeded" ;;;
    ret true
  else raise (mkExn ValueError ("Unknown Vespa deploy mode: '" ++ mode ++ "'")).

(** How one pass through the loop body ends: [return b], or [continue]
    with [app_dir] rebound and [attempted_override] set. *)
Inductive Step :=
| Return (b : bool)
| Continue (app_dir : string).

(** The body of [except Exception as e:]. *)
Definition handler (app_dir : option string) (app_package : ApplicationPackage)
    (attempted_override : bool) (e : exn) : M X Step :=
  let message := exn_msg e in
  if _looks_like_cluster_removal_error message && negb attempted_override then
    t <- today ;;
    let until := add_days t 7 in
    ok <- _confirm_cluster_removal message until ;;
    if negb ok then
      log Warning ("Skipping Vespa deploy to avoid content cluster removal; "
                   ++ "feeding/query may fail until the app is deployed.") ;;;
      ret (Return false)
    else
      target_dir <- materialize app_dir app_package ;;
      _write_validation_overrides target_dir until ;;;
      ret (Continue target_dir)
  else raise e.

Definition loop_body (mode : string) (app_dir : option string)
    (app_package : ApplicationPackage) (deploy_config : DeployConfig)
    (attempted_override : bool) : M X Step :=
  emit EvLoopBody ;;;
  try_except (b <- attempt mode app_dir app_package deploy_config ;; ret (Return b))
             (handler app_dir app_package attempted_override).

(** [while True:], run for at most [fuel] passes; [None] when the fuel
    runs out before the loop is left.

    Every pass opens with [tmp = None] (line 171). On the first pass
    [tmp] is not bound yet and nothing is let go. When [continue] brings
    the loop back to that line, [tmp] holds the directory the handler has
    just made and written the override into, and that directory is
    removed before the application root is resolved again: this is the
    [released] of the [Continue] branch. A [return] ends the frame of the
    call, and with it what [tmp] holds; an exception that leaves the call
    keeps the frame in its traceback, and [tmp] with it. *)
Fixpoint retry_loop (fuel : nat) (mode : string) (app_dir : option string)
    (app_package : ApplicationPackage) (deploy_config : DeployConfig)
    (attempted_override : bool) (w : World X) : option (Res bool * World X) :=
  match fuel with
  | O => None
  | S fuel' =>
      match loop_body mode app_dir app_package deploy_config attempted_override w with
      | (Raise e, w') => Some (Raise e, w')
      | (Ok (Return b), w') => Some (Ok b, released w')
      | (Ok (Continue target_dir), w') =>
          retry_loop fuel' mode (Some target_dir) app_package deploy_config true
                     (released w')
      end
  end.

Definition deploy_mode (deploy_config : DeployConfig) : string :=
  if is_local_mode deploy_config then "docker" else "cloud".

Definition deploy_app_package (fuel : nat) (app_dir : option string)
    (app_package : ApplicationPackage) (deploy_config : option DeployConfig)
    (w : World X) : option (Res bool * World X) :=
  let deploy_config := config_or_default X deploy_config in
  let mode := deploy_mode deploy_config in
  retry_loop fuel mode app_dir app_package deploy_config false w.

End Deploy.

(** ** utils.py: chunks *)

Section Chunks.
Local Open Scope Z_scope.

(** [xs[start:stop]] for [0 <= start]. *)
Definition slice {A} (xs : list A) (start stop : Z) : list A :=
  firstn (Z.to_nat (stop - start)) (skipn (Z.to_nat start) xs).

(** The [while start < word_count] loop, for at most [fuel] passes;
    [None] when the fuel runs out before the loop is left. *)
Fixpoint chunks_loop (fuel : nat) (words : list string) (chunk_size overlap : Z)
    (start : Z) (chunk_list : list string) : option (list string) :=
  match fuel with
  | O => None
  | S fuel' =>
      let word_count := Z.of_nat (List.length words) in
      if start <? word_count then
        let end_ := Z.min (start + chunk_size) word_count in
        chunks_loop fuel' words chunk_size overlap
          (start + (chunk_size - overlap))
          (chunk_list ++ [PyStr.join " " (slice words start end_)])%list
      else Some chunk_list
  end.

Definition chunks (fuel : nat) (text : string) (chunk_size overlap : Z)
  : option (Res (list string)) :=
  if chunk_size <=? 0 then
    Some (Raise (mkExn ValueError "chunk_size must be greater than 0"))
  else if overlap <? 0 then
    Some (Raise (mkExn ValueError "overlap must be non-negative"))
  else if overlap >=? chunk_size then
    Some (Raise (mkExn ValueError "overlap must be less than chunk_size"))
  else
    let words := PyStr.split text in
    let word_count := Z.of_nat (List.length words) in
    if word_count <=? chunk_size then Some (Ok [text])
    else
      match chunks_loop fuel words chunk_size overlap 0 [] with
      | Some chunk_list => Some (Ok chunk_list)
      | None => None
      end.

End Chunks.

(** ** The classifier's contract, in the specification's words *)

(** The letters of the English alphabet, small and capital, in order. *)
Definition small_letters : string := "abcdefghijklmnopqrstuvwxyz".
Definition capital_letters : string := "ABCDEFGHIJKLMNOPQRSTUVWXYZ".

(** [c] and [d] are a letter and its capital, in either order: they stand
    at the same place of the two alphabets. *)
Fixpoint case_pair (small capital : string) (c d : ascii) : bool :=
  match small, capital with
  | String s small', String k capital' =>
      (Ascii.eqb c s && Ascii.eqb d k) || (Ascii.eqb c k && Ascii.eqb d s)
      || case_pair small' capital' c d
  | _, _ => false
  end.

(** The same character, up to the case of a letter. *)
Definition same_char_ci (c d : ascii) : bool :=
  Ascii.eqb c d || case_pair small_letters capital_letters c d.

(** The same text character by character, up to the case of letters. *)
Fixpoint same_text_ci (a b : string) : bool :=
  match a, b with
  | EmptyString, EmptyString => true
  | String c a', String d b' => same_char_ci c d && same_text_ci a' b'
  | _, _ => false
  end.

(** [message] contains [needle] case-insensitively: some substring of
    [message] is [needle] up to the case of letters. *)
Definition spec_contains_ci (needle message : string) : Prop :=
  exists pre mid suf,
    message = pre ++ mid ++ suf /\ same_text_ci mid needle = true.

(** The characters of the phrases the contract names: small letters, the
    hyphen and the space. *)
Definition phrase_chars : list ascii :=
  list_ascii_of_string (small_letters ++ "- ").

Definition all_chars : list ascii := map ascii_of_nat (seq 0 256).

Definition spec_classify (message : string) : Prop :=
  spec_contains_ci "content-cluster-removal" message \/
  (spec_contains_ci "content cluster" message /\ spec_contains_ci "removed" message).

(** ** Reading traces *)

Definition count (p : Event -> bool) (evs : list Event) : nat :=
  List.length (filter p evs).

Definition is_loop_body (ev : Event) : bool :=
  match ev with EvLoopBody => true | _ => false end.

(** The confirmation gate begins by asking [sys.stdin.isatty()], and
    nothing else does. *)
Definition is_gate_entry (ev : Event) : bool :=
  match ev with EvIsatty => true | _ => false end.

(** A prompt shown on the console or a line read from it. *)
Definition is_console (ev : Event) : bool :=
  match ev with EvPrint _ | EvInput _ => true | _ => false end.

Definition is_input (ev : Event) : bool :=
  match ev with EvInput _ => true | _ => false end.

Definition is_file_write (ev : Event) : bool :=
  match ev with EvMkdir _ | EvWriteText _ _ _ => true | _ => false end.

Definition is_override_write (ev : Event) : bool :=
  match ev with
  | EvWriteText _ name _ => String.eqb name "validation-overrides.xml"
  | _ => false
  end.

Definition is_construct (ev : Event) : bool :=
  match ev with EvConstruct _ _ => true | _ => false end.

Definition is_deploy (ev : Event) : bool :=
  match ev with EvDeploy _ _ => true | _ => false end.

(** The events of the [try:] body. *)
Definition attempt_event (ev : Event) : bool :=
  match ev with
  | EvTemporaryDirectory | EvCleanup _ | EvToFiles _ | EvResolveDockerClass
  | EvConstruct _ _ | EvDeploy _ _ | EvSetattr _ _ _ | EvLog _ _ => true
  | _ => false
  end.

(** The events of materializing the package. *)
Definition materialize_event (ev : Event) : bool :=
  match ev with
  | EvTemporaryDirectory | EvCleanup _ | EvToFiles _ => true
  | _ => false
  end.

(** The events of the gate after its entry. *)
Definition gate_event (ev : Event) : bool :=
  match ev with
  | EvLog _ _ | EvPrint _ | EvInput _ => true
  | _ => false
  end.

(** [w] with the outside replaced, the input left to read replaced, and
    events appended. *)
Definition advance {X} (w : World X) (x : Ext X) (stdin : list string)
    (evs : list Event) : World X :=
  mkWorld x (w_isatty w) stdin (w_today w) (w_tmp w) (w_trace w ++ evs)%list.

(** [w] after events that touch neither the outside nor the input. *)
Definition after {X} (w : World X) (evs : list Event) : World X :=
  advance w (w_ext w) (w_stdin w) evs.

(** [w] with [tmp] holding the temporary directory [dir]. *)
Definition holding {X} (w : World X) (dir : string) : World X :=
  mkWorld (w_ext w) (w_isatty w) (w_stdin w) (w_today w) (Some dir) (w_trace w).

(** The answer the gate accepts. *)
Definition affirmative (answer : string) : bool :=
  existsb (String.eqb (PyStr.lower (PyStr.strip answer))) ["y"; "yes"].

Definition gate_warning : string :=
  "Vespa deploy requires 'content-cluster-removal' override, but stdin is not interactive.".

Definition gate_prompt : string := "Purge existing cluster data and redeploy? [y/N]: ".

(** The texts the gate prints before it asks. *)
Definition gate_texts (message : string) (until : date) : list string :=
  (nl ++ "Vespa refused this deploy because it would remove an existing content cluster."
   ++ nl ++ "- Override: " ++ _CLUSTER_REMOVAL_ALLOWLIST_TOKEN
   ++ " (until " ++ isoformat until ++ ")" ++ nl
   ++ "This will cause loss of all data in that cluster.")%string
  :: (if PyStr.truthy (PyStr.strip message)
      then [(nl ++ "Vespa message:" ++ nl ++ PyStr.strip message ++ nl)%string]
      else []).

(** What the gate prints before it asks, as events. *)
Definition gate_banner (message : string) (until : date) : list Event :=
  map EvPrint (gate_texts message until).

(** The prints of the gate, on their own. *)
Definition print_banner {X : Externals} (message : string) (until : date) : M X unit :=
  for_each print (gate_texts message until).

(** What [sys.stdin.isatty()] raises when the process was started with its
    standard input closed, so that [sys.stdin] is [None]. *)
Definition stdin_missing : exn :=
  mkExn (OtherError "AttributeError") "'NoneType' object has no attribute 'isatty'".

(** ** A scripted outside, for the examples

    [Ext] is the list of outcomes the next calls of [deploy] will have;
    every other collaborator succeeds. *)
Definition scripted : Externals := {|
  Ext := list (Res VespaApp);
  resolve_vespa_docker_class := fun x =>
    (Ok (mkClass "VespaDocker" ["port"; "image"; "cfgsrv_url"]), x);
  VespaCloud := mkClass "VespaCloud" ["tenant"; "application"; "application_package"];
  construct := fun _ _ x => (Ok 1%nat, x);
  client_deploy := fun _ _ x =>
    match x with
    | [] => (Raise (mkExn RuntimeError "connection refused"), [])
    | r :: rest => (r, rest)
    end;
  client_hasattr := fun _ _ x => (Ok false, x);
  client_setattr := fun _ _ _ x => (Ok tt, x);
  console_print := fun _ x => (Ok tt, x);
  TemporaryDirectory := fun x => (Ok "/tmp/tmpa1b2c3", x);
  cleanup := fun _ x => x;
  to_files := fun _ _ x => (Ok tt, x);
  mkdir := fun _ x => (Ok tt, x);
  write_text := fun _ _ _ x => (Ok tt, x);
  DEFAULT_VESPA_DOCKER_IMAGE := "vespaengine/vespa";
  default_DeployConfig :=
    mkConfig true "http://localhost:19071" None None "default" None None
|}.

Definition demo_app : VespaApp := mkApp (Some "http://localhost") "8080" None.
Definition demo_package : ApplicationPackage := mkPackage "nyragdemo".
Definition demo_removal : exn :=
  mkExn RuntimeError "Invalid application: content cluster 'docs' was removed".

Definition demo_world (script : list (Res VespaApp)) (tty : bool)
    (stdin : list string) : World scripted :=
  mkWorld (script : Ext scripted) (Ok tty) stdin (mkDate 2024 2 25) None [].

(** The same with [sys.stdin] being [None]. *)
Definition demo_world_without_stdin (script : list (Res VespaApp)) : World scripted :=
  mkWorld (script : Ext scripted) (Raise stdin_missing) [] (mkDate 2024 2 25) None [].

Definition markup_error : exn :=
  mkExn (OtherError "MarkupError") "closing tag doesn't match any open tag".

(** A scripted outside whose console refuses, as the one of [rich] does, a
    text with a closing tag that no tag opened; here, any text that holds
    the two characters that begin a closing tag. *)
Definition strict_console : Externals := {|
  Ext := list (Res VespaApp);
  resolve_vespa_docker_class := resolve_vespa_docker_class scripted;
  VespaCloud := VespaCloud scripted;
  construct := construct scripted;
  client_deploy := client_deploy scripted;
  client_hasattr := client_hasattr scripted;
  client_setattr := client_setattr scripted;
  console_print := fun text x =>
    if PyStr.contains "[/" text then (Raise markup_error, x) else (Ok tt, x);
  TemporaryDirectory := TemporaryDirectory scripted;
  cleanup := cleanup scripted;
  to_files := to_files scripted;
  mkdir := mkdir scripted;
  write_text := write_text scripted;
  DEFAULT_VESPA_DOCKER_IMAGE := DEFAULT_VESPA_DOCKER_IMAGE scripted;
  default_DeployConfig := default_DeployConfig scripted
|}.

Definition demo_tagged : exn :=
  mkExn RuntimeError "Invalid application: content cluster 'docs' removed [/docs]".

(** ** Frames

    [quiet P m]: whenever [m] ends, normally or not, it has left the
    terminal, the unread input and the clock as they were and has appended
    only events of the class [P]. *)
Definition quiet {X : Externals} {A : Type} (P : Event -> bool) (m : M X A) : Prop :=
  forall (w : World X) (r : Res A) (w' : World X),
    m w = (r, w') ->
    w_isatty w' = w_isatty w /\ w_stdin w' = w_stdin w /\ w_today w' = w_today w /\
    exists evs, w_trace w' = (w_trace w ++ evs)%list /\ forallb P evs = true.

(** [yields Q m]: every value [m] returns satisfies [Q]. *)
Definition yields {X : Externals} {A : Type} (Q : A -> Prop) (m : M X A) : Prop :=
  forall (w : World X) (a : A) (w' : World X), m w = (Ok a, w') -> Q a.

Definition skip_warning : string :=
  "Skipping Vespa deploy to avoid content cluster removal; feeding/query may fail until the app is deployed.".

Definition missing_tenant : exn :=
  mkExn RuntimeError "Missing env var: VESPA_CLOUD_TENANT".

(** ** Reading an ISO-8601 calendar date back *)

Definition digit_value (c : ascii) : Z := Z.of_nat (nat_of_ascii c) - 48.

Definition is_digit (c : ascii) : bool :=
  ((48 <=? nat_of_ascii c) && (nat_of_ascii c <=? 57))%nat.

(** [YYYY-MM-DD] with ten characters, digits and two hyphens. *)
Definition parse_iso (s : string) : option date :=
  match s with
  | String y1 (String y2 (String y3 (String y4 (String h1
      (String m1 (String m2 (String h2 (String d1 (String d2 EmptyString))))))))) =>
      if forallb is_digit [y1; y2; y3; y4; m1; m2; d1; d2]
         && Ascii.eqb h1 "-" && Ascii.eqb h2 "-"
      then Some (mkDate
                   (1000 * digit_value y1 + 100 * digit_value y2
                    + 10 * digit_value y3 + digit_value y4)
                   (10 * digit_value m1 + digit_value m2)
                   (10 * digit_value d1 + digit_value d2))%Z
      else None
  | _ => None
  end.

(** [bounded m nb ng nw]: whenever [m] ends it has appended events among
    which at most [nb] enter the loop body, at most [ng] enter the gate and
    at most [nw] write an override file. *)
Definition bounded {X : Externals} {A : Type} (m : M X A) (nb ng nw : nat) : Prop :=
  forall (w : World X) (r : Res A) (w' : World X),
    m w = (r, w') ->
    exists evs, w_trace w' = (w_trace w ++ evs)%list /\
                (count is_loop_body evs <= nb)%nat /\
                (count is_gate_entry evs <= ng)%nat /\
                (count is_override_write evs <= nw)%nat.

(** Events that are none of the three counted kinds. *)
Definition uncounted (ev : Event) : bool :=
  negb (is_loop_body ev || is_gate_entry ev || is_override_write ev).

(** [i] days after a valid date before year 9999: still a valid date. *)
Definition within (i : Z) (d : date) : Prop :=
  (valid d /\ (year d < 9999 \/ (year d = 9999 /\ month d = 1 /\ day d <= i)))%Z.

(** ** The chunker's contract *)

Fixpoint no_space (s : string) : bool :=
  match s with
  | EmptyString => true
  | String c t => negb (PyStr.is_space c) && no_space t
  end.

(** A word: non-empty and free of white space. *)
Definition is_word (s : string) : bool := PyStr.truthy s && no_space s.

(** The characters of [w] pushed onto [cur], last first: the state of
    [split_aux] after reading [w]. *)
Fixpoint rev_onto (w : string) (cur : list ascii) : list ascii :=
  match w with
  | EmptyString => cur
  | String c t => rev_onto t (c :: cur)
  end.

Definition clean (cur : list ascii) : bool :=
  forallb (fun c => negb (PyStr.is_space c)) cur.

(** [len(chunk.split())] *)
Definition words_in (chunk : string) : Z := Z.of_nat (List.length (PyStr.split chunk)).

(** Every chunk but possibly the last holds exactly [chunk_size] words. *)
Definition full_but_last (chunk_size : Z) (chunk_list : list string) : Prop :=
  forall i : nat,
    (S i < List.length chunk_list)%nat ->
    words_in (nth i chunk_list EmptyString) = chunk_size.

(** [emits P m]: whenever [m] ends it has appended only events of the
    class [P]. *)
Definition emits {X : Externals} {A : Type} (P : Event -> bool) (m : M X A) : Prop :=
  forall (w : World X) (r : Res A) (w' : World X),
    m w = (r, w') ->
    exists evs, w_trace w' = (w_trace w ++ evs)%list /\ forallb P evs = true.

(** Every event but the construction of a client. *)
Definition not_construct (ev : Event) : bool := negb (is_construct ev).

(** ** More classes of events *)

Definition is_setattr (ev : Event) : bool :=
  match ev with EvSetattr _ _ _ => true | _ => false end.

Definition is_tempdir (ev : Event) : bool :=
  match ev with EvTemporaryDirectory | EvToFiles _ => true | _ => false end.

(** The events of the [try:] body when the caller supplies the directory. *)
Definition client_event (ev : Event) : bool :=
  match ev with
  | EvResolveDockerClass | EvConstruct _ _ | EvDeploy _ _ | EvSetattr _ _ _
  | EvLog _ _ => true
  | _ => false
  end.

(** Events that make no temporary directory and touch the file system in
    [d] only. *)
Definition within_dir (d : string) (ev : Event) : bool :=
  match ev with
  | EvTemporaryDirectory | EvToFiles _ => false
  | EvMkdir dir | EvWriteText dir _ _ => String.eqb dir d
  | _ => true
  end.

(** The attributes the invoker's last resort may set. *)
Definition fallback_attrs : list string :=
  ["application_package"; "app_package"; "package"; "application_root"].

Definition sets_fallback_attr (deployer : Client) (ev : Event) : Prop :=
  exists attr v, ev = EvSetattr deployer attr v /\ In attr fallback_attrs.

(** A scripted outside whose file system refuses writes. *)
Definition readonly : Externals := {|
  Ext := list (Res VespaApp);
  resolve_vespa_docker_class := resolve_vespa_docker_class scripted;
  VespaCloud := VespaCloud scripted;
  construct := construct scripted;
  client_deploy := client_deploy scripted;
  client_hasattr := fun _ _ x => (Ok true, x);
  client_setattr := fun _ attr _ x =>
    (Raise (mkExn (OtherError "AttributeError") ("can't set attribute '" ++ attr ++ "'")), x);
  console_print := console_print scripted;
  TemporaryDirectory := TemporaryDirectory scripted;
  cleanup := cleanup scripted;
  to_files := to_files scripted;
  mkdir := fun _ x => (Raise (mkExn OSError "[Errno 13] Permission denied"), x);
  write_text := write_text scripted;
  DEFAULT_VESPA_DOCKER_IMAGE := DEFAULT_VESPA_DOCKER_IMAGE scripted;
  default_DeployConfig := default_DeployConfig scripted
|}.

(** ** utils.py: configuration helpers *)

(** [os.environ], as [os.getenv] reads it. *)
Definition Environ := list (string * string).

Fixpoint getenv (env : Environ) (name : string) : option string :=
  match env with
  | [] => None
  | (k, v) :: rest => if String.eqb k name then Some v else getenv rest name
  end.

(** The TLS accessors of [nyrag.config.DeployConfig]. *)
Record DeployConfigTls := mkTls {
  get_tls_client_cert : option string;
  get_tls_client_key : option string;
  get_tls_ca_cert : option string;
  get_tls_verify : bool
}.

(** [s.strip().lower() in ("1", "true", "yes")] *)
Definition verify_flag (s : string) : bool :=
  existsb (String.eqb (PyStr.lower (PyStr.strip s))) ["1"; "true"; "yes"].

(** [DEFAULT_VESPA_TLS_VERIFY] of [nyrag.defaults] is a parameter. *)
Definition get_tls_config_from_deploy (DEFAULT_VESPA_TLS_VERIFY : bool)
    (env : Environ) (deploy_config : option DeployConfigTls)
  : option string * option string * option string * bool :=
  match deploy_config with
  | None =>
      let cert := getenv env "VESPA_CLIENT_CERT" in
      let key := getenv env "VESPA_CLIENT_KEY" in
      let ca := getenv env "VESPA_CA_CERT" in
      let verify_str := getenv env "VESPA_TLS_VERIFY" in
      let verify :=
        match verify_str with
        | Some s => if PyStr.truthy s then verify_flag s else DEFAULT_VESPA_TLS_VERIFY
        | None => DEFAULT_VESPA_TLS_VERIFY
        end in
      (cert, key, ca, verify)
  | Some c =>
      (get_tls_client_cert c, get_tls_client_key c, get_tls_ca_cert c, get_tls_verify c)
  end.

(** A keyword argument of the [Vespa] constructor: a string, the port, the
    pair [(cert_path, key_path)], or the [verify] object as given. *)
Inductive ClientArg (V : Type) : Type :=
| AStr (s : string)
| AInt (n : Z)
| ACertPair (cert key : string)
| AVerify (v : V).
Arguments AStr {V} s.
Arguments AInt {V} n.
Arguments ACertPair {V} cert key.
Arguments AVerify {V} v.

(** [str(n)] for an [int]. *)
Definition str_of_int (n : Z) : string :=
  DecimalString.NilEmpty.string_of_int (Z.to_int n).

(** [sig and name in sig.parameters], with [sig = None] when
    [inspect.signature] failed. *)
Definition sig_declares (sig : option (list string)) (name : string) : bool :=
  match sig with
  | Some params => existsb (String.eqb name) params
  | None => false
  end.

(** The keyword arguments that [make_vespa_client] builds for [Vespa]. *)
Definition make_vespa_client_kwargs {V : Type} (sig : option (list string))
    (vespa_url : string) (vespa_port : Z)
    (cert_path key_path ca_cert : option string) (verify : option V)
  : list (string * ClientArg V) :=
  let endpoint := vespa_url ++ ":" ++ str_of_int vespa_port in
  ((if sig_declares sig "endpoint" then [("endpoint", AStr endpoint)]
    else [("url", AStr vespa_url); ("port", AInt vespa_port)])
   ++ match cert_path, key_path with
      | Some c, Some k =>
          if PyStr.truthy c && PyStr.truthy k && sig_declares sig "cert" then
            if sig_declares sig "key" then [("cert", AStr c); ("key", AStr k)]
            else [("cert", ACertPair c k)]
          else []
      | _, _ => []
      end
   ++ match ca_cert with
      | Some ca =>
          if PyStr.truthy ca && sig_declares sig "ca_cert" then [("ca_cert", AStr ca)]
          else []
      | None => []
      end
   ++ match verify with
      | Some v => if sig_declares sig "verify" then [("verify", AVerify v)] else []
      | None => []
      end)%list.


(** [keeps_tmp m]: whenever [m] ends, [tmp] holds what it held. *)
Definition keeps_tmp {X : Externals} {A : Type} (m : M X A) : Prop :=
  forall (w : World X) (r : Res A) (w' : World X),
    m w = (r, w') -> w_tmp w' = w_tmp w.

(** ** A scripted outside with a file system

    The outcomes the next calls of [deploy] will have, the number of
    temporary directories made so far, and the files there are, each by
    its directory, its name and its content. A temporary directory gets a
    name of its own; its finalizer removes every file in it. *)
Record Disk := mkDisk {
  disk_script : list (Res VespaApp);
  disk_made : nat;
  disk_files : list (string * string * string)
}.

Definition tmp_name (n : nat) : string :=
  "/tmp/tmp" ++ DecimalString.NilEmpty.string_of_uint (Nat.to_uint n).

Definition in_dir (dir : string) (file : string * string * string) : bool :=
  String.eqb (fst (fst file)) dir.

Definition disk : Externals := {|
  Ext := Disk;
  resolve_vespa_docker_class := fun x =>
    (Ok (mkClass "VespaDocker" ["port"; "image"; "cfgsrv_url"]), x);
  VespaCloud := mkClass "VespaCloud" ["tenant"; "application"; "application_package"];
  construct := fun _ _ x => (Ok 1%nat, x);
  client_deploy := fun _ _ x =>
    match disk_script x with
    | [] => (Raise (mkExn RuntimeError "connection refused"), x)
    | r :: rest => (r, mkDisk rest (disk_made x) (disk_files x))
    end;
  client_hasattr := fun _ _ x => (Ok false, x);
  client_setattr := fun _ _ _ x => (Ok tt, x);
  console_print := fun _ x => (Ok tt, x);
  TemporaryDirectory := fun x =>
    (Ok (tmp_name (disk_made x)),
     mkDisk (disk_script x) (S (disk_made x)) (disk_files x));
  cleanup := fun dir x =>
    mkDisk (disk_script x) (disk_made x)
           (filter (fun file => negb (in_dir dir file)) (disk_files x));
  to_files := fun pkg dir x =>
    (Ok tt, mkDisk (disk_script x) (disk_made x)
                   (disk_files x ++ [(dir, "services.xml", pkg_name pkg)]));
  mkdir := fun _ x => (Ok tt, x);
  write_text := fun dir name content x =>
    (Ok tt, mkDisk (disk_script x) (disk_made x)
                   (filter (fun file => negb (in_dir dir file && String.eqb (snd (fst file)) name))
                           (disk_files x)
                    ++ [(dir, name, content)]));
  DEFAULT_VESPA_DOCKER_IMAGE := "vespaengine/vespa";
  default_DeployConfig :=
    mkConfig true "http://localhost:19071" None None "default" None None
|}.

(** A first deploy refused for the removal of a content cluster, a second
    one that would succeed, a terminal with the answer "y" waiting, on
    25 February 2024. *)
Definition disk_world : World disk :=
  mkWorld (mkDisk [Raise demo_removal; Ok demo_app] 0 [] : Ext disk)
          (Ok true) ["y"] (mkDate 2024 2 25) None [].


(** A scripted outside whose deployer has a property [package] with a
    getter that fails: [hasattr] runs the getter and lets its error
    through. *)
Definition faulty_getter : Externals := {|
  Ext := list (Res VespaApp);
  resolve_vespa_docker_class := resolve_vespa_docker_class scripted;
  VespaCloud := VespaCloud scripted;
  construct := construct scripted;
  client_deploy := client_deploy scripted;
  client_hasattr := fun _ attr x =>
    if String.eqb attr "package"
    then (Raise (mkExn RuntimeError "package is not built yet"), x)
    else (Ok true, x);
  client_setattr := client_setattr scripted;
  console_print := console_print scripted;
  TemporaryDirectory := TemporaryDirectory scripted;
  cleanup := cleanup scripted;
  to_files := to_files scripted;
  mkdir := mkdir scripted;
  write_text := write_text scripted;
  DEFAULT_VESPA_DOCKER_IMAGE := DEFAULT_VESPA_DOCKER_IMAGE scripted;
  default_DeployConfig := default_DeployConfig scripted
|}.


(** * Properties *)

(** ** Strings *)

Lemma append_nil_r (s : string) : s ++ "" = s.
Proof. induction s; simpl; congruence. Qed.

Lemma append_assoc (a b c : string) : (a ++ b) ++ c = a ++ b ++ c.
Proof. induction a; simpl; congruence. Qed.

Lemma prefix_spec (n h : string) :
  prefix n h = true <-> exists suf, h = n ++ suf.
Proof.
  revert n; induction h as [|d h IH]; intros [|c n]; simpl.
  - split; [intros _; now exists "" | reflexivity].
  - split; [discriminate | intros [suf H]; discriminate].
  - split; [intros _; now exists (String d h) | reflexivity].
  - destruct (ascii_dec c d) as [->|Hne].
    + rewrite IH. split; intros [suf H]; exists suf; congruence.
    + split; [discriminate | intros [suf H]; congruence].
Qed.

Lemma contains_spec (n h : string) :
  PyStr.contains n h = true <-> exists pre suf, h = pre ++ n ++ suf.
Proof.
  induction h as [|d h IH]; cbn [PyStr.contains];
    rewrite orb_true_iff, prefix_spec.
  - split.
    + intros [[suf H] | H]; [now exists "", suf | discriminate].
    + intros [pre [suf H]]. left.
      destruct pre; simpl in H; [now exists suf | discriminate].
  - rewrite IH. split.
    + intros [[suf H] | [pre [suf H]]].
      * exists "", suf. exact H.
      * exists (String d pre), suf. simpl. now rewrite H.
    + intros [pre [suf H]]. destruct pre as [|c pre]; simpl in H.
      * left. now exists suf.
      * right. exists pre, suf. congruence.
Qed.

Lemma lower_app (a b : string) :
  PyStr.lower (a ++ b) = PyStr.lower a ++ PyStr.lower b.
Proof. induction a; simpl; congruence. Qed.

Lemma lower_split (m a b : string) :
  PyStr.lower m = a ++ b ->
  exists a' b', m = a' ++ b' /\ PyStr.lower a' = a /\ PyStr.lower b' = b.
Proof.
  revert m; induction a as [|c a IH]; intros m H; simpl in H.
  - now exists "", m.
  - destruct m as [|d m]; simpl in H; [discriminate|].
    injection H as Hc Hm. destruct (IH _ Hm) as [a' [b' [-> [Ha Hb]]]].
    exists (String d a'), b'. simpl. now rewrite Hc, Ha, Hb.
Qed.

(** ** Letter case *)

Lemma all_chars_complete (c : ascii) : In c all_chars.
Proof.
  unfold all_chars. rewrite <- (ascii_nat_embedding c).
  apply in_map, in_seq. pose proof (nat_ascii_bounded c). lia.
Qed.

(** On the characters of the phrases, [str.lower] takes a character to
    the phrase's exactly when the two are the same up to case. *)
Lemma lower_char_same_ci (c n : ascii) :
  In n phrase_chars ->
  Ascii.eqb (PyStr.lower_char c) n = same_char_ci c n.
Proof.
  intros Hn.
  assert (H : forallb (fun n0 =>
                forallb (fun c0 => Bool.eqb (Ascii.eqb (PyStr.lower_char c0) n0)
                                            (same_char_ci c0 n0)) all_chars)
              phrase_chars = true) by (vm_compute; reflexivity).
  rewrite forallb_forall in H. specialize (H n Hn).
  rewrite forallb_forall in H. specialize (H c (all_chars_complete c)).
  now apply Bool.eqb_prop.
Qed.

Lemma lower_same_text_ci (needle mid : string) :
  Forall (fun n => In n phrase_chars) (list_ascii_of_string needle) ->
  (PyStr.lower mid = needle <-> same_text_ci mid needle = true).
Proof.
  revert mid. induction needle as [|n needle IH]; intros [|c mid] Hall; cbn.
  - split; reflexivity.
  - split; discriminate.
  - split; discriminate.
  - cbn in Hall. inversion Hall as [|? ? Hn Hrest]; subst.
    rewrite <- (lower_char_same_ci c n Hn), andb_true_iff, <- (IH mid Hrest).
    rewrite Ascii.eqb_eq. split.
    + intros H. injection H as H1 H2. now split.
    + intros [H1 H2]. now rewrite H1, H2.
Qed.

(** [in] on the lowered message is containment up to case, for a phrase
    of small letters, hyphens and spaces. *)
Lemma contains_lower_iff (needle message : string) :
  Forall (fun n => In n phrase_chars) (list_ascii_of_string needle) ->
  (PyStr.contains needle (PyStr.lower message) = true
   <-> spec_contains_ci needle message).
Proof.
  intros Hall. rewrite contains_spec. unfold spec_contains_ci. split.
  - intros [pre [suf H]].
    destruct (lower_split _ _ _ H) as [pre' [r [-> [_ Hr]]]].
    destruct (lower_split _ _ _ Hr) as [mid [suf' [-> [Hm _]]]].
    exists pre', mid, suf'. split; [reflexivity|].
    now apply lower_same_text_ci.
  - intros [pre [mid [suf [-> Hm]]]].
    exists (PyStr.lower pre), (PyStr.lower suf).
    apply (lower_same_text_ci needle mid Hall) in Hm.
    now rewrite !lower_app, Hm.
Qed.

Lemma phrase_of_phrase_chars (needle : string) :
  forallb (fun n => existsb (Ascii.eqb n) phrase_chars) (list_ascii_of_string needle)
  = true ->
  Forall (fun n => In n phrase_chars) (list_ascii_of_string needle).
Proof.
  intros H. apply Forall_forall. intros n Hn.
  rewrite forallb_forall in H. specialize (H n Hn).
  apply existsb_exists in H. destruct H as [m [Hm E]].
  apply Ascii.eqb_eq in E. now subst.
Qed.

(** ** C2: the failure classifier *)

(** C2. [_looks_like_cluster_removal_error] is true exactly on the messages
    that contain the token "content-cluster-removal" case-insensitively, or
    contain both "content cluster" and "removed" case-insensitively (in any
    order); it is false on the empty string and on every message matching
    neither. Containment up to case is stated on its own, by the two
    alphabets, not by [str.lower]. *)
Theorem classifier_iff_spec :
  (forall message,
     _looks_like_cluster_removal_error message = true <-> spec_classify message)
  /\ (forall message,
        ~ spec_classify message -> _looks_like_cluster_removal_error message = false)
  /\ _looks_like_cluster_removal_error "" = false.
Proof.
  assert (Hiff : forall message,
     _looks_like_cluster_removal_error message = true <-> spec_classify message).
  { intros message. unfold _looks_like_cluster_removal_error, spec_classify.
    rewrite <- !contains_lower_iff
      by (apply phrase_of_phrase_chars; vm_compute; reflexivity).
    change "content-cluster-removal" with _CLUSTER_REMOVAL_ALLOWLIST_TOKEN.
    destruct message as [|c m].
    - simpl. split; [discriminate|]. intros [H | [H _]]; discriminate.
    - cbn [PyStr.truthy negb].
      destruct (PyStr.contains _CLUSTER_REMOVAL_ALLOWLIST_TOKEN _).
      + split; auto.
      + rewrite andb_true_iff. split; [now right|].
        intros [H | H]; [discriminate | exact H]. }
  split; [exact Hiff|]. split.
  - intros message Hn. destruct (_looks_like_cluster_removal_error message) eqn:E; auto.
    exfalso. apply Hn, Hiff, E.
  - reflexivity.
Qed.

Lemma classifier_iff_spec_witness :
  _looks_like_cluster_removal_error
    "Deploy refused: CONTENT-Cluster-REMOVAL is required" = true /\
  _looks_like_cluster_removal_error
    "REMOVED: the Content Cluster 'docs'" = true /\
  _looks_like_cluster_removal_error "content cluster 'docs' is unchanged" = false.
Proof.
  split; [|split].
  - apply (proj1 classifier_iff_spec). left.
    exists "Deploy refused: ", "CONTENT-Cluster-REMOVAL", " is required".
    split; reflexivity.
  - apply (proj1 classifier_iff_spec). right. split.
    + exists "REMOVED: the ", "Content Cluster", " 'docs'". split; reflexivity.
    + exists "", "REMOVED", ": the Content Cluster 'docs'". split; reflexivity.
  - apply (proj1 (proj2 classifier_iff_spec)). intros H.
    apply (proj1 classifier_iff_spec) in H. discriminate H.
Defined.

(** ** C5, C6: the confirmation gate *)

Section Gate.
Context {X : Externals}.

Lemma gate_noninteractive_run (message : string) (until : date) (w : World X) :
  w_isatty w = Ok false ->
  _confirm_cluster_removal message until w =
    (Ok false, after w [EvIsatty; EvLog Warning gate_warning]).
Proof.
  intros Htty.
  unfold _confirm_cluster_removal, after, advance, bind, isatty, log, emit, ret.
  cbn [w_isatty w_stdin w_ext w_today w_tmp w_trace]. rewrite Htty.
  cbn [negb w_isatty w_stdin w_ext w_today w_tmp w_trace].
  rewrite <- ?app_assoc. reflexivity.
Qed.

(** When [sys.stdin.isatty()] raises, the gate raises with it. *)
Lemma gate_isatty_failure (message : string) (until : date) (w : World X) (e : exn) :
  w_isatty w = Raise e ->
  _confirm_cluster_removal message until w = (Raise e, after w [EvIsatty]).
Proof.
  intros Htty.
  unfold _confirm_cluster_removal, after, advance, bind, isatty.
  cbn [w_isatty w_stdin w_ext w_today w_tmp w_trace]. now rewrite Htty.
Qed.

(** On a terminal the gate is its prints, then the question. *)
Lemma gate_terminal_run (message : string) (until : date) (w : World X) :
  w_isatty w = Ok true ->
  _confirm_cluster_removal message until w =
    match print_banner message until (after w [EvIsatty]) with
    | (Ok _, w1) =>
        match input gate_prompt w1 with
        | (Ok answer, w2) => (Ok (affirmative answer), w2)
        | (Raise e, w2) => (Raise e, w2)
        end
    | (Raise e, w1) => (Raise e, w1)
    end.
Proof.
  intros Htty.
  unfold _confirm_cluster_removal, print_banner, gate_texts, after, advance, bind, isatty.
  cbn [w_isatty w_stdin w_ext w_today w_tmp w_trace]. rewrite Htty. cbn [negb].
  destruct (PyStr.truthy (PyStr.strip message)); cbn [for_each]; unfold bind, ret.
  - match goal with
    | |- context [print ?t ?w0] => destruct (print t w0) as [[[]|e] w1]; [|reflexivity]
    end.
    match goal with
    | |- context [print ?t ?w0] => destruct (print t w0) as [[[]|e] w2]; [|reflexivity]
    end.
    destruct (input _ w2) as [[answer|e] w3]; reflexivity.
  - match goal with
    | |- context [print ?t ?w0] => destruct (print t w0) as [[[]|e] w1]; [|reflexivity]
    end.
    destruct (input _ w1) as [[answer|e] w3]; reflexivity.
Qed.

(** What the prints leave as they found it, and what they add. *)
Lemma print_banner_frame (message : string) (until : date) (w : World X) r w1 :
  print_banner message until w = (r, w1) ->
  w_isatty w1 = w_isatty w /\ w_stdin w1 = w_stdin w /\ w_today w1 = w_today w /\
  w_tmp w1 = w_tmp w /\
  exists evs, w_trace w1 = (w_trace w ++ evs)%list /\
              forallb is_console evs = true /\ count is_input evs = 0%nat /\
              (forall u, r = Ok u -> evs = gate_banner message until).
Proof.
  unfold print_banner, gate_banner. generalize (gate_texts message until).
  intros texts. revert w r w1.
  induction texts as [|t texts IH]; intros w r w1 H; cbn [for_each] in H.
  - unfold ret in H. injection H as <- <-. repeat split; try reflexivity.
    exists []. rewrite app_nil_r. repeat split.
  - unfold bind, print, call in H.
    destruct (console_print X t (w_ext w)) as [[[]|e] x].
    + apply IH in H. cbn [w_isatty w_stdin w_today w_tmp w_trace] in H.
      destruct H as [H1 [H2 [H3 [H4 [evs [Ht [Hc [Hi Hok]]]]]]]].
      repeat split; try assumption.
      exists (EvPrint t :: evs). rewrite Ht, <- app_assoc.
      split; [reflexivity|]. split; [exact Hc|]. split; [exact Hi|].
      intros u Hu. cbn [map]. now rewrite (Hok u Hu).
    + injection H as <- <-. cbn [w_isatty w_stdin w_today w_tmp w_trace].
      repeat split; try reflexivity.
      exists [EvPrint t]. repeat split. discriminate.
Qed.

(** The gate on a terminal, once its prints are through, with a line to
    read: the one line it consumes, and its answer. *)
Lemma gate_interactive_run (message : string) (until : date) (w w1 : World X)
      (line : string) (rest : list string) :
  w_isatty w = Ok true -> w_stdin w = line :: rest ->
  print_banner message until (after w [EvIsatty]) = (Ok tt, w1) ->
  _confirm_cluster_removal message until w =
    (Ok (affirmative line), advance w1 (w_ext w1) rest [EvInput gate_prompt]).
Proof.
  intros Htty Hin Hp. rewrite (gate_terminal_run _ _ _ Htty), Hp.
  destruct (print_banner_frame _ _ _ _ _ Hp) as [_ [Hs _]].
  cbn [after advance w_stdin] in Hs. rewrite Hin in Hs.
  unfold input. rewrite Hs. reflexivity.
Qed.


(** A print that fails ends the gate before it asks. *)
Lemma gate_print_failure (message : string) (until : date) (w w1 : World X) (e : exn) :
  w_isatty w = Ok true ->
  print_banner message until (after w [EvIsatty]) = (Raise e, w1) ->
  _confirm_cluster_removal message until w = (Raise e, w1).
Proof. intros Htty Hp. now rewrite (gate_terminal_run _ _ _ Htty), Hp. Qed.

Lemma affirmative_iff (answer : string) :
  affirmative answer = true <->
  (PyStr.lower (PyStr.strip answer) = "y" \/ PyStr.lower (PyStr.strip answer) = "yes").
Proof.
  unfold affirmative. cbn [existsb]. rewrite orb_false_r, orb_true_iff, !String.eqb_eq.
  reflexivity.
Qed.

End Gate.

(** C5. When [sys.stdin.isatty()] answers [False] the gate, for every
    message and expiry date, logs one warning and returns [False]; it shows
    no prompt, reads no line (the input is left as it was) and changes
    nothing outside. When [sys.stdin.isatty()] raises instead, as it does
    with [AttributeError] for a process whose standard input is closed
    ([sys.stdin] is [None]), the gate raises that exception at once: it
    logs no warning and returns nothing, so a standard input that is not
    attached to any terminal at all is not denied but fails the call. *)
Theorem gate_without_terminal :
  forall (X : Externals) (message : string) (until : date) (w : World X),
    (w_isatty w = Ok false ->
     exists w',
       _confirm_cluster_removal message until w = (Ok false, w') /\
       w_trace w' = (w_trace w ++ [EvIsatty; EvLog Warning gate_warning])%list /\
       w_stdin w' = w_stdin w /\ w_ext w' = w_ext w /\
       count is_input [EvIsatty; EvLog Warning gate_warning] = 0%nat)
    /\
    (forall e : exn,
       w_isatty w = Raise e ->
       exists w',
         _confirm_cluster_removal message until w = (Raise e, w') /\
         w_trace w' = (w_trace w ++ [EvIsatty])%list /\
         w_stdin w' = w_stdin w /\ w_ext w' = w_ext w).
Proof.
  intros X message until w. split.
  - intros Htty. exists (after w [EvIsatty; EvLog Warning gate_warning]).
    rewrite (gate_noninteractive_run message until w Htty). repeat split.
  - intros e Htty. exists (after w [EvIsatty]).
    rewrite (gate_isatty_failure message until w e Htty). repeat split.
Qed.

Lemma gate_without_terminal_witness :
  let w := demo_world_without_stdin [] in
  exists w',
    _confirm_cluster_removal (exn_msg demo_removal) (mkDate 2024 3 3) w
      = (Raise stdin_missing, w') /\
    w_trace w' = [EvIsatty].
Proof.
  intros w.
  destruct (proj2 (gate_without_terminal scripted (exn_msg demo_removal)
                     (mkDate 2024 3 3) w) stdin_missing eq_refl)
    as [w' [Hrun [Ht _]]].
  exists w'. split; [exact Hrun | exact Ht].
Defined.

(** C6. On a terminal, once the gate has printed its banner and the
    message, it reads one line and returns [True] exactly when that line,
    stripped and lowered, is "y" or "yes"; the empty line, a blank line,
    "n", "no" and "Yes!" are all refused. The message is printed as
    console markup: when the console refuses it (a closing tag that no tag
    opened), the gate raises the console's error before it asks, whatever
    line is waiting, and reads nothing. *)
Theorem gate_on_terminal :
  forall (X : Externals) (message : string) (until : date) (w : World X),
    w_isatty w = Ok true ->
    (forall (w1 : World X) (line : string) (rest : list string),
       print_banner message until (after w [EvIsatty]) = (Ok tt, w1) ->
       w_stdin w = line :: rest ->
       exists b w',
         _confirm_cluster_removal message until w = (Ok b, w') /\
         w_stdin w' = rest /\
         (b = true <->
          (PyStr.lower (PyStr.strip line) = "y" \/ PyStr.lower (PyStr.strip line) = "yes")) /\
         (In line [""; "   "; "n"; "no"; "Yes!"] -> b = false))
    /\
    (forall (w1 : World X) (e : exn),
       print_banner message until (after w [EvIsatty]) = (Raise e, w1) ->
       _confirm_cluster_removal message until w = (Raise e, w1) /\
       w_stdin w1 = w_stdin w /\
       exists evs, w_trace w1 = (w_trace w ++ evs)%list /\ count is_input evs = 0%nat).
Proof.
  intros X message until w Htty. split.
  - intros w1 line rest Hp Hin.
    exists (affirmative line). eexists.
    rewrite (gate_interactive_run message until w w1 line rest Htty Hin Hp).
    split; [reflexivity|]. split; [reflexivity|]. split; [apply affirmative_iff|].
    intros Hl. cbn [In] in Hl.
    repeat (destruct Hl as [<- | Hl]; [reflexivity|]). contradiction.
  - intros w1 e Hp. split; [exact (gate_print_failure _ _ _ _ _ Htty Hp)|].
    destruct (print_banner_frame _ _ _ _ _ Hp) as [_ [Hs [_ [_ [evs [Ht [_ [Hi _]]]]]]]].
    split; [exact Hs|]. exists (EvIsatty :: evs). split.
    + rewrite Ht. cbn [after advance w_trace]. now rewrite <- app_assoc.
    + exact Hi.
Qed.

Lemma gate_on_terminal_witness :
  let w : World strict_console :=
    mkWorld ([] : Ext strict_console) (Ok true) ["y"] (mkDate 2024 2 25) None [] in
  exists w1,
    _confirm_cluster_removal (exn_msg demo_tagged) (mkDate 2024 3 3) w
      = (Raise markup_error, w1) /\
    w_stdin w1 = ["y"].
Proof.
  intros w.
  pose (w1 := snd (print_banner (X:=strict_console) (exn_msg demo_tagged)
                     (mkDate 2024 3 3) (after w [EvIsatty]))).
  destruct (proj2 (gate_on_terminal strict_console (exn_msg demo_tagged)
                     (mkDate 2024 3 3) w eq_refl) w1 markup_error
                  ltac:(vm_compute; reflexivity))
    as [Hrun [Hs _]].
  exists w1. split; [exact Hrun | exact Hs].
Defined.

(** ** C7: the version-adaptive invoker *)

Section Invoker.
Context {X : Externals}.

Lemma deploy_call_run (deployer : Client) (args : DeployArgs) (w : World X) r x :
  client_deploy X deployer args (w_ext w) = (r, x) ->
  deploy_call deployer args w = (r, advance w x (w_stdin w) [EvDeploy deployer args]).
Proof. intros H. unfold deploy_call, call, advance. now rewrite H. Qed.

(** One probing call: a handle is returned, a shape mismatch falls
    through, any other failure is raised again. *)
Lemma try_shape_run (deployer : Client) (args : DeployArgs) (w : World X) r x :
  client_deploy X deployer args (w_ext w) = (r, x) ->
  try_shape deployer args w =
    (match r with
     | Ok app => Ok (Some app)
     | Raise e => if _should_fallback e then Ok None else Raise e
     end,
     advance w x (w_stdin w) [EvDeploy deployer args]).
Proof.
  intros H. unfold try_shape, try_except, bind.
  rewrite (deploy_call_run _ _ _ _ _ H).
  destruct r as [app|e]; [reflexivity|].
  destruct (_should_fallback e); reflexivity.
Qed.

(** A failure of the first shape that is no shape mismatch leaves the
    invoker at once. *)
Lemma invoker_first_failure (deployer : Client) pkg root (w : World X) e x :
  client_deploy X deployer (ByPackage pkg) (w_ext w) = (Raise e, x) ->
  _should_fallback e = false ->
  _deploy_with_pyvespa deployer pkg root w =
    (Raise e, advance w x (w_stdin w) [EvDeploy deployer (ByPackage pkg)]).
Proof.
  intros H Hf. unfold _deploy_with_pyvespa, bind.
  rewrite (try_shape_run _ _ _ _ _ H), Hf. reflexivity.
Qed.

Lemma advance_advance (w : World X) x s evs x' s' evs' :
  advance (advance w x s evs) x' s' evs' = advance w x' s' (evs ++ evs')%list.
Proof. unfold advance. cbn. now rewrite <- app_assoc. Qed.

End Invoker.

(** C7. A failure is a shape mismatch when it is a [TypeError] or its
    message contains the missing-package string. When the first call shape
    fails with a shape mismatch and the second succeeds, the invoker
    returns the second call's handle after exactly these two calls. A
    failure that is not a shape mismatch is raised as it is, at the first
    shape after one call and at the second after two, with no later shape
    tried; the third shape is the last, so whatever it raises is raised. *)
Theorem invoker_falls_back_only_on_shape_mismatch :
  forall (X : Externals) (deployer : Client) (pkg : ApplicationPackage)
         (root : string) (w : World X) (e1 : exn) (x1 : Ext X),
    client_deploy X deployer (ByPackage pkg) (w_ext w) = (Raise e1, x1) ->
    (_should_fallback e1 = true <->
       (exn_class e1 = TypeError \/
        PyStr.contains _MISSING_PACKAGE_ERROR (exn_msg e1) = true))
    /\
    (_should_fallback e1 = false ->
       _deploy_with_pyvespa deployer pkg root w =
         (Raise e1, advance w x1 (w_stdin w) [EvDeploy deployer (ByPackage pkg)]))
    /\
    (_should_fallback e1 = true ->
       forall (r2 : Res VespaApp) (x2 : Ext X),
         client_deploy X deployer (ByRoot root) x1 = (r2, x2) ->
         let w2 := advance w x2 (w_stdin w)
                     [EvDeploy deployer (ByPackage pkg); EvDeploy deployer (ByRoot root)] in
         match r2 with
         | Ok app => _deploy_with_pyvespa deployer pkg root w = (Ok app, w2)
         | Raise e2 =>
             (_should_fallback e2 = false ->
                _deploy_with_pyvespa deployer pkg root w = (Raise e2, w2))
             /\
             (_should_fallback e2 = true ->
                forall (w3 : World X) (r3 : Res VespaApp) (x3 : Ext X),
                  for_each (set_if_present deployer)
                    [ ("application_package", VPkg pkg); ("app_package", VPkg pkg);
                      ("package", VPkg pkg); ("application_root", VStr root) ] w2
                    = (Ok tt, w3) ->
                  client_deploy X deployer NoArgs (w_ext w3) = (r3, x3) ->
                  _deploy_with_pyvespa deployer pkg root w =
                    (r3, advance w3 x3 (w_stdin w3) [EvDeploy deployer NoArgs]))
         end).
Proof.
  intros X deployer pkg root w e1 x1 H1. split; [|split].
  - unfold _should_fallback. destruct (exn_class e1); split; intros H; auto;
      try (destruct H as [H|H]; [discriminate | exact H]); now left.
  - intros Hf. unfold _deploy_with_pyvespa, bind.
    rewrite (try_shape_run _ _ _ _ _ H1), Hf. reflexivity.
  - intros Hf r2 x2 H2 w2. subst w2.
    assert (Hrun1 : try_shape deployer (ByPackage pkg) w =
              (Ok None, advance w x1 (w_stdin w) [EvDeploy deployer (ByPackage pkg)])).
    { rewrite (try_shape_run _ _ _ _ _ H1), Hf. reflexivity. }
    assert (Hrun2 := try_shape_run deployer (ByRoot root)
              (advance w x1 (w_stdin w) [EvDeploy deployer (ByPackage pkg)]) r2 x2 H2).
    cbn [advance w_stdin] in Hrun2. rewrite advance_advance in Hrun2. cbn [app] in Hrun2.
    destruct r2 as [app|e2].
    + unfold _deploy_with_pyvespa, bind. rewrite Hrun1, Hrun2. reflexivity.
    + split.
      * intros Hf2. unfold _deploy_with_pyvespa, bind. rewrite Hrun1, Hrun2, Hf2.
        reflexivity.
      * intros Hf2 w3 r3 x3 Hset H3.
        unfold _deploy_with_pyvespa, bind. rewrite Hrun1, Hrun2, Hf2.
        cbn iota beta. rewrite Hset. apply deploy_call_run, H3.
Qed.

Lemma invoker_falls_back_only_on_shape_mismatch_witness :
  let e1 := mkExn TypeError "deploy() got an unexpected keyword argument 'application_package'" in
  let w := demo_world [Raise e1; Ok demo_app] false [] in
  _deploy_with_pyvespa 1%nat demo_package "/srv/app" w =
    (Ok demo_app,
     advance w ([] : Ext scripted) []
       [EvDeploy 1%nat (ByPackage demo_package); EvDeploy 1%nat (ByRoot "/srv/app")]).
Proof.
  intros e1 w.
  exact (proj2 (proj2 (invoker_falls_back_only_on_shape_mismatch scripted 1%nat
                         demo_package "/srv/app" w e1 [Ok demo_app] eq_refl))
               eq_refl (Ok demo_app) [] eq_refl).
Defined.

(** ** Frame rules *)

Section Frames.
Context {X : Externals}.

Lemma quiet_ret {A} P (a : A) : quiet P (ret (X:=X) a).
Proof.
  intros w r w' H. unfold ret in H. injection H as <- <-.
  repeat split. exists []. now rewrite app_nil_r.
Qed.

Lemma quiet_raise {A} P e : quiet P (raise (X:=X) (A:=A) e).
Proof.
  intros w r w' H. unfold raise in H. injection H as <- <-.
  repeat split. exists []. now rewrite app_nil_r.
Qed.

Lemma quiet_today P : quiet P (today (X:=X)).
Proof.
  intros w r w' H. unfold today in H. injection H as <- <-.
  repeat split. exists []. now rewrite app_nil_r.
Qed.

Lemma quiet_hasattr P c attr : quiet P (hasattr (X:=X) c attr).
Proof.
  intros w r w' H. unfold hasattr in H.
  destruct (client_hasattr X c attr (w_ext w)) as [r0 x].
  injection H as <- <-. cbn.
  repeat split. exists []. now rewrite app_nil_r.
Qed.

Lemma released_frame (w : World X) :
  w_isatty (released w) = w_isatty w /\ w_stdin (released w) = w_stdin w /\
  w_today (released w) = w_today w /\ w_tmp (released w) = None /\
  exists evs, w_trace (released w) = (w_trace w ++ evs)%list /\
              (evs = [] \/ exists dir, w_tmp w = Some dir /\ evs = [EvCleanup dir]).
Proof.
  unfold released. destruct (w_tmp w) as [dir|] eqn:E; cbn.
  - repeat split. exists [EvCleanup dir]. split; [reflexivity|]. right. now exists dir.
  - repeat split; [exact E|]. exists []. rewrite app_nil_r. split; [reflexivity | now left].
Qed.

Lemma released_events (P : Event -> bool) (w : World X) :
  (forall d, P (EvCleanup d) = true) ->
  exists evs, w_trace (released w) = (w_trace w ++ evs)%list /\ forallb P evs = true.
Proof.
  intros HP. destruct (released_frame w) as [_ [_ [_ [_ [evs [Ht Hev]]]]]].
  exists evs. split; [exact Ht|].
  destruct Hev as [->|[dir [_ ->]]]; [reflexivity|]. cbn. now rewrite HP.
Qed.

Lemma released_unbound (w : World X) : w_tmp w = None -> released w = w.
Proof. intros H. unfold released. now rewrite H. Qed.

Lemma quiet_bind_tmp (P : Event -> bool) dir :
  (forall d, P (EvCleanup d) = true) -> quiet P (bind_tmp (X:=X) dir).
Proof.
  intros HP w r w' H. unfold bind_tmp in H. injection H as <- <-. cbn.
  destruct (released_frame w) as [H1 [H2 [H3 [_ [evs [H4 H5]]]]]].
  repeat split; try assumption. exists evs. split; [exact H4|].
  destruct H5 as [->|[d [_ ->]]]; [reflexivity|]. cbn. now rewrite HP.
Qed.

Lemma quiet_emit (P : Event -> bool) ev : P ev = true -> quiet P (emit (X:=X) ev).
Proof.
  intros HP w r w' H. unfold emit in H. injection H as <- <-. cbn.
  repeat split. exists [ev]. cbn. now rewrite HP.
Qed.

Lemma quiet_call {A} (P : Event -> bool) ev (f : Ext X -> Res A * Ext X) :
  P ev = true -> quiet P (call ev f).
Proof.
  intros HP w r w' H. unfold call in H. destruct (f (w_ext w)) as [r0 x].
  injection H as <- <-. cbn. repeat split. exists [ev]. cbn. now rewrite HP.
Qed.

Lemma quiet_bind {A B} P (m : M X A) (k : A -> M X B) :
  quiet P m -> (forall a, quiet P (k a)) -> quiet P (bind m k).
Proof.
  intros Hm Hk w r w' H. unfold bind in H.
  destruct (m w) as [[a|e] w1] eqn:E.
  - destruct (Hm _ _ _ E) as [H1 [H2 [H3 [evs [H4 H5]]]]].
    destruct (Hk a _ _ _ H) as [K1 [K2 [K3 [evs' [K4 K5]]]]].
    repeat split; try congruence.
    exists (evs ++ evs')%list. rewrite K4, H4, <- app_assoc. split; auto.
    rewrite forallb_app, H5, K5. reflexivity.
  - injection H as <- <-. exact (Hm _ _ _ E).
Qed.

Lemma quiet_try {A} P (m : M X A) (h : exn -> M X A) :
  quiet P m -> (forall e, quiet P (h e)) -> quiet P (try_except m h).
Proof.
  intros Hm Hh w r w' H. unfold try_except in H.
  destruct (m w) as [[a|e] w1] eqn:E.
  - injection H as <- <-. exact (Hm _ _ _ E).
  - destruct (Hm _ _ _ E) as [H1 [H2 [H3 [evs [H4 H5]]]]].
    destruct (Hh e _ _ _ H) as [K1 [K2 [K3 [evs' [K4 K5]]]]].
    repeat split; try congruence.
    exists (evs ++ evs')%list. rewrite K4, H4, <- app_assoc. split; auto.
    rewrite forallb_app, H5, K5. reflexivity.
Qed.

Lemma quiet_for_each {A} P (body : A -> M X unit) (xs : list A) :
  (forall x, quiet P (body x)) -> quiet P (for_each body xs).
Proof.
  intros Hb. induction xs as [|x xs IH]; cbn [for_each].
  - apply quiet_ret.
  - apply quiet_bind; [apply Hb | intros _; exact IH].
Qed.

Lemma quiet_weaken {A} (P Q : Event -> bool) (m : M X A) :
  (forall ev, P ev = true -> Q ev = true) -> quiet P m -> quiet Q m.
Proof.
  intros HPQ Hm w r w' H.
  destruct (Hm _ _ _ H) as [H1 [H2 [H3 [evs [H4 H5]]]]].
  repeat split; auto. exists evs. split; auto.
  rewrite forallb_forall in *. auto.
Qed.

Lemma yields_ret {A} (Q : A -> Prop) (a : A) : Q a -> yields Q (ret (X:=X) a).
Proof. intros HQ w a' w' H. unfold ret in H. now injection H as <- <-. Qed.

Lemma yields_raise {A} (Q : A -> Prop) e : yields Q (raise (X:=X) (A:=A) e).
Proof. intros w a' w' H. discriminate H. Qed.

Lemma yields_bind {A B} (Q : B -> Prop) (m : M X A) (k : A -> M X B) :
  (forall a, yields Q (k a)) -> yields Q (bind m k).
Proof.
  intros Hk w b w' H. unfold bind in H.
  destruct (m w) as [[a|e] w1]; [exact (Hk a _ _ _ H) | discriminate H].
Qed.

End Frames.

Ltac quiet_step :=
  lazymatch goal with
  | |- quiet _ (bind _ _) => apply quiet_bind; [| intros ?]
  | |- quiet _ (ret _) => apply quiet_ret
  | |- quiet _ (raise _) => apply quiet_raise
  | |- quiet _ today => apply quiet_today
  | |- quiet _ (hasattr _ _) => apply quiet_hasattr
  | |- quiet _ (bind_tmp _) => apply quiet_bind_tmp; intros ?; reflexivity
  | |- quiet _ (print _) => apply quiet_call; reflexivity
  | |- quiet _ (log _ _) => apply quiet_emit; reflexivity
  | |- quiet _ (emit _) => apply quiet_emit; reflexivity
  | |- quiet _ (call _ _) => apply quiet_call; reflexivity
  | |- quiet _ (try_except _ _) => apply quiet_try; [| intros ?]
  | |- quiet _ (for_each _ _) => apply quiet_for_each; intros ?
  | |- quiet _ (if ?b then _ else _) => destruct b
  | |- quiet _ (match ?o with _ => _ end) => destruct o
  end.

Ltac yields_step :=
  lazymatch goal with
  | |- yields _ (bind _ _) => apply yields_bind; intros ?
  | |- yields _ (ret _) => apply yields_ret; reflexivity
  | |- yields _ (raise _) => apply yields_raise
  | |- yields _ (if ?b then _ else _) => destruct b
  | |- yields _ (match ?o with _ => _ end) => destruct o
  end.

Section AttemptFrames.
Context {X : Externals}.

Lemma quiet_materialize app_dir pkg :
  quiet materialize_event (materialize (X:=X) app_dir pkg).
Proof. unfold materialize. repeat quiet_step. Qed.

Lemma quiet_invoker deployer pkg root :
  quiet attempt_event (_deploy_with_pyvespa (X:=X) deployer pkg root).
Proof.
  unfold _deploy_with_pyvespa, try_shape, deploy_call, set_if_present.
  repeat quiet_step.
Qed.

Lemma quiet_attempt mode app_dir pkg cfg :
  quiet attempt_event (attempt (X:=X) mode app_dir pkg cfg).
Proof.
  unfold attempt. apply quiet_bind.
  - apply quiet_weaken with (P := materialize_event);
      [intros [] H; (discriminate H || reflexivity) | apply quiet_materialize].
  - intros root. unfold docker_deployer, cloud_deployer, _set_vespa_endpoint_env_from_app.
    repeat first [apply quiet_invoker | quiet_step].
Qed.

Lemma quiet_write target until :
  quiet is_file_write (_write_validation_overrides (X:=X) target until).
Proof. unfold _write_validation_overrides. repeat quiet_step. Qed.

Lemma attempt_yields_true mode app_dir pkg cfg :
  yields (fun b => b = true) (attempt (X:=X) mode app_dir pkg cfg).
Proof. unfold attempt. repeat yields_step. Qed.

End AttemptFrames.


(** ** Counting events *)

Lemma count_app p (a b : list Event) : count p (a ++ b) = (count p a + count p b)%nat.
Proof. unfold count. now rewrite filter_app, length_app. Qed.

Lemma count_none (P q : Event -> bool) (evs : list Event) :
  forallb P evs = true -> (forall ev, P ev = true -> q ev = false) ->
  count q evs = 0%nat.
Proof.
  intros H HPq. induction evs as [|ev evs IH]; [reflexivity|].
  cbn in H. apply andb_true_iff in H as [H1 H2].
  unfold count in *. cbn. rewrite (HPq _ H1). auto.
Qed.

Lemma attempt_event_uncounted ev : attempt_event ev = true -> uncounted ev = true.
Proof. destruct ev; cbn; congruence. Qed.

Lemma materialize_event_attempt ev : materialize_event ev = true -> attempt_event ev = true.
Proof. destruct ev; cbn; congruence. Qed.

Lemma gate_event_uncounted ev : gate_event ev = true -> uncounted ev = true.
Proof. destruct ev; cbn; congruence. Qed.

Lemma uncounted_counts (evs : list Event) :
  forallb uncounted evs = true ->
  count is_loop_body evs = 0%nat /\ count is_gate_entry evs = 0%nat /\
  count is_override_write evs = 0%nat.
Proof.
  intros H. repeat split; apply (count_none uncounted _ _ H);
    intros ev; unfold uncounted; rewrite negb_true_iff, !orb_false_iff; tauto.
Qed.

Lemma forallb_weaken (P Q : Event -> bool) (evs : list Event) :
  (forall ev, P ev = true -> Q ev = true) -> forallb P evs = true -> forallb Q evs = true.
Proof. intros HPQ H. rewrite forallb_forall in *. auto. Qed.

Section Bounds.
Context {X : Externals}.

Lemma bounded_quiet {A} (P : Event -> bool) (m : M X A) :
  (forall ev, P ev = true -> uncounted ev = true) -> quiet P m -> bounded m 0 0 0.
Proof.
  intros HP Hm w r w' H. destruct (Hm _ _ _ H) as [_ [_ [_ [evs [Ht Hall]]]]].
  exists evs. split; [exact Ht|].
  destruct (uncounted_counts evs (forallb_weaken _ _ _ HP Hall)) as [-> [-> ->]].
  auto.
Qed.

Lemma bounded_weaken {A} (m : M X A) a b c a' b' c' :
  (a <= a')%nat -> (b <= b')%nat -> (c <= c')%nat ->
  bounded m a b c -> bounded m a' b' c'.
Proof.
  intros Ha Hb Hc Hm w r w' H. destruct (Hm _ _ _ H) as [evs [Ht [H1 [H2 H3]]]].
  exists evs. repeat split; auto; lia.
Qed.

Lemma bounded_bind {A B} (m : M X A) (k : A -> M X B) a b c a' b' c' :
  bounded m a b c -> (forall x, bounded (k x) a' b' c') ->
  bounded (bind m k) (a + a') (b + b') (c + c').
Proof.
  intros Hm Hk w r w' H. unfold bind in H.
  destruct (m w) as [[x|e] w1] eqn:E.
  - destruct (Hm _ _ _ E) as [evs [Ht [H1 [H2 H3]]]].
    destruct (Hk x _ _ _ H) as [evs' [Ht' [K1 [K2 K3]]]].
    exists (evs ++ evs')%list. rewrite Ht', Ht, <- app_assoc, !count_app.
    repeat split; auto; lia.
  - injection H as <- <-. destruct (Hm _ _ _ E) as [evs [Ht [H1 [H2 H3]]]].
    exists evs. repeat split; auto; lia.
Qed.

Lemma bounded_try {A} (m : M X A) (h : exn -> M X A) a b c a' b' c' :
  bounded m a b c -> (forall e, bounded (h e) a' b' c') ->
  bounded (try_except m h) (a + a') (b + b') (c + c').
Proof.
  intros Hm Hh w r w' H. unfold try_except in H.
  destruct (m w) as [[x|e] w1] eqn:E.
  - injection H as <- <-. destruct (Hm _ _ _ E) as [evs [Ht [H1 [H2 H3]]]].
    exists evs. repeat split; auto; lia.
  - destruct (Hm _ _ _ E) as [evs [Ht [H1 [H2 H3]]]].
    destruct (Hh e _ _ _ H) as [evs' [Ht' [K1 [K2 K3]]]].
    exists (evs ++ evs')%list. rewrite Ht', Ht, <- app_assoc, !count_app.
    repeat split; auto; lia.
Qed.

Lemma bounded_call {A} ev (f : Ext X -> Res A * Ext X) :
  bounded (call ev f)
    (count is_loop_body [ev]) (count is_gate_entry [ev]) (count is_override_write [ev]).
Proof.
  intros w r w' H. unfold call in H. destruct (f (w_ext w)) as [r0 x].
  injection H as <- <-. exists [ev]. cbn [w_trace]. auto.
Qed.

Lemma bounded_emit ev :
  bounded (emit (X:=X) ev)
    (count is_loop_body [ev]) (count is_gate_entry [ev]) (count is_override_write [ev]).
Proof.
  intros w r w' H. unfold emit in H. injection H as <- <-.
  exists [ev]. cbn [w_trace]. auto.
Qed.

(** The gate, from any world: it leaves the terminal mode, the clock and
    the binding of [tmp] alone and appends its entry and then prompts, a
    log line or a read. *)
Lemma gate_frame message until (w : World X) r w' :
  _confirm_cluster_removal message until w = (r, w') ->
  w_isatty w' = w_isatty w /\ w_today w' = w_today w /\ w_tmp w' = w_tmp w /\
  exists evs, w_trace w' = (w_trace w ++ EvIsatty :: evs)%list /\
              forallb gate_event evs = true.
Proof.
  intros H.
  destruct (w_isatty w) as [[|]|e] eqn:Htty.
  - rewrite (gate_terminal_run message until w Htty) in H.
    destruct (print_banner message until (after w [EvIsatty])) as [[[]|e] w1] eqn:Hp;
      destruct (print_banner_frame _ _ _ _ _ Hp)
        as [H1 [_ [H3 [H4 [evs [Ht [Hc _]]]]]]];
      cbn [after advance w_isatty w_today w_tmp w_trace] in H1, H3, H4, Ht;
      assert (Hg : forallb gate_event evs = true)
        by (apply (forallb_weaken is_console); [intros [] E; (discriminate E || reflexivity) | exact Hc]).
    + unfold input in H.
      destruct (w_stdin w1) as [|line rest]; injection H as <- <-;
        cbn [w_isatty w_today w_tmp w_trace]; rewrite H1, H3, H4, Ht, Htty;
        (repeat split); exists (evs ++ [EvInput gate_prompt])%list;
        rewrite <- !app_assoc; (split; [reflexivity|]);
        rewrite forallb_app, Hg; reflexivity.
    + injection H as <- <-. rewrite H1, H3, H4, Ht, Htty. repeat split.
      exists evs. rewrite <- app_assoc. split; [reflexivity | exact Hg].
  - rewrite (gate_noninteractive_run message until w Htty) in H. injection H as <- <-.
    cbn. rewrite Htty. repeat split. eexists. split; reflexivity.
  - rewrite (gate_isatty_failure message until w e Htty) in H. injection H as <- <-.
    cbn. rewrite Htty. repeat split. exists []. split; reflexivity.
Qed.

Lemma bounded_gate message until :
  bounded (_confirm_cluster_removal (X:=X) message until) 0 1 0.
Proof.
  intros w r w' H. destruct (gate_frame _ _ _ _ _ H) as [_ [_ [_ [evs [Ht Hall]]]]].
  exists (EvIsatty :: evs). split; [exact Ht|].
  destruct (uncounted_counts evs (forallb_weaken _ _ _ gate_event_uncounted Hall))
    as [H1 [H2 H3]].
  unfold count in *. cbn. rewrite H1, H2, H3. auto.
Qed.

Lemma bounded_materialize app_dir pkg : bounded (materialize (X:=X) app_dir pkg) 0 0 0.
Proof.
  apply bounded_quiet with (P := materialize_event); [|apply quiet_materialize].
  intros ev H. apply attempt_event_uncounted, materialize_event_attempt, H.
Qed.

Lemma bounded_attempt mode app_dir pkg cfg :
  bounded (attempt (X:=X) mode app_dir pkg cfg) 0 0 0.
Proof.
  apply bounded_quiet with (P := attempt_event);
    [exact attempt_event_uncounted | apply quiet_attempt].
Qed.

Lemma bounded_write target until :
  bounded (_write_validation_overrides (X:=X) target until) 0 0 1.
Proof.
  unfold _write_validation_overrides.
  apply (bounded_bind _ _ 0 0 0 0 0 1); [apply bounded_call|].
  intros _. apply bounded_call.
Qed.

Lemma bounded_ret {A} (a : A) : bounded (ret (X:=X) a) 0 0 0.
Proof.
  intros w r w' H. unfold ret in H. injection H as <- <-.
  exists []. rewrite app_nil_r. auto.
Qed.

Lemma bounded_raise {A} e : bounded (raise (X:=X) (A:=A) e) 0 0 0.
Proof.
  intros w r w' H. unfold raise in H. injection H as <- <-.
  exists []. rewrite app_nil_r. auto.
Qed.

Lemma bounded_handler app_dir pkg (attempted : bool) e :
  bounded (handler (X:=X) app_dir pkg attempted e)
          0 (if attempted then 0 else 1) (if attempted then 0 else 1).
Proof.
  unfold handler.
  destruct (_looks_like_cluster_removal_error (exn_msg e) && negb attempted) eqn:E.
  - apply andb_true_iff in E as [_ E]. destruct attempted; [discriminate|].
    apply (bounded_bind _ _ 0 0 0 0 1 1).
    { apply bounded_quiet with (P := uncounted); [auto | apply quiet_today]. }
    intros t. apply (bounded_bind _ _ 0 1 0 0 0 1); [apply bounded_gate|].
    intros ok. destruct ok; cbn [negb].
    + apply (bounded_bind _ _ 0 0 0 0 0 1); [apply bounded_materialize|].
      intros target. apply (bounded_bind _ _ 0 0 1 0 0 0); [apply bounded_write|].
      intros _. apply bounded_ret.
    + apply (bounded_weaken _ 0 0 0); try lia.
      apply (bounded_bind _ _ 0 0 0 0 0 0); [apply bounded_emit|].
      intros _. apply bounded_ret.
  - apply (bounded_weaken _ 0 0 0); try lia. apply bounded_raise.
Qed.

Lemma bounded_loop_body mode app_dir pkg cfg (attempted : bool) :
  bounded (loop_body (X:=X) mode app_dir pkg cfg attempted)
          1 (if attempted then 0 else 1) (if attempted then 0 else 1).
Proof.
  unfold loop_body.
  apply (bounded_bind _ _ 1 0 0 0 _ _); [apply bounded_emit|].
  intros _. apply (bounded_try _ _ 0 0 0 0 _ _); [|apply bounded_handler].
  apply (bounded_bind _ _ 0 0 0 0 0 0); [apply bounded_attempt|].
  intros b. apply bounded_ret.
Qed.

(** Letting go of [tmp] adds none of the counted events. *)
Lemma released_uncounted (w : World X) :
  exists evs, w_trace (released w) = (w_trace w ++ evs)%list /\
              count is_loop_body evs = 0%nat /\ count is_gate_entry evs = 0%nat /\
              count is_override_write evs = 0%nat.
Proof.
  destruct (released_frame w) as [_ [_ [_ [_ [evs [Ht Hev]]]]]].
  exists evs. split; [exact Ht|].
  destruct Hev as [->|[dir [_ ->]]]; repeat split.
Qed.

(** The body of the loop, by the outcome of the attempt. *)
Lemma loop_body_unfold mode app_dir pkg cfg attempted (w : World X) :
  loop_body mode app_dir pkg cfg attempted w =
    match attempt mode app_dir pkg cfg (after w [EvLoopBody]) with
    | (Ok b, w1) => (Ok (Return b), w1)
    | (Raise e, w1) => handler app_dir pkg attempted e w1
    end.
Proof.
  unfold loop_body, bind, try_except, emit, ret, after, advance.
  destruct (attempt mode app_dir pkg cfg _) as [[b|e] w1]; reflexivity.
Qed.

(** Once an override has been attempted, the handler raises again
    whatever it is given. *)
Lemma handler_after_override app_dir pkg e (w : World X) :
  handler app_dir pkg true e w = (Raise e, w).
Proof. unfold handler. rewrite andb_false_r. reflexivity. Qed.

Lemma handler_unclassified app_dir pkg attempted e (w : World X) :
  _looks_like_cluster_removal_error (exn_msg e) = false ->
  handler app_dir pkg attempted e w = (Raise e, w).
Proof. intros H. unfold handler. rewrite H. reflexivity. Qed.

(** The handler on a classified failure before any override. *)
Lemma handler_classified app_dir pkg e (w : World X) :
  _looks_like_cluster_removal_error (exn_msg e) = true ->
  handler app_dir pkg false e w =
    let until := add_days (w_today w) 7 in
    match _confirm_cluster_removal (exn_msg e) until w with
    | (Raise e', w2) => (Raise e', w2)
    | (Ok false, w2) => (Ok (Return false), after w2 [EvLog Warning skip_warning])
    | (Ok true, w2) =>
        match materialize app_dir pkg w2 with
        | (Raise e', w3) => (Raise e', w3)
        | (Ok target_dir, w3) =>
            match _write_validation_overrides target_dir until w3 with
            | (Raise e', w4) => (Raise e', w4)
            | (Ok _, w4) => (Ok (Continue target_dir), w4)
            end
        end
    end.
Proof.
  intros H. unfold handler. rewrite H. cbn [andb negb].
  unfold bind at 1. unfold today at 1. cbn zeta.
  unfold bind at 1.
  destruct (_confirm_cluster_removal _ _ w) as [[[|]|e'] w2]; reflexivity.
Qed.

(** With the override already attempted, a pass through the body never
    asks for another. *)
Lemma loop_body_after_override mode app_dir pkg cfg (w : World X) :
  loop_body mode app_dir pkg cfg true w =
    match attempt mode app_dir pkg cfg (after w [EvLoopBody]) with
    | (Ok b, w1) => (Ok (Return b), w1)
    | (Raise e, w1) => (Raise e, w1)
    end.
Proof.
  rewrite loop_body_unfold.
  destruct (attempt mode app_dir pkg cfg _) as [[b|e] w1]; [reflexivity|].
  apply handler_after_override.
Qed.

End Bounds.


(** ** C1: at most one override attempt *)

(** C1. Every call of [deploy_app_package] leaves the retry loop within
    two passes through its body, whatever the collaborators do: with fuel
    for two passes it returns, the same result for any larger fuel, and
    its trace enters the loop body at most twice, the confirmation gate at
    most once and writes at most one override file. Once an override has
    been attempted, a failed attempt (classified as cluster removal or
    not) is raised again as it is instead of being retried. *)
Theorem at_most_one_override_attempt :
  forall (X : Externals) (app_dir : option string) (pkg : ApplicationPackage)
         (deploy_config : option DeployConfig) (w : World X),
    (exists (r : Res bool) (w' : World X) (evs : list Event),
       (forall fuel, deploy_app_package (S (S fuel)) app_dir pkg deploy_config w
                     = Some (r, w')) /\
       w_trace w' = (w_trace w ++ evs)%list /\
       (count is_loop_body evs <= 2)%nat /\
       (count is_gate_entry evs <= 1)%nat /\
       (count is_override_write evs <= 1)%nat)
    /\
    (forall (fuel : nat) (mode : string) (cfg : DeployConfig) (e : exn) (w1 : World X),
       attempt mode app_dir pkg cfg (after w [EvLoopBody]) = (Raise e, w1) ->
       retry_loop (S fuel) mode app_dir pkg cfg true w = Some (Raise e, w1)).
Proof.
  intros X app_dir pkg deploy_config w. split.
  - unfold deploy_app_package.
    set (cfg := config_or_default X deploy_config). set (mode := deploy_mode cfg).
    destruct (loop_body mode app_dir pkg cfg false w) as [r1 w1] eqn:E1.
    destruct (bounded_loop_body _ _ _ _ _ _ _ _ E1) as [evs1 [Ht1 [B1 [G1 W1]]]].
    destruct (released_uncounted w1) as [rel1 [Hr1 [RB1 [RG1 RW1]]]].
    destruct r1 as [[b|target]|e].
    + exists (Ok b), (released w1), (evs1 ++ rel1)%list. split.
      { intros fuel. cbn [retry_loop]. now rewrite E1. }
      rewrite Hr1, Ht1, <- app_assoc, !count_app. repeat split; auto; lia.
    + destruct (loop_body mode (Some target) pkg cfg true (released w1))
        as [r2 w2] eqn:E2.
      destruct (bounded_loop_body _ _ _ _ _ _ _ _ E2) as [evs2 [Ht2 [B2 [G2 W2]]]].
      rewrite loop_body_after_override in E2.
      destruct (released_uncounted w2) as [rel2 [Hr2 [RB2 [RG2 RW2]]]].
      destruct (attempt mode (Some target) pkg cfg (after (released w1) [EvLoopBody]))
        as [[b|e2] w2'] eqn:E3; injection E2 as <- <-.
      * exists (Ok b), (released w2'), (evs1 ++ rel1 ++ evs2 ++ rel2)%list. split.
        { intros fuel. cbn [retry_loop]. rewrite E1. cbn [retry_loop].
          now rewrite loop_body_after_override, E3. }
        rewrite Hr2, Ht2, Hr1, Ht1, <- !app_assoc, !count_app.
        repeat split; auto; lia.
      * exists (Raise e2), w2', (evs1 ++ rel1 ++ evs2)%list. split.
        { intros fuel. cbn [retry_loop]. rewrite E1. cbn [retry_loop].
          now rewrite loop_body_after_override, E3. }
        rewrite Ht2, Hr1, Ht1, <- !app_assoc, !count_app. repeat split; auto; lia.
    + exists (Raise e), w1, evs1. split; [|repeat split; auto; lia].
      intros fuel. cbn [retry_loop]. now rewrite E1.
  - intros fuel mode cfg e w1 H. cbn [retry_loop].
    now rewrite loop_body_after_override, H.
Qed.


Lemma at_most_one_override_attempt_witness :
  let w := demo_world [Raise demo_removal] true [] in
  let cfg := default_DeployConfig scripted in
  exists w1,
    attempt "docker" (Some "/srv/app") demo_package cfg (after w [EvLoopBody])
      = (Raise demo_removal, w1) /\
    retry_loop 1 "docker" (Some "/srv/app") demo_package cfg true w
      = Some (Raise demo_removal, w1).
Proof.
  intros w cfg. eexists. split.
  - vm_compute. reflexivity.
  - apply (proj2 (at_most_one_override_attempt scripted (Some "/srv/app") demo_package
                    None w)).
    vm_compute. reflexivity.
Defined.

(** ** C8: other failures propagate *)

(** C8. When the deploy operation fails with an error that is neither a
    shape mismatch nor classified as cluster removal, the invoker lets it
    through and the call raises that very error, unchanged, in the world
    the failed call left. More generally, whatever made the attempt fail
    with an unclassified error, the call raises that error in the world
    the attempt left: the gate is not entered, nothing is printed or read,
    and the input is untouched. *)
Theorem unclassified_failure_propagates :
  forall (X : Externals) (fuel : nat) (app_dir : option string)
         (pkg : ApplicationPackage) (deploy_config : option DeployConfig)
         (w : World X) (e : exn),
    let cfg := config_or_default X deploy_config in
    _looks_like_cluster_removal_error (exn_msg e) = false ->
    (forall w1 : World X,
       attempt (deploy_mode cfg) app_dir pkg cfg (after w [EvLoopBody]) = (Raise e, w1) ->
       deploy_app_package (S fuel) app_dir pkg deploy_config w = Some (Raise e, w1) /\
       w_stdin w1 = w_stdin w /\
       exists evs, w_trace w1 = (w_trace w ++ evs)%list /\
                   count is_gate_entry evs = 0%nat /\ count is_console evs = 0%nat /\
                   count is_loop_body evs = 1%nat)
    /\
    (forall (root : string) (w1 w2 : World X) (deployer : Client) (x3 : Ext X),
       materialize app_dir pkg (after w [EvLoopBody]) = (Ok root, w1) ->
       (if is_local_mode cfg then docker_deployer cfg pkg root
        else cloud_deployer cfg pkg root) w1 = (Ok deployer, w2) ->
       client_deploy X deployer (ByPackage pkg) (w_ext w2) = (Raise e, x3) ->
       _should_fallback e = false ->
       deploy_app_package (S fuel) app_dir pkg deploy_config w
         = Some (Raise e,
                 advance w2 x3 (w_stdin w2) [EvDeploy deployer (ByPackage pkg)])).
Proof.
  intros X fuel app_dir pkg deploy_config w e cfg Hcls.
  assert (HA : forall w1 : World X,
             attempt (deploy_mode cfg) app_dir pkg cfg (after w [EvLoopBody])
               = (Raise e, w1) ->
             deploy_app_package (S fuel) app_dir pkg deploy_config w
               = Some (Raise e, w1)).
  { intros w1 Hrun. unfold deploy_app_package. fold cfg. cbn [retry_loop].
    rewrite loop_body_unfold, Hrun, (handler_unclassified _ _ _ _ _ Hcls). reflexivity. }
  split.
  - intros w1 Hrun. split; [exact (HA w1 Hrun)|].
    destruct (quiet_attempt _ _ _ _ _ _ _ Hrun) as [_ [Hin [_ [evs [Ht Hall]]]]].
    split; [exact Hin|].
    exists (EvLoopBody :: evs). split.
    + rewrite Ht. cbn. now rewrite <- app_assoc.
    + assert (G : count is_gate_entry evs = 0%nat).
      { apply (count_none _ _ _ Hall). now intros []. }
      assert (C : count is_console evs = 0%nat).
      { apply (count_none _ _ _ Hall). now intros []. }
      assert (B : count is_loop_body evs = 0%nat).
      { apply (count_none _ _ _ Hall). now intros []. }
      unfold count in *. cbn. rewrite G, C, B. auto.
  - intros root w1 w2 deployer x3 Hmat Hdep Hcall Hshape. apply HA.
    unfold attempt, deploy_mode. unfold bind at 1. rewrite Hmat.
    destruct (is_local_mode cfg); cbn [String.eqb Ascii.eqb Bool.eqb];
      unfold bind at 1; rewrite Hdep; unfold bind at 1;
      rewrite (invoker_first_failure _ _ _ _ _ _ Hcall Hshape); reflexivity.
Qed.

Lemma unclassified_failure_propagates_witness :
  let e := mkExn RuntimeError "connection refused" in
  let w := demo_world [Raise e] true ["y"] in
  let w2 := snd (docker_deployer (default_DeployConfig scripted) demo_package "/srv/app"
                   (after w [EvLoopBody])) in
  deploy_app_package 1 (Some "/srv/app") demo_package None w
    = Some (Raise e,
            advance w2 ([] : Ext scripted) ["y"] [EvDeploy 1%nat (ByPackage demo_package)]).
Proof.
  intros e w w2.
  apply (proj2 (unclassified_failure_propagates scripted 0 (Some "/srv/app") demo_package
                  None w e eq_refl)
               "/srv/app" (after w [EvLoopBody]) w2 1%nat ([] : Ext scripted));
    vm_compute; reflexivity.
Defined.

(** ** Event classes of whole calls *)

Section Emits.
Context {X : Externals}.

Lemma emits_quiet {A} (P Q : Event -> bool) (m : M X A) :
  (forall ev, P ev = true -> Q ev = true) -> quiet P m -> emits Q m.
Proof.
  intros HPQ Hm w r w' H. destruct (Hm _ _ _ H) as [_ [_ [_ [evs [Ht Hall]]]]].
  exists evs. split; [exact Ht | exact (forallb_weaken _ _ _ HPQ Hall)].
Qed.

Lemma emits_bind {A B} P (m : M X A) (k : A -> M X B) :
  emits P m -> (forall a, emits P (k a)) -> emits P (bind m k).
Proof.
  intros Hm Hk w r w' H. unfold bind in H.
  destruct (m w) as [[a|e] w1] eqn:E.
  - destruct (Hm _ _ _ E) as [evs [Ht Hall]].
    destruct (Hk a _ _ _ H) as [evs' [Ht' Hall']].
    exists (evs ++ evs')%list. rewrite Ht', Ht, <- app_assoc, forallb_app, Hall, Hall'.
    auto.
  - injection H as <- <-. exact (Hm _ _ _ E).
Qed.

Lemma emits_try {A} P (m : M X A) (h : exn -> M X A) :
  emits P m -> (forall e, emits P (h e)) -> emits P (try_except m h).
Proof.
  intros Hm Hh w r w' H. unfold try_except in H.
  destruct (m w) as [[a|e] w1] eqn:E.
  - injection H as <- <-. exact (Hm _ _ _ E).
  - destruct (Hm _ _ _ E) as [evs [Ht Hall]].
    destruct (Hh e _ _ _ H) as [evs' [Ht' Hall']].
    exists (evs ++ evs')%list. rewrite Ht', Ht, <- app_assoc, forallb_app, Hall, Hall'.
    auto.
Qed.

Lemma emits_gate (P : Event -> bool) message until :
  P EvIsatty = true -> (forall ev, gate_event ev = true -> P ev = true) ->
  emits P (_confirm_cluster_removal (X:=X) message until).
Proof.
  intros H0 HP w r w' H. destruct (gate_frame _ _ _ _ _ H) as [_ [_ [_ [evs [Ht Hall]]]]].
  exists (EvIsatty :: evs). split; [exact Ht|].
  cbn [forallb]. now rewrite H0, (forallb_weaken _ _ _ HP Hall).
Qed.

(** The handler never constructs a client. *)
Lemma emits_handler app_dir pkg attempted e :
  emits not_construct (handler (X:=X) app_dir pkg attempted e).
Proof.
  unfold handler.
  destruct (_looks_like_cluster_removal_error (exn_msg e) && negb attempted).
  - apply emits_bind.
    { apply emits_quiet with (P := not_construct); [auto | apply quiet_today]. }
    intros t. apply emits_bind.
    { apply emits_gate; [reflexivity | now intros []]. }
    intros ok. destruct ok; cbn [negb].
    + apply emits_bind.
      { apply emits_quiet with (P := materialize_event);
          [now intros [] | apply quiet_materialize]. }
      intros target. apply emits_bind.
      { apply emits_quiet with (P := is_file_write); [now intros [] | apply quiet_write]. }
      intros _. apply emits_quiet with (P := not_construct); [auto | apply quiet_ret].
    + apply emits_quiet with (P := not_construct); [auto|]. repeat quiet_step.
  - apply emits_quiet with (P := not_construct); [auto | apply quiet_raise].
Qed.

(** In cloud mode without a tenant the attempt is the materialization of
    the package followed by the error. *)
Lemma attempt_without_tenant app_dir pkg cfg (w : World X) :
  opt_truthy (get_cloud_tenant cfg) = false ->
  attempt "cloud" app_dir pkg cfg w =
    match materialize app_dir pkg w with
    | (Ok _, w1) => (Raise missing_tenant, w1)
    | (Raise e, w1) => (Raise e, w1)
    end.
Proof.
  intros Hten. unfold attempt. unfold bind at 1.
  destruct (materialize app_dir pkg w) as [[root|e] w1]; [|reflexivity].
  cbn [String.eqb Ascii.eqb Bool.eqb]. unfold bind at 1.
  unfold cloud_deployer, opt_truthy in *.
  destruct (get_cloud_tenant cfg) as [t|]; [rewrite Hten|]; reflexivity.
Qed.

Lemma emits_attempt_without_tenant app_dir pkg cfg :
  opt_truthy (get_cloud_tenant cfg) = false ->
  emits not_construct (attempt (X:=X) "cloud" app_dir pkg cfg).
Proof.
  intros Hten w r w' H. rewrite (attempt_without_tenant _ _ _ _ Hten) in H.
  destruct (materialize app_dir pkg w) as [[root|e] w1] eqn:E;
    injection H as <- <-;
    destruct (quiet_materialize _ _ _ _ _ E) as [_ [_ [_ [evs [Ht Hall]]]]];
    exists evs; (split; [exact Ht|]);
    apply (forallb_weaken materialize_event); auto; now intros [].
Qed.

(** So no pass of the loop, and no run of it, constructs one. *)
Lemma emits_loop_body_without_tenant app_dir pkg cfg attempted :
  opt_truthy (get_cloud_tenant cfg) = false ->
  emits not_construct (loop_body (X:=X) "cloud" app_dir pkg cfg attempted).
Proof.
  intros Hten. unfold loop_body. apply emits_bind.
  { apply emits_quiet with (P := not_construct); [auto|]. apply quiet_emit. reflexivity. }
  intros _. apply emits_try; [|intros e; apply emits_handler].
  apply emits_bind; [now apply emits_attempt_without_tenant|].
  intros b. apply emits_quiet with (P := not_construct); [auto | apply quiet_ret].
Qed.

Lemma retry_loop_without_tenant (fuel : nat) :
  forall app_dir pkg cfg attempted (w : World X) r w',
    opt_truthy (get_cloud_tenant cfg) = false ->
    retry_loop fuel "cloud" app_dir pkg cfg attempted w = Some (r, w') ->
    exists evs, w_trace w' = (w_trace w ++ evs)%list /\ forallb not_construct evs = true.
Proof.
  induction fuel as [|fuel IH]; intros app_dir pkg cfg attempted w r w' Hten H;
    [discriminate|].
  cbn [retry_loop] in H.
  destruct (loop_body "cloud" app_dir pkg cfg attempted w) as [r1 w1] eqn:E.
  destruct (emits_loop_body_without_tenant _ _ _ _ Hten _ _ _ E) as [evs [Ht Hall]].
  destruct (released_events not_construct w1 ltac:(reflexivity)) as [rel [Hr Hrel]].
  destruct r1 as [[b|target]|e].
  - injection H as <- <-. exists (evs ++ rel)%list.
    rewrite Hr, Ht, <- app_assoc, forallb_app, Hall, Hrel. auto.
  - destruct (IH _ _ _ _ _ _ _ Hten H) as [evs' [Ht' Hall']].
    exists (evs ++ rel ++ evs')%list.
    rewrite Ht', Hr, Ht, <- !app_assoc, !forallb_app, Hall, Hrel, Hall'. auto.
  - injection H as <- <-. eauto.
Qed.

End Emits.

(** ** C9: cloud mode without a tenant *)

(** C9. In cloud mode with no tenant in the configuration (absent or
    empty) no call ever constructs a client, whatever happens. Once the
    application root is there (the caller's directory, or the package
    written to a temporary one), the call raises
    [RuntimeError("Missing env var: VESPA_CLOUD_TENANT")] in its first
    pass, before any client is made or the gate entered: the error is
    neither retried nor turned into [False]. *)
Theorem missing_tenant_is_fatal :
  forall (X : Externals) (app_dir : option string)
         (pkg : ApplicationPackage) (deploy_config : option DeployConfig)
         (w : World X),
    let cfg := config_or_default X deploy_config in
    is_local_mode cfg = false ->
    opt_truthy (get_cloud_tenant cfg) = false ->
    (forall (fuel : nat) (r : Res bool) (w' : World X),
       deploy_app_package fuel app_dir pkg deploy_config w = Some (r, w') ->
       exists evs, w_trace w' = (w_trace w ++ evs)%list /\
                   count is_construct evs = 0%nat)
    /\
    (forall (fuel : nat) (root : string) (w1 : World X),
       materialize app_dir pkg (after w [EvLoopBody]) = (Ok root, w1) ->
       deploy_app_package (S fuel) app_dir pkg deploy_config w
         = Some (Raise missing_tenant, w1) /\
       (forall d, app_dir = Some d -> w1 = after w [EvLoopBody]) /\
       exists evs, w_trace w1 = (w_trace w ++ evs)%list /\
                   count is_construct evs = 0%nat /\ count is_deploy evs = 0%nat /\
                   count is_gate_entry evs = 0%nat /\ count is_loop_body evs = 1%nat).
Proof.
  intros X app_dir pkg deploy_config w cfg Hmode Hten. split.
  - intros fuel r w' H. unfold deploy_app_package in H. fold cfg in H.
    unfold deploy_mode in H. rewrite Hmode in H.
    destruct (retry_loop_without_tenant _ _ _ _ _ _ _ _ Hten H) as [evs [Ht Hall]].
    exists evs. split; [exact Ht|].
    apply (count_none _ _ _ Hall). intros ev. unfold not_construct.
    now rewrite negb_true_iff.
  - intros fuel root w1 Hmat.
    assert (Hatt : attempt (deploy_mode cfg) app_dir pkg cfg (after w [EvLoopBody])
                   = (Raise missing_tenant, w1)).
    { unfold deploy_mode. rewrite Hmode.
      now rewrite (attempt_without_tenant _ _ _ _ Hten), Hmat. }
    split; [|split].
    + unfold deploy_app_package. fold cfg. cbn [retry_loop].
      rewrite loop_body_unfold, Hatt.
      rewrite (handler_unclassified app_dir pkg false missing_tenant w1 eq_refl).
      reflexivity.
    + intros d ->. unfold materialize, ret in Hmat. now injection Hmat as _ <-.
    + destruct (quiet_materialize _ _ _ _ _ Hmat) as [_ [_ [_ [evs [Ht Hall]]]]].
      exists (EvLoopBody :: evs). split.
      * rewrite Ht. cbn. now rewrite <- app_assoc.
      * assert (C : count is_construct evs = 0%nat).
        { apply (count_none _ _ _ Hall). now intros []. }
        assert (D : count is_deploy evs = 0%nat).
        { apply (count_none _ _ _ Hall). now intros []. }
        assert (G : count is_gate_entry evs = 0%nat).
        { apply (count_none _ _ _ Hall). now intros []. }
        assert (B : count is_loop_body evs = 0%nat).
        { apply (count_none _ _ _ Hall). now intros []. }
        unfold count in *. cbn. rewrite C, D, G, B. auto.
Qed.

Lemma missing_tenant_is_fatal_witness :
  let cfg := mkConfig false "http://localhost:19071" (Some "") None "default" None None in
  let w := demo_world [Ok demo_app] true ["y"] in
  deploy_app_package 1 None demo_package (Some cfg) w
    = Some (Raise missing_tenant,
            holding (after w [EvLoopBody; EvTemporaryDirectory;
                              EvToFiles "/tmp/tmpa1b2c3"])
                    "/tmp/tmpa1b2c3").
Proof.
  intros cfg w.
  exact (proj1 (proj2 (missing_tenant_is_fatal scripted None demo_package (Some cfg) w
                         eq_refl eq_refl)
                      0 "/tmp/tmpa1b2c3"
                      (holding (after w [EvLoopBody; EvTemporaryDirectory;
                                         EvToFiles "/tmp/tmpa1b2c3"])
                               "/tmp/tmpa1b2c3")
                      eq_refl)).
Defined.


(** ** Dates: seven days on, in ISO-8601 form *)

Section Dates.
Local Open Scope Z_scope.

Lemma days_in_month_range y m : 28 <= days_in_month y m <= 31.
Proof.
  unfold days_in_month.
  destruct (m =? 2); [destruct (is_leap y); lia|].
  destruct ((m =? 4) || (m =? 6) || (m =? 9) || (m =? 11))%bool; lia.
Qed.

Lemma next_day_within i d : 0 <= i < 30 -> within i d -> within (i + 1) (next_day d).
Proof.
  intros Hi [[Hy [Hm Hd]] Hw]. unfold next_day.
  pose proof (days_in_month_range (year d) (month d)) as Hr.
  assert (Hjan0 : month d = 1 -> days_in_month (year d) (month d) = 31).
  { intros E. rewrite E. reflexivity. }
  destruct (day d <? days_in_month (year d) (month d)) eqn:E1.
  - apply Z.ltb_lt in E1. unfold within, valid. cbn [year month day]. lia.
  - apply Z.ltb_ge in E1. destruct (month d <? 12) eqn:E2.
    + apply Z.ltb_lt in E2. unfold within, valid. cbn [year month day].
      pose proof (days_in_month_range (year d) (month d + 1)). lia.
    + apply Z.ltb_ge in E2. unfold within, valid. cbn [year month day].
      assert (Hjan : days_in_month (year d + 1) 1 = 31) by reflexivity.
      rewrite Hjan. lia.
Qed.

Lemma add_days_within (n : nat) d :
  Z.of_nat n <= 30 -> valid d -> year d < 9999 -> within (Z.of_nat n) (add_days d n).
Proof.
  intros Hn Hv Hy. induction n as [|n IH].
  - cbn. split; auto.
  - unfold add_days in *. cbn [Nat.iter].
    replace (Z.of_nat (S n)) with (Z.of_nat n + 1) by lia.
    apply next_day_within; [lia | apply IH; lia].
Qed.

Lemma add_days_valid (n : nat) d :
  Z.of_nat n <= 30 -> valid d -> year d < 9999 -> valid (add_days d n).
Proof. intros Hn Hv Hy. exact (proj1 (add_days_within n d Hn Hv Hy)). Qed.

Lemma digit_code n : nat_of_ascii (digit n) = (48 + Z.to_nat (n mod 10))%nat.
Proof.
  unfold digit. apply nat_ascii_embedding.
  pose proof (Z.mod_pos_bound n 10 ltac:(lia)). lia.
Qed.

Lemma digit_value_digit n : digit_value (digit n) = n mod 10.
Proof.
  unfold digit_value. rewrite digit_code.
  pose proof (Z.mod_pos_bound n 10 ltac:(lia)). lia.
Qed.

Lemma is_digit_digit n : is_digit (digit n) = true.
Proof.
  unfold is_digit. rewrite digit_code.
  pose proof (Z.mod_pos_bound n 10 ltac:(lia)).
  apply andb_true_iff. split; apply Nat.leb_le; lia.
Qed.

(** [isoformat] of a valid date is ten characters [YYYY-MM-DD] that read
    back as the date. *)
Lemma parse_isoformat d : valid d -> parse_iso (isoformat d) = Some d.
Proof.
  intros [Hy [Hm Hd]]. pose proof (days_in_month_range (year d) (month d)).
  destruct d as [y m dd]. cbn [year month day] in *.
  unfold isoformat, pad4, pad2. cbn [year month day append parse_iso forallb].
  rewrite !is_digit_digit. cbn [andb Ascii.eqb Bool.eqb].
  rewrite !digit_value_digit. f_equal. f_equal; Z.div_mod_to_equations; lia.
Qed.

End Dates.


(** ** What the events of an attempt and of the gate are not *)

Lemma attempt_events_counts (evs : list Event) :
  forallb attempt_event evs = true ->
  count is_loop_body evs = 0%nat /\ count is_gate_entry evs = 0%nat /\
  count is_console evs = 0%nat /\ count is_file_write evs = 0%nat /\
  count is_override_write evs = 0%nat.
Proof.
  intros H. repeat split; apply (count_none attempt_event _ _ H);
    intros ev; destruct ev; cbn; congruence.
Qed.

Lemma gate_events_counts (evs : list Event) :
  forallb gate_event evs = true ->
  count is_loop_body evs = 0%nat /\ count is_gate_entry evs = 0%nat /\
  count is_file_write evs = 0%nat /\ count is_override_write evs = 0%nat.
Proof.
  intros H. repeat split; apply (count_none gate_event _ _ H);
    intros ev; destruct ev; cbn; congruence.
Qed.

Lemma materialize_events_counts (evs : list Event) :
  forallb materialize_event evs = true ->
  count is_loop_body evs = 0%nat /\ count is_gate_entry evs = 0%nat /\
  count is_console evs = 0%nat /\ count is_file_write evs = 0%nat /\
  count is_override_write evs = 0%nat.
Proof.
  intros H. repeat split; apply (count_none materialize_event _ _ H);
    intros ev; destruct ev; cbn; congruence.
Qed.

(** ** The binding of [tmp] *)

Section Tmp.
Context {X : Externals}.

Lemma keeps_tmp_ret {A} (a : A) : keeps_tmp (ret (X:=X) a).
Proof. intros w r w' H. unfold ret in H. now injection H as <- <-. Qed.

Lemma keeps_tmp_raise {A} e : keeps_tmp (raise (X:=X) (A:=A) e).
Proof. intros w r w' H. unfold raise in H. now injection H as <- <-. Qed.

Lemma keeps_tmp_emit ev : keeps_tmp (emit (X:=X) ev).
Proof. intros w r w' H. unfold emit in H. now injection H as <- <-. Qed.

Lemma keeps_tmp_call {A} ev (f : Ext X -> Res A * Ext X) : keeps_tmp (call ev f).
Proof.
  intros w r w' H. unfold call in H. destruct (f (w_ext w)) as [r0 x].
  now injection H as <- <-.
Qed.

Lemma keeps_tmp_hasattr c attr : keeps_tmp (hasattr (X:=X) c attr).
Proof.
  intros w r w' H. unfold hasattr in H.
  destruct (client_hasattr X c attr (w_ext w)) as [r0 x]. now injection H as <- <-.
Qed.

Lemma keeps_tmp_bind {A B} (m : M X A) (k : A -> M X B) :
  keeps_tmp m -> (forall a, keeps_tmp (k a)) -> keeps_tmp (bind m k).
Proof.
  intros Hm Hk w r w' H. unfold bind in H.
  destruct (m w) as [[a|e] w1] eqn:E.
  - rewrite (Hk a _ _ _ H). exact (Hm _ _ _ E).
  - injection H as <- <-. exact (Hm _ _ _ E).
Qed.

Lemma keeps_tmp_try {A} (m : M X A) (h : exn -> M X A) :
  keeps_tmp m -> (forall e, keeps_tmp (h e)) -> keeps_tmp (try_except m h).
Proof.
  intros Hm Hh w r w' H. unfold try_except in H.
  destruct (m w) as [[a|e] w1] eqn:E.
  - injection H as <- <-. exact (Hm _ _ _ E).
  - rewrite (Hh e _ _ _ H). exact (Hm _ _ _ E).
Qed.

Lemma keeps_tmp_for_each {A} (body : A -> M X unit) (xs : list A) :
  (forall x, keeps_tmp (body x)) -> keeps_tmp (for_each body xs).
Proof.
  intros Hb. induction xs as [|x xs IH]; cbn [for_each].
  - apply keeps_tmp_ret.
  - apply keeps_tmp_bind; [apply Hb | intros _; exact IH].
Qed.

End Tmp.

Ltac keeps_step :=
  lazymatch goal with
  | |- keeps_tmp (bind _ _) => apply keeps_tmp_bind; [| intros ?]
  | |- keeps_tmp (ret _) => apply keeps_tmp_ret
  | |- keeps_tmp (raise _) => apply keeps_tmp_raise
  | |- keeps_tmp (hasattr _ _) => apply keeps_tmp_hasattr
  | |- keeps_tmp (log _ _) => apply keeps_tmp_emit
  | |- keeps_tmp (emit _) => apply keeps_tmp_emit
  | |- keeps_tmp (call _ _) => apply keeps_tmp_call
  | |- keeps_tmp (print _) => apply keeps_tmp_call
  | |- keeps_tmp (try_except _ _) => apply keeps_tmp_try; [| intros ?]
  | |- keeps_tmp (for_each _ _) => apply keeps_tmp_for_each; intros ?
  | |- keeps_tmp (if ?b then _ else _) => destruct b
  | |- keeps_tmp (match ?o with _ => _ end) => destruct o
  end.

(** ** C3: a denied override *)

Section Orchestrator.
Context {X : Externals}.

(** What is known of the world a failed attempt leaves. *)
Lemma attempt_frame mode app_dir pkg cfg (w : World X) r w1 :
  attempt mode app_dir pkg cfg (after w [EvLoopBody]) = (r, w1) ->
  w_isatty w1 = w_isatty w /\ w_stdin w1 = w_stdin w /\ w_today w1 = w_today w /\
  exists evs, w_trace w1 = (w_trace w ++ EvLoopBody :: evs)%list /\
              forallb attempt_event evs = true.
Proof.
  intros H. destruct (quiet_attempt _ _ _ _ _ _ _ H) as [H1 [H2 [H3 [evs [Ht Hall]]]]].
  repeat split; auto. exists evs. split; [|exact Hall].
  rewrite Ht. cbn. now rewrite <- app_assoc.
Qed.

Lemma write_run target until (w : World X) x4 x5 :
  mkdir X target (w_ext w) = (Ok tt, x4) ->
  write_text X target "validation-overrides.xml" (_validation_overrides_xml until) x4
    = (Ok tt, x5) ->
  _write_validation_overrides target until w =
    (Ok tt, advance w x5 (w_stdin w)
              [EvMkdir target;
               EvWriteText target "validation-overrides.xml"
                           (_validation_overrides_xml until)]).
Proof.
  intros H4 H5. unfold _write_validation_overrides, bind, call, advance.
  rewrite H4. cbn [w_ext w_isatty w_stdin w_today w_tmp w_trace]. rewrite H5.
  cbn [w_ext w_isatty w_stdin w_today w_tmp w_trace]. now rewrite <- app_assoc.
Qed.

Lemma keeps_tmp_invoker deployer pkg root :
  keeps_tmp (_deploy_with_pyvespa (X:=X) deployer pkg root).
Proof.
  unfold _deploy_with_pyvespa, try_shape, deploy_call, set_if_present.
  repeat keeps_step.
Qed.

(** With the directory supplied, an attempt leaves [tmp] alone. *)
Lemma keeps_tmp_attempt mode d pkg cfg :
  keeps_tmp (attempt (X:=X) mode (Some d) pkg cfg).
Proof.
  unfold attempt, materialize. cbn iota beta.
  unfold docker_deployer, cloud_deployer, _set_vespa_endpoint_env_from_app.
  repeat first [apply keeps_tmp_invoker | keeps_step].
Qed.

Lemma keeps_tmp_write target until :
  keeps_tmp (_write_validation_overrides (X:=X) target until).
Proof. unfold _write_validation_overrides. repeat keeps_step. Qed.

(** A temporary directory just made is the one [tmp] holds. *)
Lemma materialize_fresh pkg (w : World X) target w3 :
  materialize None pkg w = (Ok target, w3) -> w_tmp w3 = Some target.
Proof.
  unfold materialize, bind, call, bind_tmp, ret. intros H.
  destruct (TemporaryDirectory X (w_ext w)) as [[d|e] x]; [|discriminate].
  cbn [w_ext w_isatty w_stdin w_today w_tmp w_trace] in H.
  destruct (to_files X pkg d _) as [[[]|e] x']; [|discriminate].
  now injection H as <- <-.
Qed.

(** Letting go of [tmp] adds no counted event, no write and no entry. *)
Lemma released_counts (w : World X) :
  exists rel, w_trace (released w) = (w_trace w ++ rel)%list /\
              (rel = [] \/ exists dir, w_tmp w = Some dir /\ rel = [EvCleanup dir]) /\
              count is_loop_body rel = 0%nat /\ count is_gate_entry rel = 0%nat /\
              count is_override_write rel = 0%nat /\ count is_file_write rel = 0%nat /\
              count is_console rel = 0%nat /\ count is_tempdir rel = 0%nat.
Proof.
  destruct (released_frame w) as [_ [_ [_ [_ [evs [Ht Hev]]]]]].
  exists evs. split; [exact Ht|]. split; [exact Hev|].
  destruct Hev as [->|[dir [_ ->]]]; repeat split.
Qed.

End Orchestrator.

(** C3. When the first attempt fails with an error classified as cluster
    removal and the gate denies, that is, answers [False] (as it does when
    [sys.stdin.isatty()] is false, and on a terminal when the line read is
    not an affirmative answer), the call returns [False] without raising,
    in one pass. After the failed attempt it only asks the gate, logs that
    the deploy is skipped and, on returning, lets go of the temporary
    directory if it made one: no directory is made and no file written,
    an override file least of all. *)
Theorem denied_override_returns_false :
  forall (X : Externals) (fuel : nat) (app_dir : option string)
         (pkg : ApplicationPackage) (deploy_config : option DeployConfig)
         (w w1 w2 : World X) (e : exn),
    let cfg := config_or_default X deploy_config in
    attempt (deploy_mode cfg) app_dir pkg cfg (after w [EvLoopBody]) = (Raise e, w1) ->
    _looks_like_cluster_removal_error (exn_msg e) = true ->
    _confirm_cluster_removal (exn_msg e) (add_days (w_today w) 7) w1 = (Ok false, w2) ->
    exists w',
      deploy_app_package (S fuel) app_dir pkg deploy_config w = Some (Ok false, w') /\
      w' = released (after w2 [EvLog Warning skip_warning]) /\
      (exists tail rel,
         w_trace w' = (w_trace w1 ++ EvIsatty :: tail ++ rel)%list /\
         forallb gate_event tail = true /\
         (rel = [] \/ exists dir, rel = [EvCleanup dir])) /\
      exists evs, w_trace w' = (w_trace w ++ evs)%list /\
                  count is_override_write evs = 0%nat /\
                  count is_file_write evs = 0%nat /\
                  count is_loop_body evs = 1%nat /\
                  count is_gate_entry evs = 1%nat.
Proof.
  intros X fuel app_dir pkg deploy_config w w1 w2 e cfg Hrun Hcls Hgate.
  destruct (attempt_frame _ _ _ _ _ _ _ Hrun) as [_ [_ [Htoday [evs1 [Ht1 Hall1]]]]].
  rewrite <- Htoday in Hgate.
  destruct (gate_frame _ _ _ _ _ Hgate) as [_ [_ [_ [evs2 [Ht2 Hall2]]]]].
  destruct (released_counts (after w2 [EvLog Warning skip_warning]))
    as [rel [Hr [Hrel [R1 [R2 [R3 [R4 _]]]]]]].
  exists (released (after w2 [EvLog Warning skip_warning])).
  split; [|split; [reflexivity|split]].
  - unfold deploy_app_package. fold cfg. cbn [retry_loop].
    rewrite loop_body_unfold, Hrun, (handler_classified _ _ _ _ Hcls).
    cbn zeta. rewrite Hgate. reflexivity.
  - exists (evs2 ++ [EvLog Warning skip_warning])%list, rel. split; [|split].
    + rewrite Hr. cbn [after advance w_trace]. rewrite Ht2, <- !app_assoc. reflexivity.
    + rewrite forallb_app, Hall2. reflexivity.
    + destruct Hrel as [->|[dir [_ ->]]]; [now left | right; now exists dir].
  - exists ([EvLoopBody] ++ evs1 ++ [EvIsatty] ++ evs2
            ++ [EvLog Warning skip_warning] ++ rel)%list.
    split.
    + rewrite Hr. cbn [after advance w_trace]. rewrite Ht2, Ht1, <- !app_assoc.
      reflexivity.
    + destruct (attempt_events_counts evs1 Hall1) as [A1 [A2 [_ [A4 A5]]]].
      destruct (gate_events_counts evs2 Hall2) as [B1 [B2 [B4 B5]]].
      rewrite !count_app, R1, R2, R3, R4, A1, A2, A4, A5, B1, B2, B4, B5.
      repeat split.
Qed.

Lemma denied_override_returns_false_witness :
  let w := demo_world [Raise demo_removal] false [] in
  exists w',
    deploy_app_package 1 None demo_package None w = Some (Ok false, w') /\
    w_trace w' =
      [EvLoopBody; EvTemporaryDirectory; EvToFiles "/tmp/tmpa1b2c3";
       EvResolveDockerClass;
       EvLog Info "Deploying with VespaDocker (image=vespaengine/vespa)";
       EvConstruct "VespaDocker"
         [("image", VStr "vespaengine/vespa");
          ("cfgsrv_url", VStr "http://localhost:19071")];
       EvDeploy 1%nat (ByPackage demo_package);
       EvIsatty; EvLog Warning gate_warning; EvLog Warning skip_warning;
       EvCleanup "/tmp/tmpa1b2c3"].
Proof.
  intros w.
  pose (cfg := default_DeployConfig scripted).
  pose (w1 := snd (attempt "docker" None demo_package cfg (after w [EvLoopBody]))).
  pose (w2 := snd (_confirm_cluster_removal (exn_msg demo_removal)
                     (add_days (w_today w) 7) w1)).
  destruct (denied_override_returns_false scripted 0 None demo_package None w w1 w2
              demo_removal ltac:(vm_compute; reflexivity) eq_refl
              ltac:(vm_compute; reflexivity))
    as [w' [H [Hw' _]]].
  exists w'. split; [exact H|]. rewrite Hw'. vm_compute. reflexivity.
Defined.

(** ** C4: a confirmed override *)

(** C4. When the first attempt fails with an error classified as cluster
    removal, the gate confirms, and the target directory is there (the
    caller's, or the package written to a fresh temporary one) and can be
    written, then [validation-overrides.xml] is written into that
    directory with the [<allow>] grant for content-cluster-removal until
    today plus seven days in ISO-8601 form inside [<validation-overrides>];
    the attempt is run once more, with that directory as its root, and its
    outcome is the outcome of the call: [True] when it succeeds, its own
    error when it fails. With a directory of the caller the retry finds
    the override where it was written. With no directory of the caller the
    override is in the temporary directory that [tmp] holds, and the
    second pass lets go of it before it resolves the root: the directory
    and the override in it are removed, and the retry runs on the path of
    a directory that is no longer there. *)
Theorem confirmed_override_retries_once :
  forall (X : Externals) (fuel : nat) (app_dir : option string)
         (pkg : ApplicationPackage) (deploy_config : option DeployConfig)
         (w w1 w2 w3 : World X) (e : exn) (target : string) (x4 x5 : Ext X),
    let cfg := config_or_default X deploy_config in
    let mode := deploy_mode cfg in
    let until := add_days (w_today w) 7 in
    let content := _validation_overrides_xml until in
    attempt mode app_dir pkg cfg (after w [EvLoopBody]) = (Raise e, w1) ->
    _looks_like_cluster_removal_error (exn_msg e) = true ->
    _confirm_cluster_removal (exn_msg e) until w1 = (Ok true, w2) ->
    materialize app_dir pkg w2 = (Ok target, w3) ->
    mkdir X target (w_ext w3) = (Ok tt, x4) ->
    write_text X target "validation-overrides.xml" content x4 = (Ok tt, x5) ->
    let w4 := advance w3 x5 (w_stdin w3)
                [EvMkdir target; EvWriteText target "validation-overrides.xml" content] in
    content = "<validation-overrides>" ++ nl
              ++ "  <allow until='" ++ isoformat until
              ++ "'>content-cluster-removal</allow>" ++ nl
              ++ "</validation-overrides>" ++ nl /\
    (valid (w_today w) -> (year (w_today w) < 9999)%Z ->
     valid until /\ parse_iso (isoformat until) = Some until) /\
    (forall d, app_dir = Some d ->
               target = d /\ (w_tmp w = None -> released w4 = w4)) /\
    (app_dir = None ->
     released w4 =
       mkWorld (cleanup X target x5) (w_isatty w4) (w_stdin w4) (w_today w4) None
               (w_trace w4 ++ [EvCleanup target])%list) /\
    forall (r2 : Res bool) (w6 : World X),
      attempt mode (Some target) pkg cfg (after (released w4) [EvLoopBody]) = (r2, w6) ->
      deploy_app_package (S (S fuel)) app_dir pkg deploy_config w
        = Some (match r2 with
                | Ok _ => (Ok true, released w6)
                | Raise e2 => (Raise e2, w6)
                end) /\
      exists evs, w_trace w6 = (w_trace w ++ evs)%list /\
                  count is_loop_body evs = 2%nat /\
                  count is_gate_entry evs = 1%nat /\
                  count is_override_write evs = 1%nat.
Proof.
  intros X fuel app_dir pkg deploy_config w w1 w2 w3 e target x4 x5
         cfg mode until content Hrun Hcls Hgate Hmat Hmk Hwr w4.
  destruct (attempt_frame _ _ _ _ _ _ _ Hrun) as [_ [_ [Htoday [evs1 [Ht1 Hall1]]]]].
  destruct (gate_frame _ _ _ _ _ Hgate) as [_ [_ [Htmp2 [evs2 [Ht2 Hall2]]]]].
  destruct (quiet_materialize _ _ _ _ _ Hmat) as [_ [_ [_ [evs3 [Ht3 Hall3]]]]].
  split; [|split; [|split; [|split]]].
  - reflexivity.
  - intros Hv Hy.
    assert (Hu : valid until) by (apply add_days_valid; [cbn; lia | exact Hv | exact Hy]).
    split; [exact Hu | apply parse_isoformat, Hu].
  - intros d ->. unfold materialize, ret in Hmat. injection Hmat as <- <-.
    split; [reflexivity|]. intros Hnone. apply released_unbound.
    unfold w4. cbn [advance w_tmp]. rewrite Htmp2.
    rewrite (keeps_tmp_attempt _ _ _ _ _ _ _ Hrun). exact Hnone.
  - intros ->. unfold released.
    assert (Htmp4 : w_tmp w4 = Some target)
      by (unfold w4; cbn [advance w_tmp]; exact (materialize_fresh _ _ _ _ Hmat)).
    rewrite Htmp4. reflexivity.
  - intros r2 w6 Hretry.
    destruct (attempt_frame _ _ _ _ _ _ _ Hretry) as [_ [_ [_ [evs6 [Ht6 Hall6]]]]].
    destruct (released_counts w4) as [rel [Hr [_ [R1 [R2 [R3 _]]]]]].
    split.
    + unfold deploy_app_package. fold cfg. fold mode. cbn [retry_loop].
      rewrite loop_body_unfold, Hrun, (handler_classified _ _ _ _ Hcls).
      cbn zeta. rewrite Htoday. fold until. rewrite Hgate, Hmat.
      rewrite (write_run _ _ _ _ _ Hmk Hwr). fold content. fold w4.
      cbn [retry_loop]. rewrite loop_body_after_override, Hretry.
      destruct r2 as [b|e2]; [|reflexivity].
      rewrite (attempt_yields_true _ _ _ _ _ _ _ Hretry). reflexivity.
    + exists ([EvLoopBody] ++ evs1 ++ [EvIsatty] ++ evs2 ++ evs3
              ++ [EvMkdir target; EvWriteText target "validation-overrides.xml" content]
              ++ rel ++ [EvLoopBody] ++ evs6)%list.
      split.
      * rewrite Ht6, Hr. unfold w4. cbn [advance w_trace]. rewrite Ht3, Ht2, Ht1.
        rewrite <- !app_assoc. reflexivity.
      * destruct (attempt_events_counts evs1 Hall1) as [A1 [A2 [_ [_ A5]]]].
        destruct (gate_events_counts evs2 Hall2) as [B1 [B2 [_ B5]]].
        destruct (materialize_events_counts evs3 Hall3) as [C1 [C2 [_ [_ C5]]]].
        destruct (attempt_events_counts evs6 Hall6) as [D1 [D2 [_ [_ D5]]]].
        rewrite !count_app, R1, R2, R3, A1, A2, A5, B1, B2, B5, C1, C2, C5, D1, D2, D5.
        repeat split.
Qed.

Lemma confirmed_override_retries_once_witness :
  let xml := "<validation-overrides>" ++ nl
             ++ "  <allow until='2024-03-03'>content-cluster-removal</allow>" ++ nl
             ++ "</validation-overrides>" ++ nl in
  exists (w4 w' : World disk),
    deploy_app_package 2 None demo_package None disk_world = Some (Ok true, w') /\
    In ("/tmp/tmp1", "validation-overrides.xml", xml) (disk_files (w_ext w4 : Disk)) /\
    disk_files (w_ext (released w4) : Disk) = [] /\
    skipn 11 (w_trace w') =
      [EvTemporaryDirectory; EvCleanup "/tmp/tmp0"; EvToFiles "/tmp/tmp1";
       EvMkdir "/tmp/tmp1";
       EvWriteText "/tmp/tmp1" "validation-overrides.xml" xml;
       EvCleanup "/tmp/tmp1";
       EvLoopBody; EvResolveDockerClass;
       EvLog Info "Deploying with VespaDocker (image=vespaengine/vespa)";
       EvConstruct "VespaDocker"
         [("image", VStr "vespaengine/vespa");
          ("cfgsrv_url", VStr "http://localhost:19071")];
       EvDeploy 1%nat (ByPackage demo_package);
       EvLog Debug "Vespa endpoint: http://localhost:8080";
       EvLog Success "VespaDocker deploy succeeded"].
Proof.
  intros xml.
  pose (w := disk_world).
  pose (cfg := default_DeployConfig disk).
  pose (until := add_days (w_today w) 7).
  pose (w1 := snd (attempt "docker" None demo_package cfg (after w [EvLoopBody]))).
  pose (w2 := snd (_confirm_cluster_removal (exn_msg demo_removal) until w1)).
  pose (w3 := snd (materialize None demo_package w2)).
  pose (x5 := snd (write_text disk "/tmp/tmp1" "validation-overrides.xml"
                     (_validation_overrides_xml until) (w_ext w3))).
  pose (w4 := advance w3 x5 (w_stdin w3)
                [EvMkdir "/tmp/tmp1";
                 EvWriteText "/tmp/tmp1" "validation-overrides.xml"
                             (_validation_overrides_xml until)]).
  pose (w6 := snd (attempt "docker" (Some "/tmp/tmp1") demo_package cfg
                     (after (released w4) [EvLoopBody]))).
  destruct (confirmed_override_retries_once disk 0 None demo_package None
              w w1 w2 w3 demo_removal "/tmp/tmp1" (w_ext w3) x5)
    as [_ [_ [_ [_ H]]]]; try (vm_compute; reflexivity).
  destruct (H (Ok true) w6) as [Hrun _]; [vm_compute; reflexivity|].
  exists w4, (released w6). split; [exact Hrun|].
  split; [vm_compute; tauto|]. split; vm_compute; reflexivity.
Defined.


(** ** C10: chunks *)

Lemma fold_rev_acc (cur : list ascii) (acc : string) :
  fold_left (fun a c => String c a) cur acc
  = fold_left (fun a c => String c a) cur "" ++ acc.
Proof.
  revert acc. induction cur as [|c cur IH]; intros acc; cbn [fold_left]; [reflexivity|].
  rewrite (IH (String c acc)), (IH (String c "")), append_assoc. reflexivity.
Qed.

Lemma rev_string_cons (c : ascii) (cur : list ascii) :
  PyStr.rev_string (c :: cur) = PyStr.rev_string cur ++ String c "".
Proof. unfold PyStr.rev_string. cbn [fold_left]. apply fold_rev_acc. Qed.

Lemma rev_string_rev_onto (w : string) (cur : list ascii) :
  PyStr.rev_string (rev_onto w cur) = PyStr.rev_string cur ++ w.
Proof.
  revert cur. induction w as [|c t IH]; intros cur; cbn [rev_onto].
  - now rewrite append_nil_r.
  - rewrite IH, rev_string_cons, append_assoc. reflexivity.
Qed.

Lemma rev_onto_nonempty (w : string) (cur : list ascii) :
  cur <> [] -> rev_onto w cur <> [].
Proof.
  revert cur. induction w as [|c t IH]; intros cur H; cbn [rev_onto]; [exact H|].
  apply IH. discriminate.
Qed.

Lemma no_space_app (a b : string) : no_space (a ++ b) = no_space a && no_space b.
Proof.
  induction a as [|c a IH]; cbn [append no_space]; [reflexivity|].
  now rewrite IH, andb_assoc.
Qed.

Lemma truthy_snoc (a : string) (c : ascii) : PyStr.truthy (a ++ String c "") = true.
Proof. destruct a; reflexivity. Qed.

Lemma no_space_rev_string (cur : list ascii) :
  clean cur = true -> no_space (PyStr.rev_string cur) = true.
Proof.
  induction cur as [|c cur IH]; intros H; [reflexivity|].
  cbn [clean forallb] in H. apply andb_true_iff in H as [Hc H].
  rewrite rev_string_cons, no_space_app, (IH H). cbn [no_space andb].
  now rewrite Hc.
Qed.

Lemma rev_string_word (c : ascii) (cur : list ascii) :
  clean (c :: cur) = true -> is_word (PyStr.rev_string (c :: cur)) = true.
Proof.
  intros H. unfold is_word. rewrite (no_space_rev_string _ H).
  now rewrite rev_string_cons, truthy_snoc.
Qed.

(** [split] yields words. *)
Lemma split_aux_words (s : string) (cur : list ascii) :
  clean cur = true -> Forall (fun w => is_word w = true) (PyStr.split_aux s cur).
Proof.
  revert cur. induction s as [|c t IH]; intros cur H; cbn [PyStr.split_aux].
  - destruct cur as [|d cur]; cbn [PyStr.flush]; constructor;
      [now apply rev_string_word | constructor].
  - destruct (PyStr.is_space c) eqn:E.
    + destruct cur as [|d cur]; cbn [PyStr.flush]; [now apply IH|].
      constructor; [now apply rev_string_word | now apply IH].
    + apply IH. cbn [clean forallb]. fold (clean cur). now rewrite E, H.
Qed.

Lemma split_words (s : string) : Forall (fun w => is_word w = true) (PyStr.split s).
Proof. apply split_aux_words. reflexivity. Qed.

Lemma split_aux_word_prefix (w s : string) (cur : list ascii) :
  no_space w = true ->
  PyStr.split_aux (w ++ s) cur = PyStr.split_aux s (rev_onto w cur).
Proof.
  revert cur. induction w as [|c t IH]; intros cur H; [reflexivity|].
  cbn [no_space] in H. apply andb_true_iff in H as [Hc Ht].
  apply negb_true_iff in Hc.
  cbn [append PyStr.split_aux rev_onto]. rewrite Hc. now apply IH.
Qed.

Lemma flush_word (w : string) (ws : list string) :
  PyStr.truthy w = true -> PyStr.flush (rev_onto w []) ws = w :: ws.
Proof.
  intros H. destruct w as [|c t]; [discriminate|].
  unfold PyStr.flush.
  destruct (rev_onto (String c t) []) as [|d r] eqn:E.
  - exfalso. cbn [rev_onto] in E. revert E. apply rev_onto_nonempty. discriminate.
  - rewrite <- E, rev_string_rev_onto. reflexivity.
Qed.

(** Splitting the join of words gives the words back. *)
Lemma split_join (ws : list string) :
  Forall (fun w => is_word w = true) ws -> PyStr.split (PyStr.join " " ws) = ws.
Proof.
  induction 1 as [|w ws Hw Hws IH]; [reflexivity|].
  unfold is_word in Hw. apply andb_true_iff in Hw as [Hne Hns].
  unfold PyStr.split in *. destruct ws as [|w2 rest].
  - cbn [PyStr.join]. rewrite <- (append_nil_r w) at 1.
    rewrite (split_aux_word_prefix _ _ _ Hns). cbn [PyStr.split_aux].
    now apply flush_word.
  - change (PyStr.join " " (w :: w2 :: rest))
      with (w ++ String " " (PyStr.join " " (w2 :: rest))).
    rewrite (split_aux_word_prefix _ _ _ Hns).
    change (PyStr.split_aux (String " " (PyStr.join " " (w2 :: rest))) (rev_onto w []))
      with (PyStr.flush (rev_onto w []) (PyStr.split_aux (PyStr.join " " (w2 :: rest)) [])).
    rewrite IH. now apply flush_word.
Qed.

Lemma Forall_firstn_own {A} (P : A -> Prop) (n : nat) (xs : list A) :
  Forall P xs -> Forall P (firstn n xs).
Proof.
  intros H. revert n. induction H as [|x xs Hx Hxs IH]; intros [|n]; cbn; constructor; auto.
Qed.

Lemma Forall_skipn_own {A} (P : A -> Prop) (n : nat) (xs : list A) :
  Forall P xs -> Forall P (skipn n xs).
Proof.
  intros H. revert n. induction H as [|x xs Hx Hxs IH]; intros [|n]; cbn; auto.
Qed.

Lemma Forall_slice {A} (P : A -> Prop) (xs : list A) (start stop : Z) :
  Forall P xs -> Forall P (slice xs start stop).
Proof. intros H. unfold slice. now apply Forall_firstn_own, Forall_skipn_own. Qed.

Lemma length_slice {A} (xs : list A) (start stop : Z) :
  (0 <= start <= stop)%Z -> (stop <= Z.of_nat (List.length xs))%Z ->
  Z.of_nat (List.length (slice xs start stop)) = (stop - start)%Z.
Proof. intros H1 H2. unfold slice. rewrite length_firstn, length_skipn. lia. Qed.

Section ChunksLoop.
Local Open Scope Z_scope.
Variables (words : list string) (chunk_size overlap : Z).
Let word_count := Z.of_nat (List.length words).
Let step := chunk_size - overlap.
Hypothesis step_pos : 0 < step.

(** The chunk that starts at word [start]. *)
Let window (start : Z) : string :=
  PyStr.join " " (slice words start (Z.min (start + chunk_size) word_count)).

(** With more fuel than words left, the loop ends; it appends one window
    per start [start], [start + step], ... below [word_count]. *)
Lemma chunks_loop_windows (fuel : nat) :
  forall (start : Z) (acc : list string),
    0 <= start -> Z.max 0 (word_count - start) < Z.of_nat fuel ->
    exists L : list string,
      chunks_loop fuel words chunk_size overlap start acc = Some (acc ++ L)%list /\
      (start < word_count ->
       (Z.of_nat (List.length L) - 1) * step < word_count - start
         <= Z.of_nat (List.length L) * step) /\
      (word_count <= start -> L = []) /\
      forall i : nat, (i < List.length L)%nat ->
                      nth i L "" = window (start + Z.of_nat i * step).
Proof.
  induction fuel as [|fuel IH]; intros start acc Hs Hf; [lia|].
  cbn [chunks_loop]. fold word_count.
  destruct (start <? word_count) eqn:E.
  - apply Z.ltb_lt in E.
    destruct (IH (start + (chunk_size - overlap))
                 (acc ++ [window start])%list) as [L [Hrun [Hlen [Hnil Hnth]]]].
    { fold step. lia. }
    { fold step. lia. }
    exists (window start :: L). split; [|split; [|split]].
    + unfold window in Hrun |- *. rewrite Hrun, <- app_assoc. reflexivity.
    + intros _. cbn [List.length]. fold step in Hlen, Hnil.
      destruct (Z_lt_le_dec (start + step) word_count) as [Hlt|Hge].
      * specialize (Hlen Hlt). lia.
      * rewrite (Hnil Hge). cbn [List.length]. lia.
    + intros Hge. lia.
    + intros [|i] Hi.
      * cbn [nth]. f_equal. lia.
      * cbn [nth]. cbn [List.length] in Hi. rewrite (Hnth i ltac:(lia)).
        fold step. f_equal. lia.
  - apply Z.ltb_ge in E. exists []. rewrite app_nil_r.
    split; [reflexivity|]. split; [lia|]. split; [reflexivity|].
    intros i Hi. cbn in Hi. lia.
Qed.

End ChunksLoop.


(** C10, as stated, fails: with an overlap, several trailing chunks can be
    short. Four words in windows of three with overlap two give four
    chunks, and the third, which is not the last, holds two words. *)
Lemma chunks_short_chunk_before_last :
  (0 < 3 /\ 0 <= 2 < 3)%Z /\ words_in "a b c d" = 4%Z /\
  exists chunk_list,
    chunks 5 "a b c d" 3 2 = Some (Ok chunk_list) /\
    chunk_list = ["a b c"; "b c d"; "c d"; "d"] /\
    ~ full_but_last 3 chunk_list.
Proof.
  split; [lia|]. split; [reflexivity|].
  exists ["a b c"; "b c d"; "c d"; "d"].
  split; [vm_compute; reflexivity|]. split; [reflexivity|].
  intros H. specialize (H 2%nat ltac:(cbn; lia)). vm_compute in H. discriminate H.
Qed.

(** C10, amended. [chunks] raises [ValueError] when [chunk_size] is not
    positive, [overlap] is negative or [overlap >= chunk_size]. For a
    valid pair, a text of at most [chunk_size] words comes back alone and
    unchanged (the empty string too); a longer text gives, with the loop
    left after as many passes as there are chunks, the windows that start
    every [chunk_size - overlap] words from word 0 while the start is
    below the word count: chunk [i] is the words from [i * step] up to
    [chunk_size] further or the end of the text, so it holds
    [min chunk_size (word_count - i * step)] words, every word lies in
    some chunk, and with no overlap every chunk but possibly the last is
    full. *)
Theorem chunks_sliding_windows :
  forall (text : string) (chunk_size overlap : Z) (fuel : nat),
    let words := PyStr.split text in
    let word_count := Z.of_nat (List.length words) in
    let step := (chunk_size - overlap)%Z in
    ((chunk_size <= 0 \/ overlap < 0 \/ overlap >= chunk_size)%Z ->
     exists msg,
       chunks fuel text chunk_size overlap = Some (Raise (mkExn ValueError msg)))
    /\
    ((0 < chunk_size)%Z -> (0 <= overlap < chunk_size)%Z ->
     ((word_count <= chunk_size)%Z ->
      chunks fuel text chunk_size overlap = Some (Ok [text]))
     /\
     ((chunk_size < word_count)%Z -> (word_count < Z.of_nat fuel)%Z ->
      exists chunk_list,
        chunks fuel text chunk_size overlap = Some (Ok chunk_list) /\
        ((Z.of_nat (List.length chunk_list) - 1) * step < word_count
           <= Z.of_nat (List.length chunk_list) * step)%Z /\
        (forall i : nat,
           (i < List.length chunk_list)%nat ->
           let start := (Z.of_nat i * step)%Z in
           let stop := Z.min (start + chunk_size) word_count in
           nth i chunk_list "" = PyStr.join " " (slice words start stop) /\
           PyStr.split (nth i chunk_list "") = slice words start stop /\
           words_in (nth i chunk_list "") = Z.min chunk_size (word_count - start)) /\
        (forall j : Z,
           (0 <= j < word_count)%Z ->
           exists i : nat,
             (i < List.length chunk_list)%nat /\
             (Z.of_nat i * step <= j
                < Z.min (Z.of_nat i * step + chunk_size) word_count)%Z) /\
        (overlap = 0%Z -> full_but_last chunk_size chunk_list))).
Proof.
  intros text chunk_size overlap fuel words word_count step. split.
  - intros H. unfold chunks.
    destruct (chunk_size <=? 0)%Z eqn:E1; [eauto|].
    destruct (overlap <? 0)%Z eqn:E2; [eauto|].
    destruct (overlap >=? chunk_size)%Z eqn:E3; [eauto|].
    apply Z.leb_gt in E1. apply Z.ltb_ge in E2.
    rewrite Z.geb_leb in E3. apply Z.leb_gt in E3. lia.
  - intros Hcs Hov.
    assert (E1 : (chunk_size <=? 0)%Z = false) by (apply Z.leb_gt; lia).
    assert (E2 : (overlap <? 0)%Z = false) by (apply Z.ltb_ge; lia).
    assert (E3 : (overlap >=? chunk_size)%Z = false)
      by (rewrite Z.geb_leb; apply Z.leb_gt; lia).
    assert (Hstep : (0 < step)%Z) by (unfold step; lia).
    split.
    + intros Hwc. unfold chunks. rewrite E1, E2, E3.
      fold words. fold word_count.
      now rewrite (proj2 (Z.leb_le _ _) Hwc).
    + intros Hwc Hfuel.
      destruct (chunks_loop_windows words chunk_size overlap Hstep fuel 0 [])
        as [L [Hrun [Hlen [_ Hnth]]]]; [lia | fold word_count; lia |].
      fold word_count in Hlen, Hnth. fold step in Hlen, Hnth.
      specialize (Hlen ltac:(lia)). rewrite Z.sub_0_r in Hlen.
      cbn [app] in Hrun.
      assert (Hstart : forall i : nat,
                 (i < List.length L)%nat -> (Z.of_nat i * step < word_count)%Z).
      { intros i Hi.
        assert ((Z.of_nat i * step <= (Z.of_nat (List.length L) - 1) * step)%Z)
          by (apply Z.mul_le_mono_nonneg_r; lia).
        lia. }
      assert (Hchunk : forall i : nat,
                 (i < List.length L)%nat ->
                 let start := (Z.of_nat i * step)%Z in
                 let stop := Z.min (start + chunk_size) word_count in
                 nth i L "" = PyStr.join " " (slice words start stop) /\
                 PyStr.split (nth i L "") = slice words start stop /\
                 words_in (nth i L "") = Z.min chunk_size (word_count - start)).
      { intros i Hi start stop. specialize (Hstart i Hi). fold start in Hstart.
        assert (Hn : nth i L "" = PyStr.join " " (slice words start stop)).
        { rewrite (Hnth i Hi). rewrite Z.add_0_l. reflexivity. }
        assert (Hsp : PyStr.split (nth i L "") = slice words start stop).
        { rewrite Hn. apply split_join, Forall_slice, split_words. }
        split; [exact Hn|]. split; [exact Hsp|].
        unfold words_in. rewrite Hsp, length_slice.
        - unfold stop. lia.
        - unfold stop, start. split; [apply Z.mul_nonneg_nonneg; lia | lia].
        - unfold stop. fold word_count. lia. }
      exists L. split; [|split; [|split; [|split]]].
      * unfold chunks. rewrite E1, E2, E3. fold words. fold word_count.
        rewrite (proj2 (Z.leb_gt _ _) Hwc), Hrun. reflexivity.
      * exact Hlen.
      * exact Hchunk.
      * intros j Hj. exists (Z.to_nat (j / step)).
        assert (Hq : (0 <= j / step)%Z) by (apply Z.div_pos; lia).
        rewrite Z2Nat.id by exact Hq.
        pose proof (Z.mul_div_le j step Hstep) as Hlo.
        pose proof (Z.mul_succ_div_gt j step Hstep) as Hhi.
        rewrite (Z.mul_comm step) in Hlo. rewrite (Z.mul_comm step) in Hhi.
        rewrite Z.mul_succ_l in Hhi.
        split; [|unfold step in *; lia].
        assert ((j / step < Z.of_nat (List.length L))%Z).
        { apply (Z.mul_lt_mono_pos_r step); lia. }
        lia.
      * intros Hz i Hi.
        destruct (Hchunk i ltac:(lia)) as [_ [_ Hw]]. rewrite Hw.
        assert (((Z.of_nat i + 1) * step <= (Z.of_nat (List.length L) - 1) * step)%Z)
          by (apply Z.mul_le_mono_nonneg_r; lia).
        unfold step in *. subst overlap. lia.
Qed.

Lemma chunks_sliding_windows_witness :
  exists chunk_list,
    chunks 8 "a b c d e f g" 3 1 = Some (Ok chunk_list) /\
    forall i : nat,
      (i < List.length chunk_list)%nat ->
      words_in (nth i chunk_list "") = Z.min 3 (7 - Z.of_nat i * 2).
Proof.
  destruct (proj2 (chunks_sliding_windows "a b c d e f g" 3 1 8)
              ltac:(lia) ltac:(lia)) as [_ H].
  destruct (H ltac:(vm_compute; reflexivity) ltac:(vm_compute; reflexivity))
    as [chunk_list [Hrun [_ [Hchunk _]]]].
  exists chunk_list. split; [exact Hrun|].
  intros i Hi. exact (proj2 (proj2 (Hchunk i Hi))).
Defined.


(** ** The loop does need its second pass *)

(** A confirmed override takes two passes: fuel for one is not enough. *)
Example retry_needs_second_pass :
  deploy_app_package 1 (Some "/srv/app") demo_package None
    (demo_world [Raise demo_removal; Ok demo_app] true ["y"]) = None.
Proof. vm_compute. reflexivity. Qed.

(** A refused deploy in a process without standard input: the call ends
    in the [AttributeError] of [sys.stdin.isatty()], not in [False]. *)
Example call_without_stdin_raises :
  exists w',
    deploy_app_package 1 (Some "/srv/app") demo_package None
      (demo_world_without_stdin [Raise demo_removal]) = Some (Raise stdin_missing, w').
Proof. eexists. vm_compute. reflexivity. Qed.

(** A refused deploy whose message holds a closing tag, on a terminal with
    "y" waiting: the call ends in the console's error, and "y" is still
    there to read. *)
Example call_with_tagged_message_raises :
  exists w',
    deploy_app_package (X:=strict_console) 1 (Some "/srv/app") demo_package None
      (mkWorld ([Raise demo_tagged; Ok demo_app] : Ext strict_console) (Ok true) ["y"]
               (mkDate 2024 2 25) None [])
    = Some (Raise markup_error, w') /\ w_stdin w' = ["y"].
Proof. eexists. split; vm_compute; reflexivity. Qed.

(** The override document for 28 December 2023 plus seven days. *)
Example overrides_xml_example :
  _validation_overrides_xml (add_days (mkDate 2023 12 28) 7)
  = "<validation-overrides>" ++ nl
    ++ "  <allow until='2024-01-04'>content-cluster-removal</allow>" ++ nl
    ++ "</validation-overrides>" ++ nl.
Proof. vm_compute. reflexivity. Qed.

(** The tests of [test_utils.py] on short and empty texts. *)
Example chunks_short_text : chunks 0 "short text" 10 0 = Some (Ok ["short text"]).
Proof. reflexivity. Qed.

Example chunks_empty_text : chunks 0 "" 10 0 = Some (Ok [""]).
Proof. reflexivity. Qed.

Example chunks_overlap_too_large :
  chunks 0 "word word" 10 15
  = Some (Raise (mkExn ValueError "overlap must be less than chunk_size")).
Proof. reflexivity. Qed.


(** * Further properties of deploy.py *)

(** ** The outcomes of a call *)

(** A first attempt that succeeds ends the call with [True] after one
    pass: the gate is not entered, nothing is printed or read, and no
    override is prepared (no [mkdir], no [write_text]). On returning the
    call lets go of the temporary directory it made, if it made one, so
    that [tmp] holds nothing at the end. *)
Theorem first_success_returns_true :
  forall (X : Externals) (fuel : nat) (app_dir : option string)
         (pkg : ApplicationPackage) (deploy_config : option DeployConfig)
         (w w1 : World X) (b : bool),
    let cfg := config_or_default X deploy_config in
    attempt (deploy_mode cfg) app_dir pkg cfg (after w [EvLoopBody]) = (Ok b, w1) ->
    deploy_app_package (S fuel) app_dir pkg deploy_config w
      = Some (Ok true, released w1) /\
    w_stdin (released w1) = w_stdin w /\
    w_tmp (released w1) = None /\
    exists evs rel,
      w_trace (released w1) = (w_trace w ++ evs ++ rel)%list /\
      (rel = [] \/ exists dir, w_tmp w1 = Some dir /\ rel = [EvCleanup dir]) /\
      count is_loop_body evs = 1%nat /\ count is_gate_entry evs = 0%nat /\
      count is_console evs = 0%nat /\ count is_file_write evs = 0%nat.
Proof.
  intros X fuel app_dir pkg deploy_config w w1 b cfg Hrun.
  pose proof (attempt_yields_true _ _ _ _ _ _ _ Hrun) as Hb. cbn beta in Hb. subst b.
  destruct (attempt_frame _ _ _ _ _ _ _ Hrun) as [_ [Hin [_ [evs [Ht Hall]]]]].
  destruct (released_frame w1) as [_ [Hs [_ [Htmp _]]]].
  destruct (released_counts w1) as [rel [Hr [Hrel _]]].
  split; [|split; [|split]].
  - unfold deploy_app_package. fold cfg. cbn [retry_loop].
    rewrite loop_body_unfold, Hrun. reflexivity.
  - rewrite Hs. exact Hin.
  - exact Htmp.
  - exists ([EvLoopBody] ++ evs)%list, rel. split; [|split; [exact Hrel|]].
    + rewrite Hr, Ht, <- !app_assoc. reflexivity.
    + destruct (attempt_events_counts evs Hall) as [A1 [A2 [A3 [A4 _]]]].
      rewrite !count_app, A1, A2, A3, A4. repeat split.
Qed.

Lemma first_success_returns_true_witness :
  let w := demo_world [Ok demo_app] false [] in
  exists w',
    deploy_app_package 1 None demo_package None w = Some (Ok true, w') /\
    w_tmp w' = None /\
    w_trace w' =
      [EvLoopBody; EvTemporaryDirectory; EvToFiles "/tmp/tmpa1b2c3";
       EvResolveDockerClass;
       EvLog Info "Deploying with VespaDocker (image=vespaengine/vespa)";
       EvConstruct "VespaDocker"
         [("image", VStr "vespaengine/vespa");
          ("cfgsrv_url", VStr "http://localhost:19071")];
       EvDeploy 1%nat (ByPackage demo_package);
       EvLog Debug "Vespa endpoint: http://localhost:8080";
       EvLog Success "VespaDocker deploy succeeded";
       EvCleanup "/tmp/tmpa1b2c3"].
Proof.
  intros w.
  pose (w1 := snd (attempt "docker" None demo_package (default_DeployConfig scripted)
                     (after w [EvLoopBody]))).
  destruct (first_success_returns_true scripted 0 None demo_package None w w1 true
              ltac:(vm_compute; reflexivity)) as [H [_ [Htmp _]]].
  exists (released w1). split; [exact H|]. split; [exact Htmp|].
  vm_compute. reflexivity.
Defined.

(** [False] is returned only after a denial: whenever a call returns
    [False], the last thing it did before letting go of its temporary
    directory was to log the warning that the deploy is skipped; it made
    one pass, entered the gate once, and prepared no override (no
    [mkdir], no [write_text]). *)
Theorem false_only_after_denial :
  forall (X : Externals) (fuel : nat) (app_dir : option string)
         (pkg : ApplicationPackage) (deploy_config : option DeployConfig)
         (w w' : World X),
    deploy_app_package fuel app_dir pkg deploy_config w = Some (Ok false, w') ->
    exists evs rel,
      w_trace w' = (w_trace w ++ evs ++ [EvLog Warning skip_warning] ++ rel)%list /\
      (rel = [] \/ exists dir, rel = [EvCleanup dir]) /\
      count is_loop_body evs = 1%nat /\ count is_gate_entry evs = 1%nat /\
      count is_file_write evs = 0%nat /\ count is_override_write evs = 0%nat.
Proof.
  intros X fuel app_dir pkg deploy_config w w' H.
  unfold deploy_app_package in H.
  set (cfg := config_or_default X deploy_config) in H.
  set (mode := deploy_mode cfg) in H.
  destruct fuel as [|fuel]; [discriminate|]. cbn [retry_loop] in H.
  rewrite loop_body_unfold in H.
  destruct (attempt mode app_dir pkg cfg (after w [EvLoopBody])) as [[b|e] w1] eqn:Hrun.
  { pose proof (attempt_yields_true _ _ _ _ _ _ _ Hrun) as Hb. cbn beta in Hb.
    subst b. discriminate. }
  destruct (attempt_frame _ _ _ _ _ _ _ Hrun) as [_ [_ [_ [evs1 [Ht1 Hall1]]]]].
  destruct (_looks_like_cluster_removal_error (exn_msg e)) eqn:Hcls;
    [|rewrite (handler_unclassified _ _ _ _ _ Hcls) in H; discriminate].
  rewrite (handler_classified _ _ _ _ Hcls) in H. cbn zeta in H.
  set (until := add_days (w_today w1) 7) in H.
  destruct (_confirm_cluster_removal (exn_msg e) until w1)
    as [[[|]|e'] w2] eqn:Hgate; [| |discriminate].
  - exfalso.
    destruct (materialize app_dir pkg w2) as [[target|e'] w3]; [|discriminate].
    destruct (_write_validation_overrides target until w3)
      as [[[]|e'] w4]; [|discriminate].
    destruct fuel as [|fuel]; [discriminate|]. cbn [retry_loop] in H.
    rewrite loop_body_after_override in H.
    destruct (attempt mode (Some target) pkg cfg (after (released w4) [EvLoopBody]))
      as [[b|e2] w5] eqn:Hretry; [|discriminate].
    pose proof (attempt_yields_true _ _ _ _ _ _ _ Hretry) as Hb. cbn beta in Hb.
    subst b. discriminate.
  - injection H as <-.
    destruct (gate_frame _ _ _ _ _ Hgate) as [_ [_ [_ [evs2 [Ht2 Hall2]]]]].
    destruct (released_counts (after w2 [EvLog Warning skip_warning]))
      as [rel [Hr [Hrel _]]].
    exists ([EvLoopBody] ++ evs1 ++ [EvIsatty] ++ evs2)%list, rel. split; [|split].
    + rewrite Hr. cbn [after advance w_trace]. rewrite Ht2, Ht1, <- !app_assoc.
      reflexivity.
    + destruct Hrel as [->|[dir [_ ->]]]; [now left | right; now exists dir].
    + destruct (attempt_events_counts evs1 Hall1) as [A1 [A2 [_ [A4 A5]]]].
      destruct (gate_events_counts evs2 Hall2) as [B1 [B2 [B4 B5]]].
      rewrite !count_app, A1, A2, A4, A5, B1, B2, B4, B5. repeat split.
Qed.

Lemma false_only_after_denial_witness :
  let w := demo_world [Raise demo_removal] true ["n"] in
  exists w' evs rel,
    deploy_app_package 1 None demo_package None w = Some (Ok false, w') /\
    w_trace w' = (w_trace w ++ evs ++ [EvLog Warning skip_warning] ++ rel)%list /\
    count is_gate_entry evs = 1%nat /\ count is_file_write evs = 0%nat.
Proof.
  intros w.
  pose (w' := match deploy_app_package 1 None demo_package None w with
              | Some (_, w') => w'
              | None => w
              end).
  assert (H : deploy_app_package 1 None demo_package None w = Some (Ok false, w'))
    by (vm_compute; reflexivity).
  destruct (false_only_after_denial scripted 1 None demo_package None w w' H)
    as [evs [rel [Ht [_ [_ [Hg [Hf _]]]]]]].
  exists w', evs, rel. split; [exact H|]. split; [exact Ht|]. split; [exact Hg | exact Hf].
Defined.

(** A failure while the override is being prepared is the failure of the
    call: when the gate has confirmed and then materializing the package
    into a temporary directory fails, or making the target directory or
    writing the file fails, that error is raised (not the deploy error
    that led there) and the deploy is not tried again. *)
Theorem override_preparation_failure_propagates :
  forall (X : Externals) (fuel : nat) (app_dir : option string)
         (pkg : ApplicationPackage) (deploy_config : option DeployConfig)
         (w w1 w2 : World X) (e e' : exn),
    let cfg := config_or_default X deploy_config in
    let until := add_days (w_today w) 7 in
    attempt (deploy_mode cfg) app_dir pkg cfg (after w [EvLoopBody]) = (Raise e, w1) ->
    _looks_like_cluster_removal_error (exn_msg e) = true ->
    _confirm_cluster_removal (exn_msg e) until w1 = (Ok true, w2) ->
    (forall w3 : World X,
       materialize app_dir pkg w2 = (Raise e', w3) ->
       deploy_app_package (S fuel) app_dir pkg deploy_config w = Some (Raise e', w3))
    /\
    (forall (target : string) (w3 w4 : World X),
       materialize app_dir pkg w2 = (Ok target, w3) ->
       _write_validation_overrides target until w3 = (Raise e', w4) ->
       deploy_app_package (S fuel) app_dir pkg deploy_config w = Some (Raise e', w4)).
Proof.
  intros X fuel app_dir pkg deploy_config w w1 w2 e e' cfg until Hrun Hcls Hgate.
  destruct (attempt_frame _ _ _ _ _ _ _ Hrun) as [_ [_ [Htoday _]]].
  assert (Hbody : loop_body (deploy_mode cfg) app_dir pkg cfg false w =
                  match materialize app_dir pkg w2 with
                  | (Raise e0, w3) => (Raise e0, w3)
                  | (Ok target, w3) =>
                      match _write_validation_overrides target until w3 with
                      | (Raise e0, w4) => (Raise e0, w4)
                      | (Ok _, w4) => (Ok (Continue target), w4)
                      end
                  end).
  { rewrite loop_body_unfold, Hrun, (handler_classified _ _ _ _ Hcls).
    cbn zeta. rewrite Htoday. fold until. rewrite Hgate. reflexivity. }
  split.
  - intros w3 Hmat. unfold deploy_app_package. fold cfg. cbn [retry_loop].
    rewrite Hbody, Hmat. reflexivity.
  - intros target w3 w4 Hmat Hwr. unfold deploy_app_package. fold cfg.
    cbn [retry_loop]. rewrite Hbody, Hmat, Hwr. reflexivity.
Qed.

Lemma override_preparation_failure_propagates_witness :
  let w : World readonly :=
    mkWorld ([Raise demo_removal; Ok demo_app] : Ext readonly) (Ok true) ["yes"]
            (mkDate 2024 2 25) None [] in
  exists w4,
    deploy_app_package 1 (Some "/srv/app") demo_package None w
      = Some (Raise (mkExn OSError "[Errno 13] Permission denied"), w4).
Proof.
  intros w.
  pose (cfg := default_DeployConfig readonly).
  pose (w1 := snd (attempt "docker" (Some "/srv/app") demo_package cfg
                     (after w [EvLoopBody]))).
  pose (until := add_days (w_today w) 7).
  pose (w2 := snd (_confirm_cluster_removal (exn_msg demo_removal) until w1)).
  pose (w4 := snd (_write_validation_overrides "/srv/app" until w2)).
  exists w4.
  apply (proj2 (override_preparation_failure_propagates readonly 0 (Some "/srv/app")
                  demo_package None w w1 w2 demo_removal
                  (mkExn OSError "[Errno 13] Permission denied")
                  ltac:(vm_compute; reflexivity) eq_refl
                  ltac:(vm_compute; reflexivity))
               "/srv/app" w2 w4);
    vm_compute; reflexivity.
Defined.




(** ** A directory supplied by the caller *)

Section CallerDirectory.
Context {X : Externals}.

Lemma quiet_invoker_client deployer pkg root :
  quiet client_event (_deploy_with_pyvespa (X:=X) deployer pkg root).
Proof.
  unfold _deploy_with_pyvespa, try_shape, deploy_call, set_if_present.
  repeat quiet_step.
Qed.

Lemma quiet_attempt_supplied mode d pkg cfg :
  quiet client_event (attempt (X:=X) mode (Some d) pkg cfg).
Proof.
  unfold attempt, materialize. apply quiet_bind; [apply quiet_ret|].
  intros root. unfold docker_deployer, cloud_deployer, _set_vespa_endpoint_env_from_app.
  repeat first [apply quiet_invoker_client | quiet_step].
Qed.

Lemma quiet_write_within d until :
  quiet (within_dir d) (_write_validation_overrides (X:=X) d until).
Proof.
  unfold _write_validation_overrides.
  apply quiet_bind; [|intros _]; apply quiet_call; cbn; apply String.eqb_refl.
Qed.

(** With the caller's directory the handler needs no temporary one. *)
Lemma handler_supplied d pkg attempted e :
  handler (X:=X) (Some d) pkg attempted e =
    if _looks_like_cluster_removal_error (exn_msg e) && negb attempted then
      bind today (fun t =>
        bind (_confirm_cluster_removal (exn_msg e) (add_days t 7)) (fun ok =>
          if negb ok then bind (log Warning skip_warning) (fun _ => ret (Return false))
          else bind (_write_validation_overrides d (add_days t 7))
                    (fun _ => ret (Continue d))))
    else raise e.
Proof. unfold handler, materialize. reflexivity. Qed.

Lemma emits_handler_supplied d pkg attempted e :
  emits (within_dir d) (handler (X:=X) (Some d) pkg attempted e).
Proof.
  rewrite handler_supplied.
  destruct (_looks_like_cluster_removal_error (exn_msg e) && negb attempted).
  - apply emits_bind.
    { apply emits_quiet with (P := within_dir d); [auto | apply quiet_today]. }
    intros t. apply emits_bind.
    { apply emits_gate; [reflexivity | intros ev; destruct ev; cbn; congruence]. }
    intros ok. destruct ok; cbn [negb].
    + apply emits_bind.
      { apply emits_quiet with (P := within_dir d); [auto | apply quiet_write_within]. }
      intros _. apply emits_quiet with (P := within_dir d); [auto | apply quiet_ret].
    + apply emits_quiet with (P := within_dir d); [auto|].
      apply quiet_bind; [apply quiet_emit; reflexivity | intros _; apply quiet_ret].
  - apply emits_quiet with (P := within_dir d); [auto | apply quiet_raise].
Qed.

Lemma yields_handler_supplied d pkg attempted e :
  yields (fun s => s = Return false \/ s = Continue d)
         (handler (X:=X) (Some d) pkg attempted e).
Proof.
  rewrite handler_supplied.
  destruct (_looks_like_cluster_removal_error (exn_msg e) && negb attempted);
    [|apply yields_raise].
  apply yields_bind. intros t. apply yields_bind. intros ok.
  destruct ok; cbn [negb]; apply yields_bind; intros _; apply yields_ret; auto.
Qed.

Lemma emits_loop_body_supplied mode d pkg cfg attempted :
  emits (within_dir d) (loop_body (X:=X) mode (Some d) pkg cfg attempted).
Proof.
  unfold loop_body. apply emits_bind.
  { apply emits_quiet with (P := within_dir d); [auto|]. apply quiet_emit. reflexivity. }
  intros _. apply emits_try; [|intros e; apply emits_handler_supplied].
  apply emits_bind.
  { apply emits_quiet with (P := client_event); [|apply quiet_attempt_supplied].
    intros ev; destruct ev; cbn; congruence. }
  intros b. apply emits_quiet with (P := within_dir d); [auto | apply quiet_ret].
Qed.

Lemma continue_supplied mode d pkg cfg attempted (w : World X) t w' :
  loop_body mode (Some d) pkg cfg attempted w = (Ok (Continue t), w') -> t = d.
Proof.
  rewrite loop_body_unfold.
  destruct (attempt mode (Some d) pkg cfg (after w [EvLoopBody])) as [[b|e] w1];
    [discriminate|].
  intros H. destruct (yields_handler_supplied _ _ _ _ _ _ _ H) as [E|E];
    [discriminate | now injection E].
Qed.

Lemma retry_loop_supplied (fuel : nat) :
  forall mode d pkg cfg attempted (w : World X) r w',
    retry_loop fuel mode (Some d) pkg cfg attempted w = Some (r, w') ->
    exists evs, w_trace w' = (w_trace w ++ evs)%list /\
                forallb (within_dir d) evs = true.
Proof.
  induction fuel as [|fuel IH]; intros mode d pkg cfg attempted w r w' H;
    [discriminate|].
  cbn [retry_loop] in H.
  destruct (loop_body mode (Some d) pkg cfg attempted w) as [r1 w1] eqn:E.
  destruct (emits_loop_body_supplied _ _ _ _ _ _ _ _ E) as [evs [Ht Hall]].
  destruct (released_events (within_dir d) w1 ltac:(reflexivity)) as [rel [Hr Hrel]].
  destruct r1 as [[b|target]|e].
  - injection H as <- <-. exists (evs ++ rel)%list.
    rewrite Hr, Ht, <- app_assoc, forallb_app, Hall, Hrel. auto.
  - rewrite (continue_supplied _ _ _ _ _ _ _ _ E) in H.
    destruct (IH _ _ _ _ _ _ _ _ H) as [evs' [Ht' Hall']].
    exists (evs ++ rel ++ evs')%list.
    rewrite Ht', Hr, Ht, <- !app_assoc, !forallb_app, Hall, Hrel, Hall'. auto.
  - injection H as <- <-. eauto.
Qed.

End CallerDirectory.

(** When the caller supplies the application directory, no run of the
    call makes a temporary directory or writes the package out, and every
    directory it makes and every file it writes is in the caller's
    directory. *)
Theorem supplied_directory_is_the_only_one :
  forall (X : Externals) (fuel : nat) (d : string) (pkg : ApplicationPackage)
         (deploy_config : option DeployConfig) (w : World X)
         (r : Res bool) (w' : World X),
    deploy_app_package fuel (Some d) pkg deploy_config w = Some (r, w') ->
    exists evs,
      w_trace w' = (w_trace w ++ evs)%list /\
      count is_tempdir evs = 0%nat /\
      (forall dir, In (EvMkdir dir) evs -> dir = d) /\
      (forall dir name content, In (EvWriteText dir name content) evs -> dir = d).
Proof.
  intros X fuel d pkg deploy_config w r w' H.
  destruct (retry_loop_supplied _ _ _ _ _ _ _ _ _ H) as [evs [Ht Hall]].
  exists evs. split; [exact Ht|]. split; [|split].
  - apply (count_none _ _ _ Hall). intros ev; destruct ev; cbn; congruence.
  - intros dir Hin. rewrite forallb_forall in Hall.
    specialize (Hall _ Hin). cbn in Hall. now apply String.eqb_eq.
  - intros dir name content Hin. rewrite forallb_forall in Hall.
    specialize (Hall _ Hin). cbn in Hall. now apply String.eqb_eq.
Qed.

Lemma supplied_directory_is_the_only_one_witness :
  let w := demo_world [Raise demo_removal; Ok demo_app] true ["y"] in
  exists w' evs,
    deploy_app_package 2 (Some "/srv/app") demo_package None w = Some (Ok true, w') /\
    w_trace w' = (w_trace w ++ evs)%list /\ count is_tempdir evs = 0%nat.
Proof.
  intros w.
  pose (w' := match deploy_app_package 2 (Some "/srv/app") demo_package None w with
              | Some (_, w') => w'
              | None => w
              end).
  assert (H : deploy_app_package 2 (Some "/srv/app") demo_package None w
              = Some (Ok true, w')) by (vm_compute; reflexivity).
  destruct (supplied_directory_is_the_only_one scripted 2 "/srv/app" demo_package None
              w (Ok true) w' H) as [evs [Ht [Hc _]]].
  exists w', evs. split; [exact H|]. split; [exact Ht | exact Hc].
Defined.


(** ** The arguments given to the client constructors *)

Ltac kwargs_cases :=
  repeat match goal with
         | |- context [has_param ?c ?k] =>
             let E := fresh "E" in destruct (has_param c k) eqn:E
         end.

Ltac kwargs_in :=
  let k := fresh "k" in
  let v := fresh "v" in
  let Hin := fresh "Hin" in
  intros k v Hin; cbn in Hin;
  repeat (destruct Hin as [Hin|Hin]; [injection Hin as <- <-; assumption|]);
  contradiction.

Ltac kwargs_nodup := cbn; repeat constructor; cbn; intuition discriminate.

(** The local client is constructed with arguments its constructor
    declares, each at most once, and with the image under one name only:
    [image] when declared, else [docker_image] when declared. *)
Theorem docker_kwargs_are_declared :
  forall (X : Externals) (cls : ClientClass) (cfg : DeployConfig)
         (pkg : ApplicationPackage) (dir : string),
    let kwargs := docker_init_kwargs (X:=X) cls cfg pkg dir in
    (forall k v, In (k, v) kwargs -> has_param cls k = true) /\
    NoDup (map fst kwargs) /\
    ~ (In "image" (map fst kwargs) /\ In "docker_image" (map fst kwargs)) /\
    (has_param cls "image" = true ->
     In ("image", VStr (DEFAULT_VESPA_DOCKER_IMAGE X)) kwargs) /\
    (has_param cls "image" = false -> has_param cls "docker_image" = true ->
     In ("docker_image", VStr (DEFAULT_VESPA_DOCKER_IMAGE X)) kwargs).
Proof.
  intros X cls cfg pkg dir kwargs. subst kwargs.
  unfold docker_init_kwargs, kwarg_if. kwargs_cases;
    (split; [kwargs_in|]); (split; [kwargs_nodup|]);
    (split; [cbn; intuition discriminate|]);
    (split; [intros H|intros H H']); try discriminate; cbn; auto.
Qed.


Ltac kwargs_only key :=
  let v := fresh "v" in
  let Hin := fresh "Hin" in
  intros v Hin; cbn in Hin;
  repeat (destruct Hin as [Hin|Hin];
          [try discriminate Hin; injection Hin as <-; eexists;
           (split; [reflexivity | split; [eassumption | reflexivity]])|]);
  contradiction.

(** The cloud client is constructed with arguments its constructor
    declares, each at most once; the tenant is passed whenever it is
    declared, and an API key or key path only when the configuration holds
    a non-empty one. *)
Theorem cloud_kwargs_are_declared :
  forall (cls : ClientClass) (cfg : DeployConfig) (tenant application : string)
         (pkg : ApplicationPackage) (dir : string),
    let kwargs := cloud_init_kwargs cls cfg tenant application pkg dir in
    (forall k v, In (k, v) kwargs -> has_param cls k = true) /\
    NoDup (map fst kwargs) /\
    (has_param cls "tenant" = true -> In ("tenant", VStr tenant) kwargs) /\
    (forall v, In ("api_key", v) kwargs ->
               exists key, get_cloud_api_key cfg = Some key /\
                           PyStr.truthy key = true /\ v = VStr key) /\
    (forall v, In ("api_key_path", v) kwargs ->
               exists path, get_cloud_api_key_path cfg = Some path /\
                            PyStr.truthy path = true /\ v = VStr path).
Proof.
  intros cls cfg tenant application pkg dir kwargs. subst kwargs.
  unfold cloud_init_kwargs, kwarg_if.
  destruct (get_cloud_api_key_path cfg) as [path|];
    [destruct (PyStr.truthy path) eqn:Tp|];
    (destruct (get_cloud_api_key cfg) as [key|];
     [destruct (PyStr.truthy key) eqn:Tk|]);
    kwargs_cases;
    (split; [kwargs_in|]); (split; [kwargs_nodup|]);
    (split; [intros H; try discriminate; cbn; auto|]);
    (split; [kwargs_only "api_key" | kwargs_only "api_key_path"]).
Qed.


Lemma docker_kwargs_are_declared_witness :
  In ("image", VStr "vespaengine/vespa")
     (docker_init_kwargs (X:=scripted)
        (mkClass "VespaDocker" ["port"; "image"; "cfgsrv_url"])
        (default_DeployConfig scripted) demo_package "/srv/app").
Proof.
  exact (proj1 (proj2 (proj2 (proj2
           (docker_kwargs_are_declared scripted
              (mkClass "VespaDocker" ["port"; "image"; "cfgsrv_url"])
              (default_DeployConfig scripted) demo_package "/srv/app"))))
           eq_refl).
Defined.

Lemma cloud_kwargs_are_declared_witness :
  In ("tenant", VStr "acme")
     (cloud_init_kwargs (VespaCloud scripted) (default_DeployConfig scripted)
                        "acme" "nyragdemo" demo_package "/srv/app").
Proof.
  exact (proj1 (proj2 (proj2
           (cloud_kwargs_are_declared (VespaCloud scripted)
              (default_DeployConfig scripted) "acme" "nyragdemo" demo_package
              "/srv/app")))
           eq_refl).
Defined.

(** ** The shape of every run of the invoker *)

Section InvokerRuns.
Context {X : Externals}.

(** Setting the attributes: each attribute that [hasattr] reports is set
    once, in order, and a failure to set one is passed over; the loop ends
    early only when [hasattr] itself raises, and then with its error. *)
Lemma set_attrs_run (deployer : Client) (attrs : list (string * Value)) :
  forall w : World X,
    exists (r : Res unit) (w3 : World X) (sets : list Event),
      for_each (set_if_present deployer) attrs w = (r, w3) /\
      w_trace w3 = (w_trace w ++ sets)%list /\
      w_stdin w3 = w_stdin w /\
      (List.length sets <= List.length attrs)%nat /\
      Forall (fun ev => exists attr v x x',
                  ev = EvSetattr deployer attr v /\ In (attr, v) attrs /\
                  client_hasattr X deployer attr x = (Ok true, x')) sets /\
      (r = Ok tt \/
       exists attr v x e x',
         In (attr, v) attrs /\
         client_hasattr X deployer attr x = (Raise e, x') /\ r = Raise e).
Proof.
  induction attrs as [|[attr v] rest IH]; intros w.
  - exists (Ok tt), w, []. cbn. rewrite app_nil_r. repeat split; auto.
  - cbn [for_each]. unfold bind at 1. unfold set_if_present at 1.
    unfold bind at 1, hasattr at 1.
    destruct (client_hasattr X deployer attr (w_ext w)) as [[[|]|e] x0] eqn:Has.
    + unfold try_except, call, ret.
      cbn [w_ext w_isatty w_stdin w_today w_tmp w_trace].
      destruct (client_setattr X deployer attr v x0) as [[[]|e] x] eqn:Hset;
        (match goal with
         | |- context [for_each _ rest ?w1] =>
             destruct (IH w1) as [r [w3 [sets [Hrun [Ht [Hin [Hlen [Hall Hr]]]]]]]]
         end;
         exists r, w3, (EvSetattr deployer attr v :: sets);
         rewrite Hrun; split; [destruct r; reflexivity|]; split;
         [rewrite Ht; cbn; now rewrite <- app_assoc|];
         split; [exact Hin|]; split; [cbn; lia|]; split;
         [constructor;
          [exists attr, v, (w_ext w), x0; repeat split; auto; now left
          |eapply Forall_impl; [|exact Hall]; cbn;
           intros ev [a [v0 [y [y' [H1 [H2 H3]]]]]]; exists a, v0, y, y'; auto]
         |destruct Hr as [Hr|[a [v0 [y [e0 [y' [H1 [H2 H3]]]]]]]];
          [now left | right; exists a, v0, y, e0, y'; cbn; auto]]).
    + unfold ret.
      match goal with
      | |- context [for_each _ rest ?w1] =>
          destruct (IH w1) as [r [w3 [sets [Hrun [Ht [Hin [Hlen [Hall Hr]]]]]]]]
      end.
      exists r, w3, sets. rewrite Hrun.
      split; [destruct r; reflexivity|]. split; [rewrite Ht; cbn; reflexivity|].
      split; [exact Hin|]. split; [cbn; lia|]. split.
      * eapply Forall_impl; [|exact Hall]. cbn.
        intros ev [a [v0 [y [y' [H1 [H2 H3]]]]]]. exists a, v0, y, y'. auto.
      * destruct Hr as [Hr|[a [v0 [y [e0 [y' [H1 [H2 H3]]]]]]]];
          [now left | right; exists a, v0, y, e0, y'; cbn; auto].
    + eexists (Raise e), _, []. split; [reflexivity|]. cbn. rewrite app_nil_r.
      repeat split; auto; try lia.
      right. exists attr, v, (w_ext w), e, x0. repeat split; auto.
Qed.

End InvokerRuns.



(** Every run of the invoker is one of four: the first shape alone; the
    first and the second; the first, the second, attribute settings on
    the deployer among the four fallback names, and the call without
    arguments; or the first, the second, some of those settings, and then
    the error of a [hasattr] that raised, with no third call. It makes no
    other call, in no other order, and reads no input. *)
Theorem invoker_calls_in_order :
  forall (X : Externals) (deployer : Client) (pkg : ApplicationPackage)
         (root : string) (w : World X) (r : Res VespaApp) (w' : World X),
    _deploy_with_pyvespa deployer pkg root w = (r, w') ->
    w_stdin w' = w_stdin w /\
    exists evs,
      w_trace w' = (w_trace w ++ evs)%list /\
      (evs = [EvDeploy deployer (ByPackage pkg)] \/
       evs = [EvDeploy deployer (ByPackage pkg); EvDeploy deployer (ByRoot root)] \/
       exists sets,
         Forall (sets_fallback_attr deployer) sets /\
         (evs = ([EvDeploy deployer (ByPackage pkg); EvDeploy deployer (ByRoot root)]
                 ++ sets ++ [EvDeploy deployer NoArgs])%list \/
          (evs = ([EvDeploy deployer (ByPackage pkg); EvDeploy deployer (ByRoot root)]
                  ++ sets)%list /\
           exists attr x e x',
             In attr fallback_attrs /\
             client_hasattr X deployer attr x = (Raise e, x') /\ r = Raise e))).
Proof.
  intros X deployer pkg root w r w' H.
  unfold _deploy_with_pyvespa in H. unfold bind at 1 in H.
  destruct (client_deploy X deployer (ByPackage pkg) (w_ext w)) as [r1 x1] eqn:H1.
  rewrite (try_shape_run _ _ _ _ _ H1) in H.
  set (w1 := advance w x1 (w_stdin w) [EvDeploy deployer (ByPackage pkg)]) in H.
  assert (Hone : forall r0, (r0, w1) = (r, w') ->
            w_stdin w' = w_stdin w /\
            exists evs, w_trace w' = (w_trace w ++ evs)%list /\
                        evs = [EvDeploy deployer (ByPackage pkg)]).
  { intros r0 E. injection E as _ <-. split; [reflexivity|].
    eexists. split; reflexivity. }
  assert (Hfirst : forall r0, (r0, w1) = (r, w') ->
            w_stdin w' = w_stdin w /\
            exists evs,
              w_trace w' = (w_trace w ++ evs)%list /\
              (evs = [EvDeploy deployer (ByPackage pkg)] \/
               evs = [EvDeploy deployer (ByPackage pkg); EvDeploy deployer (ByRoot root)] \/
               exists sets,
                 Forall (sets_fallback_attr deployer) sets /\
                 (evs = ([EvDeploy deployer (ByPackage pkg);
                          EvDeploy deployer (ByRoot root)]
                         ++ sets ++ [EvDeploy deployer NoArgs])%list \/
                  (evs = ([EvDeploy deployer (ByPackage pkg);
                           EvDeploy deployer (ByRoot root)] ++ sets)%list /\
                   exists attr x e x',
                     In attr fallback_attrs /\
                     client_hasattr X deployer attr x = (Raise e, x') /\ r = Raise e)))).
  { intros r0 E. destruct (Hone r0 E) as [Hs [evs [Ht ->]]].
    split; [exact Hs|]. eexists. split; [exact Ht | now left]. }
  destruct r1 as [app|e1]; [exact (Hfirst _ H)|].
  destruct (_should_fallback e1); [|exact (Hfirst _ H)].
  clear Hone Hfirst. unfold bind at 1 in H.
  destruct (client_deploy X deployer (ByRoot root) (w_ext w1)) as [r2 x2] eqn:H2.
  rewrite (try_shape_run _ _ _ _ _ H2) in H.
  set (w2 := advance w1 x2 (w_stdin w1) [EvDeploy deployer (ByRoot root)]) in H.
  assert (Htwo : forall r0, (r0, w2) = (r, w') ->
            w_stdin w' = w_stdin w /\
            exists evs,
              w_trace w' = (w_trace w ++ evs)%list /\
              (evs = [EvDeploy deployer (ByPackage pkg)] \/
               evs = [EvDeploy deployer (ByPackage pkg); EvDeploy deployer (ByRoot root)] \/
               exists sets,
                 Forall (sets_fallback_attr deployer) sets /\
                 (evs = ([EvDeploy deployer (ByPackage pkg);
                          EvDeploy deployer (ByRoot root)]
                         ++ sets ++ [EvDeploy deployer NoArgs])%list \/
                  (evs = ([EvDeploy deployer (ByPackage pkg);
                           EvDeploy deployer (ByRoot root)] ++ sets)%list /\
                   exists attr x e x',
                     In attr fallback_attrs /\
                     client_hasattr X deployer attr x = (Raise e, x') /\ r = Raise e)))).
  { intros r0 E. injection E as _ <-. split; [reflexivity|].
    exists [EvDeploy deployer (ByPackage pkg); EvDeploy deployer (ByRoot root)].
    split; [|now right; left]. cbn. now rewrite <- app_assoc. }
  destruct r2 as [app|e2]; [exact (Htwo _ H)|].
  destruct (_should_fallback e2); [|exact (Htwo _ H)].
  clear Htwo. unfold bind at 1 in H.
  destruct (set_attrs_run deployer
              [("application_package", VPkg pkg); ("app_package", VPkg pkg);
               ("package", VPkg pkg); ("application_root", VStr root)] w2)
    as [r3 [w3 [sets [Hrun [Ht [Hin [_ [Hall Hr]]]]]]]].
  rewrite Hrun in H.
  assert (Hsets : Forall (sets_fallback_attr deployer) sets).
  { eapply Forall_impl; [|exact Hall]. cbn.
    intros ev [a [v0 [y [y' [E1 [E2 _]]]]]]. exists a, v0. split; [exact E1|].
    unfold fallback_attrs. cbn in E2.
    destruct E2 as [E2|[E2|[E2|[E2|[]]]]]; injection E2 as <- _; cbn; auto. }
  destruct Hr as [->|[a [v0 [y [e0 [y' [E2 [E3 ->]]]]]]]].
  - destruct (client_deploy X deployer NoArgs (w_ext w3)) as [r4 x4] eqn:H4.
    rewrite (deploy_call_run _ _ _ _ _ H4) in H. injection H as _ <-.
    split; [cbn; exact Hin|].
    exists ([EvDeploy deployer (ByPackage pkg); EvDeploy deployer (ByRoot root)]
            ++ sets ++ [EvDeploy deployer NoArgs])%list.
    split.
    + cbn [advance w_trace]. rewrite Ht. cbn [w2 w1 advance w_trace].
      rewrite <- !app_assoc. reflexivity.
    + right; right. exists sets. split; [exact Hsets | now left].
  - injection H as <- <-. split; [exact Hin|].
    exists ([EvDeploy deployer (ByPackage pkg); EvDeploy deployer (ByRoot root)]
            ++ sets)%list.
    split.
    + rewrite Ht. cbn [w2 w1 advance w_trace]. rewrite <- !app_assoc. reflexivity.
    + right; right. exists sets. split; [exact Hsets|]. right.
      split; [reflexivity|]. exists a, y, e0, y'. split; [|split; [exact E3|reflexivity]].
      unfold fallback_attrs. cbn in E2.
      destruct E2 as [E2|[E2|[E2|[E2|[]]]]]; injection E2 as <- _; cbn; auto.
Qed.

Lemma invoker_calls_in_order_witness :
  let e := mkExn TypeError "deploy() takes 1 positional argument" in
  let w : World faulty_getter :=
    mkWorld ([Raise e; Raise e; Ok demo_app] : Ext faulty_getter) (Ok false) []
            (mkDate 2024 2 25) None [] in
  exists w',
    _deploy_with_pyvespa 1%nat demo_package "/srv/app" w
      = (Raise (mkExn RuntimeError "package is not built yet"), w') /\
    w_trace w' =
      [EvDeploy 1%nat (ByPackage demo_package); EvDeploy 1%nat (ByRoot "/srv/app");
       EvSetattr 1%nat "application_package" (VPkg demo_package);
       EvSetattr 1%nat "app_package" (VPkg demo_package)] /\
    w_stdin w' = [].
Proof.
  intros e w.
  pose (w' := snd (_deploy_with_pyvespa 1%nat demo_package "/srv/app" w)).
  assert (H : _deploy_with_pyvespa 1%nat demo_package "/srv/app" w
              = (Raise (mkExn RuntimeError "package is not built yet"), w'))
    by (vm_compute; reflexivity).
  destruct (invoker_calls_in_order faulty_getter 1%nat demo_package "/srv/app" w
              _ w' H) as [Hs _].
  exists w'. split; [exact H|]. split; [vm_compute; reflexivity | exact Hs].
Defined.


(** ** More on the failure classifier *)

Lemma contains_wrap (needle hay a b : string) :
  PyStr.contains needle hay = true -> PyStr.contains needle (a ++ hay ++ b) = true.
Proof.
  rewrite !contains_spec. intros [pre [suf ->]].
  exists (a ++ pre), (suf ++ b). now rewrite !append_assoc.
Qed.

Lemma truthy_lower (s : string) : PyStr.truthy (PyStr.lower s) = PyStr.truthy s.
Proof. destruct s; reflexivity. Qed.

Lemma truthy_wrap (a m b : string) :
  PyStr.truthy m = true -> PyStr.truthy (a ++ m ++ b) = true.
Proof. intros H. destruct a; [|reflexivity]. destruct m; [discriminate|reflexivity]. Qed.

(** The classifier reads the lowered message only. *)
Lemma classifier_of_lowered (message : string) :
  _looks_like_cluster_removal_error message =
    PyStr.truthy (PyStr.lower message) &&
    (PyStr.contains _CLUSTER_REMOVAL_ALLOWLIST_TOKEN (PyStr.lower message)
     || (PyStr.contains "content cluster" (PyStr.lower message)
         && PyStr.contains "removed" (PyStr.lower message))).
Proof.
  unfold _looks_like_cluster_removal_error. rewrite truthy_lower.
  destruct (PyStr.truthy message); [|reflexivity]. cbn [negb andb].
  destruct (PyStr.contains _CLUSTER_REMOVAL_ALLOWLIST_TOKEN (PyStr.lower message));
    reflexivity.
Qed.

(** A classified message stays classified inside a longer one: whatever a
    caller or the platform puts before and after the text, the failure is
    still recognised as a cluster removal. *)
Theorem classifier_survives_wrapping :
  forall (before message after_ : string),
    _looks_like_cluster_removal_error message = true ->
    _looks_like_cluster_removal_error (before ++ message ++ after_) = true.
Proof.
  intros a m b. rewrite !classifier_of_lowered, !lower_app, !truthy_lower.
  rewrite !andb_true_iff, !orb_true_iff, !andb_true_iff.
  intros [Ht H]. split.
  - apply truthy_wrap. now rewrite truthy_lower.
  - destruct H as [H | [H1 H2]]; [left | right; split]; now apply contains_wrap.
Qed.

Lemma classifier_survives_wrapping_witness :
  _looks_like_cluster_removal_error
    ("Deployment failed: " ++ "content-cluster-removal" ++ " (HTTP 400)") = true.
Proof.
  exact (classifier_survives_wrapping "Deployment failed: " "content-cluster-removal"
           " (HTTP 400)" eq_refl).
Defined.

(** * Further properties of utils.py *)

(** ** chunks *)

Lemma skipn_slice {A} (xs : list A) (a b k : Z) :
  (0 <= a)%Z -> (0 <= k <= b - a)%Z ->
  skipn (Z.to_nat k) (slice xs a b) = slice xs (a + k) b.
Proof.
  intros Ha Hk. unfold slice.
  rewrite skipn_firstn_comm, skipn_skipn. f_equal; [lia|]. f_equal. lia.
Qed.

Lemma firstn_slice {A} (xs : list A) (a b k : Z) :
  (0 <= k <= b - a)%Z ->
  firstn (Z.to_nat k) (slice xs a b) = slice xs a (a + k).
Proof.
  intros Hk. unfold slice. rewrite firstn_firstn. f_equal. lia.
Qed.

(** A text longer than [chunk_size] words, with fuel for the loop: the
    chunks are the windows, [step] words apart. *)
Lemma chunks_long_run (text : string) (chunk_size overlap : Z) (fuel : nat) :
  let words := PyStr.split text in
  let word_count := Z.of_nat (List.length words) in
  let step := (chunk_size - overlap)%Z in
  (0 < chunk_size)%Z -> (0 <= overlap < chunk_size)%Z ->
  (chunk_size < word_count)%Z -> (word_count < Z.of_nat fuel)%Z ->
  exists chunk_list,
    chunks fuel text chunk_size overlap = Some (Ok chunk_list) /\
    ((Z.of_nat (List.length chunk_list) - 1) * step < word_count
       <= Z.of_nat (List.length chunk_list) * step)%Z /\
    forall i : nat,
      (i < List.length chunk_list)%nat ->
      let start := (Z.of_nat i * step)%Z in
      let stop := Z.min (start + chunk_size) word_count in
      (0 <= start < word_count)%Z /\
      nth i chunk_list "" = PyStr.join " " (slice words start stop) /\
      PyStr.split (nth i chunk_list "") = slice words start stop /\
      words_in (nth i chunk_list "") = Z.min chunk_size (word_count - start).
Proof.
  intros words word_count step Hcs Hov Hwc Hfuel.
  assert (E1 : (chunk_size <=? 0)%Z = false) by (apply Z.leb_gt; lia).
  assert (E2 : (overlap <? 0)%Z = false) by (apply Z.ltb_ge; lia).
  assert (E3 : (overlap >=? chunk_size)%Z = false)
    by (rewrite Z.geb_leb; apply Z.leb_gt; lia).
  assert (Hstep : (0 < step)%Z) by (unfold step; lia).
  destruct (chunks_loop_windows words chunk_size overlap Hstep fuel 0 [])
    as [L [Hrun [Hlen [_ Hnth]]]]; [lia | fold word_count; lia |].
  fold word_count in Hlen, Hnth. fold step in Hlen, Hnth.
  specialize (Hlen ltac:(lia)). rewrite Z.sub_0_r in Hlen.
  cbn [app] in Hrun.
  exists L. split; [|split; [exact Hlen|]].
  - unfold chunks. rewrite E1, E2, E3. fold words. fold word_count.
    rewrite (proj2 (Z.leb_gt _ _) Hwc), Hrun. reflexivity.
  - intros i Hi start stop.
    assert (Hstart : (0 <= start < word_count)%Z).
    { assert ((Z.of_nat i * step <= (Z.of_nat (List.length L) - 1) * step)%Z)
        by (apply Z.mul_le_mono_nonneg_r; lia).
      unfold start. split; [apply Z.mul_nonneg_nonneg; lia | lia]. }
    assert (Hn : nth i L "" = PyStr.join " " (slice words start stop)).
    { rewrite (Hnth i Hi). rewrite Z.add_0_l. reflexivity. }
    assert (Hsp : PyStr.split (nth i L "") = slice words start stop).
    { rewrite Hn. apply split_join, Forall_slice, split_words. }
    split; [exact Hstart|]. split; [exact Hn|]. split; [exact Hsp|].
    unfold words_in. rewrite Hsp, length_slice.
    + unfold stop. lia.
    + unfold stop. lia.
    + unfold stop. fold word_count. lia.
Qed.

(** No chunk is longer than [chunk_size] words and the result is never
    empty; a text longer than [chunk_size] words gives chunks of at least
    one word each, every one its words joined by single spaces, while a
    text of at most [chunk_size] words comes back as it is, its white
    space kept. *)
Theorem chunks_are_bounded :
  forall (text : string) (chunk_size overlap : Z) (fuel : nat),
    (0 < chunk_size)%Z -> (0 <= overlap < chunk_size)%Z ->
    (words_in text < Z.of_nat fuel)%Z ->
    exists chunk_list,
      chunks fuel text chunk_size overlap = Some (Ok chunk_list) /\
      chunk_list <> [] /\
      (forall c, In c chunk_list -> (words_in c <= chunk_size)%Z) /\
      ((chunk_size < words_in text)%Z ->
       forall c, In c chunk_list ->
                 (1 <= words_in c)%Z /\ PyStr.join " " (PyStr.split c) = c) /\
      ((words_in text <= chunk_size)%Z -> chunk_list = [text]).
Proof.
  intros text chunk_size overlap fuel Hcs Hov Hfuel.
  destruct (Z_lt_le_dec chunk_size (words_in text)) as [Hlong|Hshort].
  - destruct (chunks_long_run text chunk_size overlap fuel Hcs Hov Hlong Hfuel)
      as [L [Hrun [Hlen Hnth]]].
    exists L. split; [exact Hrun|]. split; [|split; [|split]].
    + intros ->. cbn in Hlen. unfold words_in in Hlong. lia.
    + intros c Hin. destruct (In_nth _ _ "" Hin) as [i [Hi <-]].
      destruct (Hnth i Hi) as [_ [_ [_ Hw]]]. rewrite Hw. lia.
    + intros _ c Hin. destruct (In_nth _ _ "" Hin) as [i [Hi <-]].
      destruct (Hnth i Hi) as [Hs [Hn [Hsp Hw]]]. split.
      * rewrite Hw. lia.
      * rewrite Hsp. symmetry. exact Hn.
    + intros Hshort. lia.
  - exists [text]. split; [|split; [discriminate|split; [|split]]].
    + unfold chunks.
      rewrite (proj2 (Z.leb_gt _ _) Hcs), (proj2 (Z.ltb_ge _ _) (proj1 Hov)).
      rewrite Z.geb_leb, (proj2 (Z.leb_gt _ _) (proj2 Hov)).
      unfold words_in in Hshort. now rewrite (proj2 (Z.leb_le _ _) Hshort).
    + intros c [<-|[]]. exact Hshort.
    + intros Hlong. lia.
    + reflexivity.
Qed.

Lemma chunks_are_bounded_witness :
  (exists chunk_list,
     chunks 8 "one two  three four five" 2 1 = Some (Ok chunk_list) /\
     forall c, In c chunk_list -> (words_in c <= 2)%Z) /\
  chunks 3 "  one   two " 5 0 = Some (Ok ["  one   two "]).
Proof.
  split.
  - destruct (chunks_are_bounded "one two  three four five" 2 1 8
                ltac:(lia) ltac:(lia) ltac:(vm_compute; reflexivity))
      as [L [Hrun [_ [Hb _]]]].
    exists L. split; [exact Hrun | exact Hb].
  - destruct (chunks_are_bounded "  one   two " 5 0 3
                ltac:(lia) ltac:(lia) ltac:(vm_compute; reflexivity))
      as [L [Hrun [_ [_ [_ Hshort]]]]].
    rewrite Hrun, (Hshort ltac:(vm_compute; discriminate)). reflexivity.
Defined.

(** Without overlap, a text of exactly [k] times [chunk_size] words
    ([k >= 2]) gives exactly [k] chunks, all of them full. *)
Theorem chunks_exact_division :
  forall (text : string) (chunk_size : Z) (k : nat) (fuel : nat),
    (0 < chunk_size)%Z -> (2 <= k)%nat ->
    words_in text = (Z.of_nat k * chunk_size)%Z ->
    (words_in text < Z.of_nat fuel)%Z ->
    exists chunk_list,
      chunks fuel text chunk_size 0 = Some (Ok chunk_list) /\
      List.length chunk_list = k /\
      forall c, In c chunk_list -> words_in c = chunk_size.
Proof.
  intros text chunk_size k fuel Hcs Hk Hwc Hfuel.
  assert (Hlong : (chunk_size < words_in text)%Z) by (rewrite Hwc; nia).
  destruct (chunks_long_run text chunk_size 0 fuel Hcs ltac:(lia) Hlong Hfuel)
    as [L [Hrun [Hlen Hnth]]].
  unfold words_in in Hwc. rewrite Hwc, Z.sub_0_r in Hlen.
  assert (Hn : List.length L = k) by nia.
  exists L. split; [exact Hrun|]. split; [exact Hn|].
  intros c Hin. destruct (In_nth _ _ "" Hin) as [i [Hi <-]].
  destruct (Hnth i Hi) as [_ [_ [_ Hw]]]. rewrite Hw, Hwc, Z.sub_0_r.
  assert ((Z.of_nat i + 1) * chunk_size <= Z.of_nat k * chunk_size)%Z
    by (apply Z.mul_le_mono_nonneg_r; lia).
  lia.
Qed.

Lemma chunks_exact_division_witness :
  exists chunk_list,
    chunks 7 "a b c d e f" 2 0 = Some (Ok chunk_list) /\
    List.length chunk_list = 3%nat.
Proof.
  destruct (chunks_exact_division "a b c d e f" 2 3 7
              ltac:(lia) ltac:(lia) ltac:(vm_compute; reflexivity)
              ltac:(vm_compute; reflexivity))
    as [L [Hrun [Hn _]]].
  exists L. split; [exact Hrun | exact Hn].
Defined.

(** Two consecutive full chunks share exactly [overlap] words: the last
    [overlap] words of the one are the first [overlap] words of the
    next. *)
Theorem chunks_share_overlap :
  forall (text : string) (chunk_size overlap : Z) (fuel : nat) (i : nat),
    let step := (chunk_size - overlap)%Z in
    (0 < chunk_size)%Z -> (0 <= overlap < chunk_size)%Z ->
    (words_in text < Z.of_nat fuel)%Z ->
    ((Z.of_nat i + 1) * step + chunk_size <= words_in text)%Z ->
    exists chunk_list,
      chunks fuel text chunk_size overlap = Some (Ok chunk_list) /\
      (S i < List.length chunk_list)%nat /\
      words_in (nth i chunk_list "") = chunk_size /\
      words_in (nth (S i) chunk_list "") = chunk_size /\
      skipn (Z.to_nat step) (PyStr.split (nth i chunk_list ""))
      = firstn (Z.to_nat overlap) (PyStr.split (nth (S i) chunk_list "")).
Proof.
  intros text chunk_size overlap fuel i step Hcs Hov Hfuel Hfull.
  assert (Hstep : (0 < step)%Z) by (unfold step; lia).
  assert (Hi0 : (0 <= Z.of_nat i * step)%Z) by (apply Z.mul_nonneg_nonneg; lia).
  assert (Hlong : (chunk_size < words_in text)%Z) by lia.
  destruct (chunks_long_run text chunk_size overlap fuel Hcs Hov Hlong Hfuel)
    as [L [Hrun [Hlen Hnth]]].
  fold step in Hlen, Hnth. unfold words_in in Hfull, Hlong.
  assert (HSi : (S i < List.length L)%nat).
  { assert (Z.of_nat (S i) < Z.of_nat (List.length L))%Z; [|lia].
    apply (Z.mul_lt_mono_pos_r step); lia. }
  exists L. split; [exact Hrun|]. split; [exact HSi|].
  destruct (Hnth i ltac:(lia)) as [_ [_ [Hsp0 Hw0]]].
  destruct (Hnth (S i) HSi) as [_ [_ [Hsp1 Hw1]]].
  replace (Z.of_nat (S i) * step)%Z with (Z.of_nat i * step + step)%Z in * by lia.
  split; [rewrite Hw0; lia|]. split; [rewrite Hw1; lia|].
  rewrite Hsp0, Hsp1.
  rewrite !Z.min_l by lia.
  rewrite skipn_slice by lia.
  rewrite firstn_slice by lia.
  f_equal. unfold step. lia.
Qed.

Lemma chunks_share_overlap_witness :
  exists chunk_list,
    chunks 8 "a b c d e f g" 3 1 = Some (Ok chunk_list) /\
    skipn 2 (PyStr.split (nth 0 chunk_list ""))
    = firstn 1 (PyStr.split (nth 1 chunk_list "")).
Proof.
  destruct (chunks_share_overlap "a b c d e f g" 3 1 8 0
              ltac:(lia) ltac:(lia) ltac:(vm_compute; reflexivity)
              ltac:(vm_compute; discriminate))
    as [L [Hrun [_ [_ [_ H]]]]].
  exists L. split; [exact Hrun | exact H].
Defined.

(** Without overlap the loop cuts the remaining words into consecutive
    chunks: their words, put end to end, are the words from [start] on. *)
Lemma chunks_loop_partition (words : list string) (chunk_size : Z) (fuel : nat) :
  (0 < chunk_size)%Z -> Forall (fun w => is_word w = true) words ->
  forall (start : Z) (acc : list string),
    (0 <= start)%Z ->
    (Z.max 0 (Z.of_nat (List.length words) - start) < Z.of_nat fuel)%Z ->
    exists L : list string,
      chunks_loop fuel words chunk_size 0 start acc = Some (acc ++ L)%list /\
      List.concat (map PyStr.split L) = skipn (Z.to_nat start) words.
Proof.
  intros Hcs Hwords.
  induction fuel as [|fuel IH]; intros start acc Hs Hf; [lia|].
  cbn [chunks_loop].
  destruct (start <? Z.of_nat (List.length words))%Z eqn:E.
  - apply Z.ltb_lt in E. rewrite Z.sub_0_r.
    destruct (IH (start + chunk_size)%Z
                 (acc ++ [PyStr.join " "
                            (slice words start
                               (Z.min (start + chunk_size)
                                      (Z.of_nat (List.length words))))])%list)
      as [L [Hrun Hcat]]; [lia | lia |].
    eexists (_ :: L). split.
    + rewrite Hrun, <- app_assoc. reflexivity.
    + cbn [map List.concat]. rewrite Hcat.
      rewrite (split_join _ (Forall_slice _ _ _ _ Hwords)).
      unfold slice.
      replace (Z.to_nat (start + chunk_size))
        with (Z.to_nat chunk_size + Z.to_nat start)%nat by lia.
      rewrite <- skipn_skipn.
      set (rest := skipn (Z.to_nat start) words).
      assert (Hrest : List.length rest = (List.length words - Z.to_nat start)%nat)
        by (unfold rest; apply length_skipn).
      destruct (Z_le_gt_dec (start + chunk_size) (Z.of_nat (List.length words)))
        as [Hle|Hgt].
      * rewrite Z.min_l by lia.
        replace (Z.to_nat (start + chunk_size - start)) with (Z.to_nat chunk_size)
          by lia.
        apply firstn_skipn.
      * rewrite Z.min_r by lia.
        rewrite firstn_all2 by lia.
        rewrite skipn_all2 by lia.
        apply app_nil_r.
  - apply Z.ltb_ge in E. exists []. rewrite app_nil_r. split; [reflexivity|].
    cbn. symmetry. apply skipn_all2. lia.
Qed.

(** Without overlap, chunking loses no word and repeats none: the words of
    the chunks, in order, are the words of the text. *)
Theorem chunks_without_overlap_partition :
  forall (text : string) (chunk_size : Z) (fuel : nat),
    (0 < chunk_size)%Z -> (words_in text < Z.of_nat fuel)%Z ->
    exists chunk_list,
      chunks fuel text chunk_size 0 = Some (Ok chunk_list) /\
      List.concat (map PyStr.split chunk_list) = PyStr.split text.
Proof.
  intros text chunk_size fuel Hcs Hfuel. unfold chunks.
  rewrite (proj2 (Z.leb_gt _ _) Hcs). cbn [Z.ltb Z.compare].
  rewrite Z.geb_leb, (proj2 (Z.leb_gt _ _) Hcs).
  destruct (Z.of_nat (List.length (PyStr.split text)) <=? chunk_size)%Z eqn:E.
  - exists [text]. split; [reflexivity|]. cbn. apply app_nil_r.
  - destruct (chunks_loop_partition (PyStr.split text) chunk_size fuel Hcs
                (split_words text) 0 []) as [L [Hrun Hcat]];
      [lia | unfold words_in in Hfuel; lia |].
    exists L. rewrite Hrun. split; [reflexivity | exact Hcat].
Qed.

Lemma chunks_without_overlap_partition_witness :
  exists chunk_list,
    chunks 6 " to be  or not to " 2 0 = Some (Ok chunk_list) /\
    List.concat (map PyStr.split chunk_list) = ["to"; "be"; "or"; "not"; "to"].
Proof.
  destruct (chunks_without_overlap_partition " to be  or not to " 2 6
              ltac:(lia) ltac:(vm_compute; reflexivity)) as [L [Hrun Hcat]].
  exists L. split; [exact Hrun | exact Hcat].
Defined.

(** ** utils.py: TLS settings and client arguments *)

(** Without a deploy configuration the TLS settings are read from the
    environment: the three paths as they are set, and [verify] from
    [VESPA_TLS_VERIFY]. Unset or empty it is the default; otherwise it is
    true exactly for "1", "true" and "yes" up to case and surrounding
    white space, so a value of white space only turns verification off
    whatever the default. *)
Theorem tls_settings_from_environment :
  forall (default : bool) (env : Environ)
         (cert key ca : option string) (verify : bool),
    get_tls_config_from_deploy default env None = (cert, key, ca, verify) ->
    cert = getenv env "VESPA_CLIENT_CERT" /\
    key = getenv env "VESPA_CLIENT_KEY" /\
    ca = getenv env "VESPA_CA_CERT" /\
    (getenv env "VESPA_TLS_VERIFY" = None \/ getenv env "VESPA_TLS_VERIFY" = Some "" ->
     verify = default) /\
    (forall v, getenv env "VESPA_TLS_VERIFY" = Some v -> v <> "" ->
               (verify = true <->
                (PyStr.lower (PyStr.strip v) = "1" \/
                 PyStr.lower (PyStr.strip v) = "true" \/
                 PyStr.lower (PyStr.strip v) = "yes")) /\
               (PyStr.strip v = "" -> verify = false)).
Proof.
  intros default env cert key ca verify H. unfold get_tls_config_from_deploy in H.
  injection H as <- <- <- <-. repeat split.
  - intros [E|E]; rewrite E; reflexivity.
  - rewrite H. destruct v as [|c v]; [contradiction|]. cbn [PyStr.truthy].
    unfold verify_flag. cbn [existsb].
    rewrite !orb_true_iff, !String.eqb_eq. intuition discriminate.
  - rewrite H. destruct v as [|c v]; [contradiction|]. cbn [PyStr.truthy].
    unfold verify_flag. cbn [existsb].
    rewrite !orb_true_iff, !String.eqb_eq. intuition discriminate.
  - intros Hs. rewrite H. destruct v as [|c v]; [contradiction|]. cbn [PyStr.truthy].
    unfold verify_flag. rewrite Hs. reflexivity.
Qed.

Lemma tls_settings_from_environment_witness :
  exists verify,
    get_tls_config_from_deploy true
      [("VESPA_CA_CERT", "/etc/ca.pem"); ("VESPA_TLS_VERIFY", "  ")] None
    = (None, None, Some "/etc/ca.pem", verify) /\ verify = false.
Proof.
  pose (env := [("VESPA_CA_CERT", "/etc/ca.pem"); ("VESPA_TLS_VERIFY", "  ")]).
  destruct (tls_settings_from_environment true env None None (Some "/etc/ca.pem") false
              eq_refl) as [_ [_ [_ [_ H]]]].
  destruct (H "  " eq_refl ltac:(discriminate)) as [_ Hblank].
  exists false. split; [reflexivity | exact (Hblank eq_refl)].
Defined.

(** The four blocks of keyword arguments, in the order in which
    [make_vespa_client] fills [kwargs]. *)
Lemma make_vespa_client_kwargs_blocks (V : Type) (sig : option (list string))
    (url : string) (port : Z) (cert_path key_path ca_cert : option string)
    (verify : option V) :
  exists a cb cab vb,
    make_vespa_client_kwargs sig url port cert_path key_path ca_cert verify
    = (a ++ cb ++ cab ++ vb)%list /\
    ((sig_declares sig "endpoint" = true /\
      a = [("endpoint", AStr (url ++ ":" ++ str_of_int port))]) \/
     (sig_declares sig "endpoint" = false /\
      a = [("url", AStr url); ("port", AInt port)])) /\
    (cb = [] \/
     (exists c k, cert_path = Some c /\ key_path = Some k /\
                  sig_declares sig "cert" = true /\ sig_declares sig "key" = true /\
                  cb = [("cert", AStr c); ("key", AStr k)]) \/
     (exists c k, cert_path = Some c /\ key_path = Some k /\
                  sig_declares sig "cert" = true /\ sig_declares sig "key" = false /\
                  cb = [("cert", ACertPair c k)])) /\
    (cab = [] \/
     (exists ca, ca_cert = Some ca /\ sig_declares sig "ca_cert" = true /\
                 cab = [("ca_cert", AStr ca)])) /\
    (vb = [] \/
     (exists v, verify = Some v /\ sig_declares sig "verify" = true /\
                vb = [("verify", AVerify v)])).
Proof.
  unfold make_vespa_client_kwargs.
  do 4 eexists. split; [reflexivity|]. repeat split.
  - destruct (sig_declares sig "endpoint"); auto.
  - destruct cert_path as [c|]; auto. destruct key_path as [k|]; auto.
    destruct (PyStr.truthy c); cbn [andb]; auto.
    destruct (PyStr.truthy k); cbn [andb]; auto.
    destruct (sig_declares sig "cert") eqn:Ec; auto.
    destruct (sig_declares sig "key") eqn:Ek.
    + right; left. exists c, k. auto.
    + right; right. exists c, k. auto.
  - destruct ca_cert as [ca|]; auto.
    destruct (PyStr.truthy ca); cbn [andb]; auto.
    destruct (sig_declares sig "ca_cert") eqn:Ea; auto.
    right. exists ca. auto.
  - destruct verify as [v|]; auto.
    destruct (sig_declares sig "verify") eqn:Ev; auto.
    right. exists v. auto.
Qed.

(** The [Vespa] client is addressed in exactly one way, by [endpoint] when
    the constructor declares it and by [url] and [port] otherwise; apart
    from [url] and [port] only declared parameters are passed, each once;
    a [key] goes with a [cert], and the pair form of [cert] is used only
    when [key] is not declared. *)
Theorem vespa_client_kwargs_shape :
  forall (V : Type) (sig : option (list string)) (url : string) (port : Z)
         (cert_path key_path ca_cert : option string) (verify : option V),
    let kwargs :=
      make_vespa_client_kwargs sig url port cert_path key_path ca_cert verify in
    let keys := map fst kwargs in
    NoDup keys /\
    (In "endpoint" keys <-> sig_declares sig "endpoint" = true) /\
    (In "endpoint" keys -> ~ In "url" keys /\ ~ In "port" keys) /\
    (~ In "endpoint" keys -> In ("url", AStr url) kwargs /\ In ("port", AInt port) kwargs) /\
    (forall k, In k keys -> k = "url" \/ k = "port" \/ sig_declares sig k = true) /\
    (In "key" keys -> exists c, In ("cert", AStr c) kwargs) /\
    (forall c k, In ("cert", ACertPair c k) kwargs ->
                 cert_path = Some c /\ key_path = Some k /\
                 sig_declares sig "key" = false).
Proof.
  intros V sig url port cert_path key_path ca_cert verify kwargs keys.
  subst keys kwargs.
  destruct (make_vespa_client_kwargs_blocks V sig url port cert_path key_path
              ca_cert verify) as (a & cb & cab & vb & -> & Ha & Hcb & Hcab & Hvb).
  destruct Ha as [[Ee ->]|[Ee ->]];
    destruct Hcb as [->|[(c & k & -> & -> & Ec & Ek & ->)|(c & k & -> & -> & Ec & Ek & ->)]];
    destruct Hcab as [->|(ca & -> & Ea & ->)];
    destruct Hvb as [->|(v & -> & Ev & ->)];
    cbn [app map fst];
    (split; [repeat (apply NoDup_cons; [cbn; intuition discriminate|]); apply NoDup_nil|]);
    (split; [cbn; split; [intros H; (exact Ee || (exfalso; intuition discriminate))
                         | intros H; try (left; reflexivity); congruence]|]);
    (split; [cbn; intuition discriminate|]);
    (split; [cbn; intuition (try discriminate; auto)|]);
    (split; [intros k0 Hin; cbn in Hin;
             repeat (destruct Hin as [<-|Hin]; [auto|]); contradiction|]);
    (split; [cbn; intros Hin; try (exists c; tauto);
             exfalso; intuition discriminate|]);
    (intros c0 k0 Hin; cbn in Hin;
     repeat (destruct Hin as [Hin|Hin];
             [try discriminate Hin; injection Hin as <- <-; auto|]);
     contradiction).
Qed.
